(** * percentman: the request executor, the local store and the screens

    A shallow embedding of the Go packages [models], [http], [storage]
    and [ui] of percentman, the properties of its specification that
    concern them, and further properties of the code.

    Go values that are references (the backing array of a [[]Header], a
    [map[string]string]) live in an explicit [Heap]; a struct that holds
    such a value holds its address, so that copying the struct shares
    the object, as in Go.  What the program takes from outside itself
    (net/http, encoding/json, the file system, the clock, uuid) is an
    explicit argument of the function that uses it. *)

From Stdlib Require Import ZArith Ascii String.
From Stdlib Require OrderedTypeEx.
From stdpp Require Import base gmap strings list fin_maps sorting pretty.

(** The double quote and the line feed, for the texts that contain one. *)
Definition dquote : string := String "034"%char EmptyString.
Definition nl : string := String "010"%char EmptyString.

(** Go's [error] values, as far as the program tells them apart:
    [os.IsNotExist] holds of the first kind only. *)
Inductive error :=
| ErrNotExist (path : string)
| Err (msg : string).

Definition IsNotExist (e : error) : bool :=
  match e with ErrNotExist _ => true | Err _ => false end.

(** * Package models *)
Module models.

Definition loc := positive.

Module Header.
Record t := mk { Key : string; Value : string; Enabled : bool }.
(** The zero value of the struct, as [make] fills a new array. *)
Definition zero : t := {| Key := ""; Value := ""; Enabled := false |}.
End Header.

(** A slice value [[]Header]: the address of its backing array and its
    length.  The nil slice and the empty slice have length 0. *)
Record HeaderSlice := { array : loc; len : nat }.

Module Request.
Record t := mk {
  Method : string;
  URL : string;
  Headers : HeaderSlice;
  Body : string }.
End Request.

Module Response.
(** [Headers] is a Go map: [None] is the nil map, [Some l] the map
    object at address [l].  [ResponseTime] is a [time.Duration], in
    nanoseconds; machine integers are unbounded here, the status codes
    and the times of the program being far from the bounds of [int] and
    [int64]. *)
Record t := mk {
  StatusCode : Z;
  Status : string;
  Headers : option loc;
  Body : string;
  ResponseTime : Z;
  Error : string }.
(** [&models.Response{}] *)
Definition zero : t :=
  {| StatusCode := 0; Status := ""; Headers := None; Body := "";
     ResponseTime := 0; Error := "" |}.
End Response.

Module Template.
Record t := mk {
  ID : string;
  Name : string;
  Request : Request.t;
  CreatedAt : Z;
  UpdatedAt : Z }.
End Template.

Module HistoryItem.
Record t := mk {
  ID : string;
  Request : Request.t;
  Response : Response.t;
  Timestamp : Z }.
End HistoryItem.

(** The objects that slices and maps of the program point to. *)
Record Heap := {
  arrays : gmap loc (list Header.t);
  hmaps : gmap loc (gmap string string) }.

Definition emptyHeap : Heap := {| arrays := ∅; hmaps := ∅ |}.

(** The elements [s[0] .. s[len(s)-1]] of a slice.  The array of a slice
    that the program made holds at least that many; for any other pair
    of an address and a length the missing elements read as zero. *)
Definition elems (h : Heap) (s : HeaderSlice) : list Header.t :=
  resize (len s) Header.zero (default [] (arrays h !! array s)).

(** [s[i] = x]; [None] is the run-time panic of an index out of range. *)
Definition store_elem (s : HeaderSlice) (i : nat) (x : Header.t) (h : Heap)
  : option Heap :=
  if decide (i < len s)
  then Some {| arrays := alter (λ a, <[i := x]> a) (array s) (arrays h);
               hmaps := hmaps h |}
  else None.

(** [make([]Header, n)] *)
Definition make_headers (n : nat) (h : Heap) : HeaderSlice * Heap :=
  let a := fresh (dom (arrays h)) in
  ({| array := a; len := n |},
   {| arrays := <[a := replicate n Header.zero]> (arrays h);
      hmaps := hmaps h |}).

(** [copy(dst, src)]: the first [min(len(dst), len(src))] elements. *)
Definition copy_headers (dst src : HeaderSlice) (h : Heap) : Heap :=
  let n := len dst `min` len src in
  let data := take n (elems h src) in
  {| arrays := alter (λ old, data ++ drop n old) (array dst) (arrays h);
     hmaps := hmaps h |}.

(** [NewRequest] *)
Definition NewRequest (h : Heap) : Request.t * Heap :=
  let '(hs, h1) := make_headers 0 h in
  ({| Request.Method := "GET"; Request.URL := "";
      Request.Headers := hs; Request.Body := "" |}, h1).

(** [(r *Request) Clone] *)
Definition Clone (r : Request.t) (h : Heap) : Request.t * Heap :=
  let '(headers, h1) := make_headers (len (Request.Headers r)) h in
  let h2 := copy_headers headers (Request.Headers r) h1 in
  ({| Request.Method := Request.Method r;
      Request.URL := Request.URL r;
      Request.Headers := headers;
      Request.Body := Request.Body r |}, h2).

End models.

(** * What the program uses of net/http and net/textproto *)
Module nethttp.

Definition in_range (lo hi : nat) (c : ascii) : bool :=
  (lo <=? nat_of_ascii c)%nat && (nat_of_ascii c <=? hi)%nat.

Definition isLower : ascii → bool := in_range 97 122.
Definition isUpper : ascii → bool := in_range 65 90.
Definition isDigit : ascii → bool := in_range 48 57.

Definition toUpper (c : ascii) : ascii := ascii_of_nat (nat_of_ascii c - 32).
Definition toLower (c : ascii) : ascii := ascii_of_nat (nat_of_ascii c + 32).

(** The bytes of an RFC 7230 token: letters, digits and a few signs. *)
Definition validHeaderFieldByte (c : ascii) : bool :=
  isLower c || isUpper c || isDigit c
  || existsb (Ascii.eqb c) (list_ascii_of_string "!#$%&'*+-.^_`|~").

(** First letter and every letter after a hyphen in upper case, the
    other letters in lower case. *)
Fixpoint canonicalize (upper : bool) (s : string) : string :=
  match s with
  | EmptyString => EmptyString
  | String c s' =>
      let c' := if upper && isLower c then toUpper c
                else if negb upper && isUpper c then toLower c
                else c in
      String c' (canonicalize (Ascii.eqb c' "-") s')
  end.

(** [textproto.CanonicalMIMEHeaderKey]: a key that holds a space or any
    other byte that is not a token byte is returned as it is. *)
Definition CanonicalMIMEHeaderKey (s : string) : string :=
  if forallb validHeaderFieldByte (list_ascii_of_string s)
  then canonicalize true s
  else s.

(** [http.Header], a [map[string][]string]. *)
Abbreviation Header := (gmap string (list string)).

(** [Header.Set]: the values of the canonical key are replaced. *)
Definition Set_ (hd : Header) (key value : string) : Header :=
  <[CanonicalMIMEHeaderKey key := [value]]> hd.

(** [Header.Get]: the first value of the canonical key, or "". *)
Definition Get (hd : Header) (key : string) : string :=
  match hd !! CanonicalMIMEHeaderKey key with
  | Some (v :: _) => v
  | _ => ""
  end.

Module Request.
Record t := mk {
  Method : string;
  URL : string;
  Header : gmap string (list string);
  Body : option string }.
End Request.

Module Response.
(** [Body] is what [io.ReadAll] makes of the body stream: all its bytes,
    or the cause of the failed read. *)
Record t := mk {
  StatusCode : Z;
  Status : string;
  Header : gmap string (list string);
  Body : string + string }.
End Response.

(** The network as the client sees it.  [invalid method url] is the error
    with which [http.NewRequest] refuses its arguments, if it does;
    [RoundTrip r] is what the client's [Do] makes of [r]: the time it
    takes, in nanoseconds, and a response or the error. *)
Record Net := {
  invalid : string → string → option string;
  RoundTrip : Request.t → Z * (Response.t + string) }.

(** [http.NewRequest]; an empty method means GET. *)
Definition NewRequest (N : Net) (method url : string) (body : option string)
  : Request.t + string :=
  match invalid N method url with
  | Some err => inr err
  | None =>
      inl {| Request.Method := if decide (method = "") then "GET" else method;
             Request.URL := url;
             Request.Header := ∅;
             Request.Body := body |}
  end.

(** The clock, and the requests that went out so far, oldest first. *)
Record World := { clock : Z; wire : list Request.t }.

(** [time.Now] *)
Definition Now (w : World) : Z := clock w.

(** [time.Since] *)
Definition Since (start : Z) (w : World) : Z := (clock w - start)%Z.

(** [c.httpClient.Do]: the request goes out and time passes. *)
Definition Do (N : Net) (r : Request.t) (w : World)
  : (Response.t + string) * World :=
  let '(latency, result) := RoundTrip N r in
  (result, {| clock := (clock w + latency)%Z; wire := wire w ++ [r] |}).

End nethttp.

(** * Package http *)
Module httpclient.
Import models.

(** The loop over [req.Headers]. *)
Definition addHeaders (hs : list Header.t) (hd : nethttp.Header)
  : nethttp.Header :=
  foldl (λ acc h,
           if Header.Enabled h && negb (String.eqb (Header.Key h) "")
           then nethttp.Set_ acc (Header.Key h) (Header.Value h)
           else acc) hd hs.

(** The default Content-Type of a request with a body. *)
Definition defaultContentType (body : string) (hd : nethttp.Header)
  : nethttp.Header :=
  if negb (String.eqb body "")
     && String.eqb (nethttp.Get hd "Content-Type") ""
  then nethttp.Set_ hd "Content-Type" "application/json"
  else hd.

(** The copy of the response headers, values joined with ", ". *)
Definition joinHeaders (hd : nethttp.Header) : gmap string string :=
  (λ v, String.concat ", " v) <$> filter (λ kv, 0 < length kv.2) hd.

(** The URL with [http://] before it when it names no protocol. *)
Definition withScheme (url : string) : string :=
  if negb (String.prefix "http://" url) && negb (String.prefix "https://" url)
  then "http://" +:+ url
  else url.

(** The part of [SendRequest] that builds the request: the request as
    it is handed to the network, or the error of [http.NewRequest]. *)
Definition outgoing (N : nethttp.Net) (req : Request.t) (h : Heap)
  : nethttp.Request.t + string :=
  let url := withScheme (Request.URL req) in
  let body := if decide (Request.Body req = "") then None
              else Some (Request.Body req) in
  match nethttp.NewRequest N (Request.Method req) url body with
  | inr err => inr err
  | inl httpReq =>
      let hd := addHeaders (elems h (Request.Headers req))
                           (nethttp.Request.Header httpReq) in
      let hd := defaultContentType (Request.Body req) hd in
      inl {| nethttp.Request.Method := nethttp.Request.Method httpReq;
             nethttp.Request.URL := nethttp.Request.URL httpReq;
             nethttp.Request.Header := hd;
             nethttp.Request.Body := nethttp.Request.Body httpReq |}
  end.

(** [(c *Client) SendRequest] *)
Definition SendRequest (N : nethttp.Net) (req : Request.t)
    (h : Heap) (w : nethttp.World) : Response.t * Heap * nethttp.World :=
  if decide (Request.URL req = "") then
    ({| Response.StatusCode := 0; Response.Status := "";
        Response.Headers := None; Response.Body := "";
        Response.ResponseTime := 0;
        Response.Error := "URL is required" |}, h, w)
  else
    match outgoing N req h with
    | inr err =>
        ({| Response.StatusCode := 0; Response.Status := "";
            Response.Headers := None; Response.Body := "";
            Response.ResponseTime := 0;
            Response.Error := err |}, h, w)
    | inl httpReq =>
        let startTime := nethttp.Now w in
        let '(result, w1) := nethttp.Do N httpReq w in
        let elapsed := nethttp.Since startTime w1 in
        match result with
        | inr err =>
            ({| Response.StatusCode := 0; Response.Status := "";
                Response.Headers := None; Response.Body := "";
                Response.ResponseTime := elapsed;
                Response.Error := err |}, h, w1)
        | inl httpResp =>
            let l := fresh (dom (hmaps h)) in
            let h1 :=
              {| arrays := arrays h;
                 hmaps := <[l := joinHeaders (nethttp.Response.Header httpResp)]>
                            (hmaps h) |} in
            match nethttp.Response.Body httpResp with
            | inr err =>
                ({| Response.StatusCode := nethttp.Response.StatusCode httpResp;
                    Response.Status := nethttp.Response.Status httpResp;
                    Response.Headers := Some l; Response.Body := "";
                    Response.ResponseTime := elapsed;
                    Response.Error :=
                      "Failed to read response body: " +:+ err |}, h1, w1)
            | inl bodyBytes =>
                ({| Response.StatusCode := nethttp.Response.StatusCode httpResp;
                    Response.Status := nethttp.Response.Status httpResp;
                    Response.Headers := Some l; Response.Body := bodyBytes;
                    Response.ResponseTime := elapsed;
                    Response.Error := "" |}, h1, w1)
            end
        end
    end.

(** encoding/json at the type [interface{}], over some type of decoded
    values: [MarshalIndent v prefix indent]. *)
Record JSON (value : Type) := {
  Unmarshal : string → value + error;
  MarshalIndent : value → string → string → string + error }.
Arguments Unmarshal {value}.
Arguments MarshalIndent {value}.

(** [FormatJSON] *)
Definition FormatJSON {value} (J : JSON value) (input : string) : string :=
  if decide (input = "") then ""
  else
    match Unmarshal J input with
    | inr _ => input
    | inl data =>
        match MarshalIndent J data "" "  " with
        | inr _ => input
        | inl formatted => formatted
        end
    end.

(** [IsJSON] *)
Definition IsJSON {value} (J : JSON value) (s : string) : bool :=
  match Unmarshal J s with
  | inl _ => true
  | inr _ => false
  end.

End httpclient.

(** * Package storage *)
Module storage.
Import models.

Definition maxHistoryItems : nat := 50.
Definition appDirName : string := ".gopostman".
Definition templatesFile : string := "templates.json".
Definition historyFile : string := "history.json".

(** The struct without its lock: the functions below are the critical
    sections, one at a time.  [templates] and [history] are the elements
    of the two slices, whose backing arrays only the store reaches. *)
Record Storage := {
  templates : list Template.t;
  history : list HistoryItem.t;
  dataDir : string }.

(** The file system and the environment, over some type of disk states. *)
Record OS (disk : Type) := {
  UserHomeDir : string + error;
  Join : string → string → string;
  MkdirAll : string → disk → option error * disk;
  ReadFile : string → disk → string + error;
  WriteFile : string → string → disk → option error * disk }.
Arguments UserHomeDir {disk}.
Arguments Join {disk}.
Arguments MkdirAll {disk}.
Arguments ReadFile {disk}.
Arguments WriteFile {disk}.

(** encoding/json at the two types the store persists.  Decoding gets
    the bytes and the present value of the target, allocates what it
    decodes and leaves the target as far as it came, with the error. *)
Record Codec := {
  MarshalTemplates : Heap → list Template.t → string + error;
  UnmarshalTemplates :
    string → list Template.t → Heap → list Template.t * Heap * option error;
  MarshalHistory : Heap → list HistoryItem.t → string + error;
  UnmarshalHistory :
    string → list HistoryItem.t → Heap
    → list HistoryItem.t * Heap * option error }.

(** The order in which [SaveTemplate] sorts: not [b.Name < a.Name]. *)
Definition byName (a b : Template.t) : Prop :=
  String.ltb (Template.Name b) (Template.Name a) = false.

(** [sort.Slice] with that order: some sorted rearrangement of the
    elements; which one, among templates of one name, is not fixed. *)
Record Sorter := {
  sortSlice : list Template.t → list Template.t;
  sortSlice_perm : ∀ l, sortSlice l ≡ₚ l;
  sortSlice_sorted : ∀ l, Sorted byName (sortSlice l) }.

Section Store.
Context {disk : Type} (O : OS disk) (J : Codec) (Srt : Sorter).

(** [loadTemplates] *)
Definition loadTemplates (s : Storage) (h : Heap) (d : disk)
  : option error * Storage * Heap :=
  match ReadFile O (Join O (dataDir s) templatesFile) d with
  | inr err => if IsNotExist err then (None, s, h) else (Some err, s, h)
  | inl data =>
      let '(ts, h1, err) := UnmarshalTemplates J data (templates s) h in
      (err, {| templates := ts; history := history s;
               dataDir := dataDir s |}, h1)
  end.

(** [loadHistory] *)
Definition loadHistory (s : Storage) (h : Heap) (d : disk)
  : option error * Storage * Heap :=
  match ReadFile O (Join O (dataDir s) historyFile) d with
  | inr err => if IsNotExist err then (None, s, h) else (Some err, s, h)
  | inl data =>
      let '(hs, h1, err) := UnmarshalHistory J data (history s) h in
      (err, {| templates := templates s; history := hs;
               dataDir := dataDir s |}, h1)
  end.

(** [NewStorage]: what the two loads return is dropped. *)
Definition NewStorage (h : Heap) (d : disk)
  : (Storage + error) * Heap * disk :=
  match UserHomeDir O with
  | inr err => (inr err, h, d)
  | inl homeDir =>
      let dataDir := Join O homeDir appDirName in
      match MkdirAll O dataDir d with
      | (Some err, d1) => (inr err, h, d1)
      | (None, d1) =>
          let s := {| templates := []; history := []; dataDir := dataDir |} in
          let '(_, s1, h1) := loadTemplates s h d1 in
          let '(_, s2, h2) := loadHistory s1 h1 d1 in
          (inl s2, h2, d1)
      end
  end.

(** [saveTemplates] *)
Definition saveTemplates (s : Storage) (h : Heap) (d : disk)
  : option error * disk :=
  match MarshalTemplates J h (templates s) with
  | inr err => (Some err, d)
  | inl data => WriteFile O (Join O (dataDir s) templatesFile) data d
  end.

(** [saveHistory] *)
Definition saveHistory (s : Storage) (h : Heap) (d : disk)
  : option error * disk :=
  match MarshalHistory J h (history s) with
  | inr err => (Some err, d)
  | inl data => WriteFile O (Join O (dataDir s) historyFile) data d
  end.

(** [GetTemplates]: a new array with copies of the structs. *)
Definition GetTemplates (s : Storage) : list Template.t := templates s.

(** [s.templates[i].Request = r; s.templates[i].UpdatedAt = now] *)
Definition refresh (r : Request.t) (now : Z) (t : Template.t) : Template.t :=
  {| Template.ID := Template.ID t;
     Template.Name := Template.Name t;
     Template.Request := r;
     Template.CreatedAt := Template.CreatedAt t;
     Template.UpdatedAt := now |}.

(** [SaveTemplate]; [now] is what [time.Now] gives in this call and
    [uuid] what [uuid.New().String()] gives when it is reached. *)
Definition SaveTemplate (now : Z) (uuid : string)
    (name : string) (req : Request.t) (s : Storage) (h : Heap) (d : disk)
  : (Template.t + error) * Storage * Heap * disk :=
  match list_find (λ t, Template.Name t = name) (templates s) with
  | Some (i, t) =>
      let '(r, h1) := Clone req h in
      let s1 := {| templates := <[i := refresh r now t]> (templates s);
                   history := history s; dataDir := dataDir s |} in
      match saveTemplates s1 h1 d with
      | (Some err, d1) => (inr err, s1, h1, d1)
      | (None, d1) => (inl (refresh r now t), s1, h1, d1)
      end
  | None =>
      let '(r, h1) := Clone req h in
      let template :=
        {| Template.ID := uuid; Template.Name := name;
           Template.Request := r;
           Template.CreatedAt := now; Template.UpdatedAt := now |} in
      let s1 := {| templates := sortSlice Srt (templates s ++ [template]);
                   history := history s; dataDir := dataDir s |} in
      match saveTemplates s1 h1 d with
      | (Some err, d1) => (inr err, s1, h1, d1)
      | (None, d1) => (inl template, s1, h1, d1)
      end
  end.

(** [DeleteTemplate] *)
Definition DeleteTemplate (id : string) (s : Storage) (h : Heap) (d : disk)
  : option error * Storage * disk :=
  match list_find (λ t, Template.ID t = id) (templates s) with
  | Some (i, _) =>
      let s1 := {| templates := delete i (templates s);
                   history := history s; dataDir := dataDir s |} in
      let '(err, d1) := saveTemplates s1 h d in
      (err, s1, d1)
  | None => (None, s, d)
  end.

(** [GetTemplateByID] *)
Definition GetTemplateByID (id : string) (s : Storage) : option Template.t :=
  snd <$> list_find (λ t, Template.ID t = id) (templates s).

(** [TemplateNameExists] *)
Definition TemplateNameExists (name : string) (s : Storage) : bool :=
  bool_decide (Exists (λ t, Template.Name t = name) (templates s)).

(** [GetHistory]: a new array with copies of the structs. *)
Definition GetHistory (s : Storage) : list HistoryItem.t := history s.

(** The entry that [AddHistory] makes. *)
Definition newItem (now : Z) (uuid : string)
    (req : Request.t) (resp : Response.t) (h : Heap)
  : HistoryItem.t * Heap :=
  let '(r, h1) := Clone req h in
  ({| HistoryItem.ID := uuid; HistoryItem.Request := r;
      HistoryItem.Response := resp; HistoryItem.Timestamp := now |}, h1).

(** [AddHistory] *)
Definition AddHistory (now : Z) (uuid : string)
    (req : Request.t) (resp : Response.t)
    (s : Storage) (h : Heap) (d : disk)
  : (HistoryItem.t + error) * Storage * Heap * disk :=
  let '(item, h1) := newItem now uuid req resp h in
  let hist := [item] ++ history s in
  let hist := if decide (maxHistoryItems < length hist)
              then take maxHistoryItems hist else hist in
  let s1 := {| templates := templates s; history := hist;
               dataDir := dataDir s |} in
  match saveHistory s1 h1 d with
  | (Some err, d1) => (inr err, s1, h1, d1)
  | (None, d1) => (inl item, s1, h1, d1)
  end.

(** [ClearHistory] *)
Definition ClearHistory (s : Storage) (h : Heap) (d : disk)
  : option error * Storage * disk :=
  let s1 := {| templates := templates s; history := [];
               dataDir := dataDir s |} in
  let '(err, d1) := saveHistory s1 h d in
  (err, s1, d1).

(** [GetHistoryByID] *)
Definition GetHistoryByID (id : string) (s : Storage) : option HistoryItem.t :=
  snd <$> list_find (λ x, HistoryItem.ID x = id) (history s).

End Store.
End storage.

(** * Package ui

    The widgets are Fyne's and not part of the program.  Here an entry is
    the text that it holds, a check box its flag, a select the option
    that is selected and a label its text; a container is the list of
    what was added to it, and a button is the function that it was made
    with, which a tap calls. *)
Module ui.
Import models.

(** [(s *Select) SetSelected]: [SetSelected options selected text] is
    the option that is selected afterwards. *)
Record Fyne := { SetSelected : list string → string → string → string }.

(** [(e *Entry) SetText] on an entry whose [OnChanged] puts the text
    [last] back when it finds another: Fyne calls [OnChanged] when the
    text of the entry changed. *)
Definition SetText (last text current : string) : string :=
  if decide (text = current) then current
  else if decide (text ≠ last) then last else text.

(** ** request.go *)
Module RequestPanel.

(** A row of the headers: its three widgets, which a number tells from
    the widgets of any other row, and what they hold. *)
Record headerRow := {
  widgets : nat;
  keyEntry : string;
  valueEntry : string;
  enabled : bool }.

(** The function of the delete button of a row: [addHeaderRow] makes the
    first, the loop of [removeHeaderRow] the second with [idx] the value
    of [i] in its turn. *)
Inductive deleteBtn :=
| removeLast
| removeAt (idx : nat).

(** [headersContainer] holds, row by row, the widgets added and the
    delete button beside them; [made] counts the rows made so far, which
    numbers the widgets of the next. *)
Record t := {
  methodSelect : string;
  urlEntry : string;
  headersContainer : list (nat * deleteBtn);
  bodyEntry : string;
  headers : list headerRow;
  made : nat }.

Definition methods : list string := ["GET"; "POST"; "PUT"; "PATCH"; "DELETE"].

(** [NewRequestPanel]: no widget yet. *)
Definition NewRequestPanel : t :=
  {| methodSelect := ""; urlEntry := ""; headersContainer := [];
     bodyEntry := ""; headers := []; made := 0 |}.

(** [addHeaderRow] *)
Definition addHeaderRow (key value : string) (enabled : bool) (r : t) : t :=
  let row := {| widgets := made r; keyEntry := key; valueEntry := value;
                enabled := enabled |} in
  {| methodSelect := methodSelect r;
     urlEntry := urlEntry r;
     headersContainer := headersContainer r ++ [(made r, removeLast)];
     bodyEntry := bodyEntry r;
     headers := headers r ++ [row];
     made := S (made r) |}.

(** [Build] *)
Definition Build (F : Fyne) (r : t) : t :=
  addHeaderRow "Content-Type" "application/json" true
    {| methodSelect := SetSelected F methods "" "GET";
       urlEntry := "";
       headersContainer := [];
       bodyEntry := "";
       headers := headers r;
       made := made r |}.

(** [removeHeaderRow] *)
Definition removeHeaderRow (index : Z) (r : t) : t :=
  if decide (index < 0 ∨ Z.of_nat (length (headers r)) ≤ index)%Z then r
  else
    let hs := delete (Z.to_nat index) (headers r) in
    {| methodSelect := methodSelect r;
       urlEntry := urlEntry r;
       headersContainer := imap (λ i h, (widgets h, removeAt i)) hs;
       bodyEntry := bodyEntry r;
       headers := hs;
       made := made r |}.

(** A tap on a delete button, and on the delete button of the row at
    place [k] of the container. *)
Definition tapped (b : deleteBtn) (r : t) : t :=
  match b with
  | removeLast => removeHeaderRow (Z.of_nat (length (headers r)) - 1) r
  | removeAt idx => removeHeaderRow (Z.of_nat idx) r
  end.

Definition tapDelete (k : nat) (r : t) : t :=
  match headersContainer r !! k with
  | Some (_, b) => tapped b r
  | None => r
  end.

(** [append(s, x)] where the array of [s] has no room left, as after
    [[]models.Header{}]: the elements move to a new array.  (Where Go
    finds room it writes behind the last element of the same array,
    which only another slice of that array could tell; [UpdateRequest]
    keeps none.) *)
Definition append (s : HeaderSlice) (x : Header.t) (h : Heap)
  : HeaderSlice * Heap :=
  let a := fresh (dom (arrays h)) in
  ({| array := a; len := S (len s) |},
   {| arrays := <[a := elems h s ++ [x]]> (arrays h); hmaps := hmaps h |}).

(** [UpdateRequest]: the four fields of [req] are assigned. *)
Definition UpdateRequest (r : t) (req : Request.t) (h : Heap)
  : Request.t * Heap :=
  let '(hs, h1) :=
    foldl (λ acc row,
             if decide (keyEntry row ≠ "")
             then append acc.1
                    {| Header.Key := keyEntry row;
                       Header.Value := valueEntry row;
                       Header.Enabled := enabled row |} acc.2
             else acc)
          (make_headers 0 h) (headers r) in
  ({| Request.Method := methodSelect r;
      Request.URL := urlEntry r;
      Request.Headers := hs;
      Request.Body := bodyEntry r |}, h1).

(** [LoadRequest] *)
Definition LoadRequest (F : Fyne) (req : Request.t) (h : Heap) (r : t) : t :=
  let r0 := {| methodSelect :=
                 SetSelected F methods (methodSelect r) (Request.Method req);
               urlEntry := Request.URL req;
               headersContainer := [];
               bodyEntry := Request.Body req;
               headers := [];
               made := made r |} in
  if decide (len (Request.Headers req) = 0)
  then addHeaderRow "" "" true r0
  else foldl (λ r x, addHeaderRow (Header.Key x) (Header.Value x)
                       (Header.Enabled x) r)
             r0 (elems h (Request.Headers req)).

End RequestPanel.

(** ** response.go *)
Module ResponsePanel.

(** [widget.Importance]; the zero value is the first. *)
Inductive Importance :=
| MediumImportance
| HighImportance
| LowImportance
| DangerImportance
| WarningImportance
| SuccessImportance.

Record t := {
  statusLabel : string;
  statusImportance : Importance;
  timeLabel : string;
  headersText : string;
  bodyText : string;
  lastHeaders : string;
  lastBody : string }.

(** [NewResponsePanel]: no widget yet. *)
Definition NewResponsePanel : t :=
  {| statusLabel := ""; statusImportance := MediumImportance;
     timeLabel := ""; headersText := ""; bodyText := "";
     lastHeaders := ""; lastBody := "" |}.

(** [Build] *)
Definition Build (r : t) : t :=
  {| statusLabel := "Status: -"; statusImportance := MediumImportance;
     timeLabel := "Time: -"; headersText := ""; bodyText := "";
     lastHeaders := lastHeaders r; lastBody := lastBody r |}.

(** [(d Duration) Milliseconds] *)
Definition Milliseconds (d : Z) : Z := (d ÷ 1000000)%Z.

Section Display.
Context {value : Type} (JS : httpclient.JSON value).
(** The order in which the [range] over the headers visits them. *)
Context (range : gmap string string → list (string * string)).

(** [DisplayResponse] *)
Definition DisplayResponse (resp : Response.t) (h : Heap) (r : t) : t :=
  if decide (Response.Error resp ≠ "") then
    {| statusLabel := "Error: " +:+ Response.Error resp;
       statusImportance := DangerImportance;
       timeLabel := "Time: -";
       headersText := SetText "" "" (headersText r);
       bodyText := SetText "" "" (bodyText r);
       lastHeaders := "";
       lastBody := "" |}
  else
    let code := Response.StatusCode resp in
    let headersStr :=
      foldl (λ acc kv, acc +:+ (kv.1 +:+ ": " +:+ kv.2 +:+ nl)) ""
            match Response.Headers resp with
            | Some l => range (default ∅ (hmaps h !! l))
            | None => []
            end in
    let body := if httpclient.IsJSON JS (Response.Body resp)
                then httpclient.FormatJSON JS (Response.Body resp)
                else Response.Body resp in
    {| statusLabel := "Status: " +:+ Response.Status resp;
       statusImportance :=
         if decide (200 ≤ code ∧ code < 300)%Z then SuccessImportance
         else if decide (400 ≤ code)%Z then DangerImportance
         else MediumImportance;
       timeLabel :=
         "Time: " +:+ pretty (Milliseconds (Response.ResponseTime resp))
         +:+ "ms";
       headersText := SetText headersStr headersStr (headersText r);
       bodyText := SetText body body (bodyText r);
       lastHeaders := headersStr;
       lastBody := body |}.

End Display.

(** [Clear] *)
Definition Clear (r : t) : t :=
  {| statusLabel := "Status: -"; statusImportance := MediumImportance;
     timeLabel := "Time: -";
     headersText := SetText "" "" (headersText r);
     bodyText := SetText "" "" (bodyText r);
     lastHeaders := ""; lastBody := "" |}.

End ResponsePanel.

(** ** sidebar.go *)
Module Sidebar.

(** The two containers hold an item for each record, in order; an item
    is made from a copy of the record, from which it takes its texts and
    which its functions read when it is tapped.  Here the item is that
    copy.  (An empty list is shown as a label.) *)
Record t := {
  templatesContainer : list Template.t;
  historyContainer : list HistoryItem.t }.

(** [NewSidebar] *)
Definition NewSidebar : t :=
  {| templatesContainer := []; historyContainer := [] |}.

(** [RefreshTemplates] *)
Definition RefreshTemplates (store : storage.Storage) (s : t) : t :=
  {| templatesContainer := storage.GetTemplates store;
     historyContainer := historyContainer s |}.

(** [RefreshHistory] *)
Definition RefreshHistory (store : storage.Storage) (s : t) : t :=
  {| templatesContainer := templatesContainer s;
     historyContainer := storage.GetHistory store |}.

(** [Build] *)
Definition Build (store : storage.Storage) (s : t) : t :=
  RefreshHistory store (RefreshTemplates store s).

End Sidebar.

(** ** app.go *)
Module App.

Record t := {
  storage : storage.Storage;
  currentRequest : Request.t;
  sidebar : Sidebar.t;
  request : RequestPanel.t;
  response : ResponsePanel.t }.

(** [NewApp] *)
Definition NewApp (store : storage.Storage) (h : Heap) : t * Heap :=
  let '(req, h1) := NewRequest h in
  ({| storage := store; currentRequest := req;
      sidebar := Sidebar.NewSidebar;
      request := RequestPanel.NewRequestPanel;
      response := ResponsePanel.NewResponsePanel |}, h1).

Section Handlers.
Context {disk : Type} (N : nethttp.Net) (O : storage.OS disk)
  (J : storage.Codec) (Srt : storage.Sorter) (F : Fyne).
Context {value : Type} (JS : httpclient.JSON value).
Context (range : gmap string string → list (string * string)).

(** [BuildUI] *)
Definition BuildUI (a : t) : t :=
  {| storage := storage a; currentRequest := currentRequest a;
     sidebar := Sidebar.Build (storage a) (sidebar a);
     request := RequestPanel.Build F (request a);
     response := ResponsePanel.Build (response a) |}.

(** [SendRequest]; [at_] and [id] are what [time.Now] and [uuid.New]
    give in [AddHistory] when it is reached. *)
Definition SendRequest (at_ : Z) (id : string)
    (st : t * Heap * nethttp.World * disk) : t * Heap * nethttp.World * disk :=
  let '(a, h, w, d) := st in
  let '(req, h1) :=
    RequestPanel.UpdateRequest (request a) (currentRequest a) h in
  let '(resp, h2, w1) := httpclient.SendRequest N req h1 w in
  let shown := ResponsePanel.DisplayResponse JS range resp h2 (response a) in
  if decide (Response.Error resp = "") then
    let '(_, s1, h3, d1) :=
      storage.AddHistory O J at_ id req resp (storage a) h2 d in
    ({| storage := s1; currentRequest := req;
        sidebar := Sidebar.RefreshHistory s1 (sidebar a);
        request := request a; response := shown |}, h3, w1, d1)
  else
    ({| storage := storage a; currentRequest := req;
        sidebar := sidebar a;
        request := request a; response := shown |}, h2, w1, d).

(** [LoadRequest] *)
Definition LoadRequest (req : Request.t) (a : t) (h : Heap) : t * Heap :=
  let '(c, h1) := Clone req h in
  ({| storage := storage a; currentRequest := c;
      sidebar := sidebar a;
      request := RequestPanel.LoadRequest F c h1 (request a);
      response := ResponsePanel.Clear (response a) |}, h1).

(** [SaveTemplate] *)
Definition SaveTemplate (at_ : Z) (id : string) (name : string)
    (a : t) (h : Heap) (d : disk) : option error * t * Heap * disk :=
  let '(req, h1) :=
    RequestPanel.UpdateRequest (request a) (currentRequest a) h in
  let '(res, s1, h2, d1) :=
    storage.SaveTemplate O J Srt at_ id name req (storage a) h1 d in
  match res with
  | inl _ =>
      (None,
       {| storage := s1; currentRequest := req;
          sidebar := Sidebar.RefreshTemplates s1 (sidebar a);
          request := request a; response := response a |}, h2, d1)
  | inr err =>
      (Some err,
       {| storage := s1; currentRequest := req; sidebar := sidebar a;
          request := request a; response := response a |}, h2, d1)
  end.

(** [DeleteTemplate] *)
Definition DeleteTemplate (id : string) (a : t) (h : Heap) (d : disk)
  : option error * t * disk :=
  let '(err, s1, d1) := storage.DeleteTemplate O J id (storage a) h d in
  (err,
   {| storage := s1; currentRequest := currentRequest a;
      sidebar := match err with
                 | None => Sidebar.RefreshTemplates s1 (sidebar a)
                 | Some _ => sidebar a
                 end;
      request := request a; response := response a |}, d1).

(** [ClearHistory] *)
Definition ClearHistory (a : t) (h : Heap) (d : disk)
  : option error * t * disk :=
  let '(err, s1, d1) := storage.ClearHistory O J (storage a) h d in
  (err,
   {| storage := s1; currentRequest := currentRequest a;
      sidebar := match err with
                 | None => Sidebar.RefreshHistory s1 (sidebar a)
                 | Some _ => sidebar a
                 end;
      request := request a; response := response a |}, d1).

(** What the user can do, and the functions that the widgets call then.
    Typing, ticking and selecting change the widget; the taps call the
    function that the button or the item was made with. *)
Inductive Event :=
| SelectMethod (i : nat)
| TypeURL (text : string)
| TypeBody (text : string)
| TypeKey (k : nat) (text : string)
| TypeValue (k : nat) (text : string)
| Tick (k : nat)
| TapAddHeader
| TapDeleteHeader (k : nat)
| TapSend (at_ : Z) (id : string)
| TapSave (at_ : Z) (id : string) (name : string)
| TapTemplate (k : nat)
| TapDeleteTemplate (k : nat)
| TapHistory (k : nat)
| TapClearAll.

(** The request panel with one of its widgets changed by the user. *)
Definition edit (f : RequestPanel.t → RequestPanel.t) (a : t) : t :=
  {| storage := storage a; currentRequest := currentRequest a;
     sidebar := sidebar a; request := f (request a);
     response := response a |}.

Definition setRow (k : nat)
    (f : RequestPanel.headerRow → RequestPanel.headerRow)
    (r : RequestPanel.t) : RequestPanel.t :=
  {| RequestPanel.methodSelect := RequestPanel.methodSelect r;
     RequestPanel.urlEntry := RequestPanel.urlEntry r;
     RequestPanel.headersContainer := RequestPanel.headersContainer r;
     RequestPanel.bodyEntry := RequestPanel.bodyEntry r;
     RequestPanel.headers := alter f k (RequestPanel.headers r);
     RequestPanel.made := RequestPanel.made r |}.

Definition handle (e : Event) (st : t * Heap * nethttp.World * disk)
  : t * Heap * nethttp.World * disk :=
  let '(a, h, w, d) := st in
  match e with
  | SelectMethod i =>
      match RequestPanel.methods !! i with
      | Some m =>
          (edit (λ r,
             {| RequestPanel.methodSelect := m;
                RequestPanel.urlEntry := RequestPanel.urlEntry r;
                RequestPanel.headersContainer := RequestPanel.headersContainer r;
                RequestPanel.bodyEntry := RequestPanel.bodyEntry r;
                RequestPanel.headers := RequestPanel.headers r;
                RequestPanel.made := RequestPanel.made r |}) a, h, w, d)
      | None => st
      end
  | TypeURL text =>
      (edit (λ r,
         {| RequestPanel.methodSelect := RequestPanel.methodSelect r;
            RequestPanel.urlEntry := text;
            RequestPanel.headersContainer := RequestPanel.headersContainer r;
            RequestPanel.bodyEntry := RequestPanel.bodyEntry r;
            RequestPanel.headers := RequestPanel.headers r;
            RequestPanel.made := RequestPanel.made r |}) a, h, w, d)
  | TypeBody text =>
      (edit (λ r,
         {| RequestPanel.methodSelect := RequestPanel.methodSelect r;
            RequestPanel.urlEntry := RequestPanel.urlEntry r;
            RequestPanel.headersContainer := RequestPanel.headersContainer r;
            RequestPanel.bodyEntry := text;
            RequestPanel.headers := RequestPanel.headers r;
            RequestPanel.made := RequestPanel.made r |}) a, h, w, d)
  | TypeKey k text =>
      (edit (setRow k (λ row,
         {| RequestPanel.widgets := RequestPanel.widgets row;
            RequestPanel.keyEntry := text;
            RequestPanel.valueEntry := RequestPanel.valueEntry row;
            RequestPanel.enabled := RequestPanel.enabled row |})) a, h, w, d)
  | TypeValue k text =>
      (edit (setRow k (λ row,
         {| RequestPanel.widgets := RequestPanel.widgets row;
            RequestPanel.keyEntry := RequestPanel.keyEntry row;
            RequestPanel.valueEntry := text;
            RequestPanel.enabled := RequestPanel.enabled row |})) a, h, w, d)
  | Tick k =>
      (edit (setRow k (λ row,
         {| RequestPanel.widgets := RequestPanel.widgets row;
            RequestPanel.keyEntry := RequestPanel.keyEntry row;
            RequestPanel.valueEntry := RequestPanel.valueEntry row;
            RequestPanel.enabled := negb (RequestPanel.enabled row) |})) a,
       h, w, d)
  | TapAddHeader => (edit (RequestPanel.addHeaderRow "" "" true) a, h, w, d)
  | TapDeleteHeader k => (edit (RequestPanel.tapDelete k) a, h, w, d)
  | TapSend at_ id => SendRequest at_ id st
  | TapSave at_ id name =>
      if decide (name ≠ "") then
        let '(_, a1, h1, d1) := SaveTemplate at_ id name a h d in
        (a1, h1, w, d1)
      else st
  | TapTemplate k =>
      match Sidebar.templatesContainer (sidebar a) !! k with
      | Some t =>
          let '(a1, h1) := LoadRequest (Template.Request t) a h in
          (a1, h1, w, d)
      | None => st
      end
  | TapDeleteTemplate k =>
      match Sidebar.templatesContainer (sidebar a) !! k with
      | Some t =>
          let '(_, a1, d1) := DeleteTemplate (Template.ID t) a h d in
          (a1, h, w, d1)
      | None => st
      end
  | TapHistory k =>
      match Sidebar.historyContainer (sidebar a) !! k with
      | Some x =>
          let '(a1, h1) := LoadRequest (HistoryItem.Request x) a h in
          (a1, h1, w, d)
      | None => st
      end
  | TapClearAll =>
      let '(_, a1, d1) := ClearHistory a h d in (a1, h, w, d1)
  end.

(** A session: the events one after the other. *)
Definition run (es : list Event) (st : t * Heap * nethttp.World * disk)
  : t * Heap * nethttp.World * disk :=
  foldl (λ st e, handle e st) st es.

(** [main] after the store is there: [NewApp] and [BuildUI]. *)
Definition start (store : storage.Storage) (h : Heap) : t * Heap :=
  let '(a, h1) := NewApp store h in (BuildUI a, h1).

End Handlers.
End App.
End ui.

(** * A fragment of JSON

    encoding/json is not part of the program.  To run [FormatJSON] and
    [IsJSON] on examples, here are a decoder and an encoder for the JSON
    texts made of null, true, false, whole numbers up to 2^53 in size,
    strings of plain ASCII without escapes, arrays and objects; on these
    they do what [json.Unmarshal] into an [interface{}] and
    [json.MarshalIndent] do (keys in order, the last value of a key
    stays).  Any other text is refused here, also where encoding/json
    would take it. *)
Module jsonfrag.

Inductive value :=
| Null
| Bool (b : bool)
| Number (n : Z)
| Str (s : string)
| Array (l : list value)
| Object (l : list (string * value)).

Definition isSpace (c : ascii) : bool :=
  existsb (Ascii.eqb c) [" "; "009"; "010"; "013"]%char.

Fixpoint skipSpace (s : list ascii) : list ascii :=
  match s with
  | c :: s' => if isSpace c then skipSpace s' else s
  | [] => []
  end.

Definition isDigit (c : ascii) : bool :=
  (48 <=? nat_of_ascii c)%nat && (nat_of_ascii c <=? 57)%nat.

(** The bytes of a string that encoding/json writes as they are. *)
Definition isPlain (c : ascii) : bool :=
  (32 <=? nat_of_ascii c)%nat && (nat_of_ascii c <=? 126)%nat
  && negb (existsb (Ascii.eqb c) ["034"; "\"; "<"; ">"; "&"]%char).

Fixpoint digits (acc : Z) (s : list ascii) : Z * list ascii :=
  match s with
  | c :: s' =>
      if isDigit c then digits (10 * acc + Z.of_nat (nat_of_ascii c - 48)) s'
      else (acc, s)
  | [] => (acc, [])
  end.

(** The rest of a string after its opening quote. *)
Fixpoint chars (acc : list ascii) (s : list ascii)
  : option (string * list ascii) :=
  match s with
  | c :: s' =>
      if Ascii.eqb c "034" then Some (string_of_list_ascii (rev acc), s')
      else if isPlain c then chars (c :: acc) s' else None
  | [] => None
  end.

(** A natural number without sign, fraction or exponent, and without a
    zero in front. *)
Definition natural (s : list ascii) : option (Z * list ascii) :=
  match s with
  | c :: s' =>
      if Ascii.eqb c "0" then
        match s' with
        | c' :: _ => if isDigit c' then None else Some (0%Z, s')
        | [] => Some (0%Z, s')
        end
      else if isDigit c then Some (digits 0 s) else None
  | [] => None
  end.

Definition exact : Z := 9007199254740992.

Definition number (s : list ascii) : option (value * list ascii) :=
  match s with
  | "-"%char :: s' =>
      '(n, r) ← natural s';
      if decide (0 < n ≤ exact)%Z then Some (Number (- n), r) else None
  | _ =>
      '(n, r) ← natural s;
      if decide (n ≤ exact)%Z then Some (Number n, r) else None
  end.

Definition literal (word : string) (v : value) (s : list ascii)
  : option (value * list ascii) :=
  let w := list_ascii_of_string word in
  if decide (take (length w) s = w) then Some (v, drop (length w) s) else None.

(** A key set in an object kept in the order of the keys; the last
    value of a key stays. *)
Fixpoint put (k : string) (v : value) (l : list (string * value))
  : list (string * value) :=
  match l with
  | [] => [(k, v)]
  | (k', v') :: l' =>
      if String.eqb k k' then (k, v) :: l'
      else if String.ltb k k' then (k, v) :: l
      else (k', v') :: put k v l'
  end.

Fixpoint parse (fuel : nat) (s : list ascii) : option (value * list ascii) :=
  match fuel with
  | 0 => None
  | S fuel =>
      match skipSpace s with
      | "["%char :: r =>
          match skipSpace r with
          | "]"%char :: r' => Some (Array [], r')
          | _ => elements fuel r []
          end
      | "{"%char :: r =>
          match skipSpace r with
          | "}"%char :: r' => Some (Object [], r')
          | _ => members fuel r []
          end
      | "034"%char :: r => '(x, r') ← chars [] r; Some (Str x, r')
      | "n"%char :: _ => literal "null" Null (skipSpace s)
      | "t"%char :: _ => literal "true" (Bool true) (skipSpace s)
      | "f"%char :: _ => literal "false" (Bool false) (skipSpace s)
      | r => number r
      end
  end
with elements (fuel : nat) (s : list ascii) (acc : list value)
  : option (value * list ascii) :=
  match fuel with
  | 0 => None
  | S fuel =>
      '(v, r) ← parse fuel s;
      match skipSpace r with
      | ","%char :: r' => elements fuel r' (v :: acc)
      | "]"%char :: r' => Some (Array (rev (v :: acc)), r')
      | _ => None
      end
  end
with members (fuel : nat) (s : list ascii) (acc : list (string * value))
  : option (value * list ascii) :=
  match fuel with
  | 0 => None
  | S fuel =>
      match skipSpace s with
      | "034"%char :: r =>
          '(k, r1) ← chars [] r;
          match skipSpace r1 with
          | ":"%char :: r2 =>
              '(v, r3) ← parse fuel r2;
              match skipSpace r3 with
              | ","%char :: r4 => members fuel r4 (put k v acc)
              | "}"%char :: r4 => Some (Object (put k v acc), r4)
              | _ => None
              end
          | _ => None
          end
      | _ => None
      end
  end.

Definition decode (s : string) : value + error :=
  let input := list_ascii_of_string s in
  match parse (2 * length input + 2) input with
  | Some (v, r) =>
      match skipSpace r with
      | [] => inl v
      | _ => inr (Err "invalid character after top-level value")
      end
  | None => inr (Err "invalid character or unexpected end of JSON input")
  end.

Definition quote (s : string) : string :=
  String "034"%char s +:+ String "034"%char EmptyString.

Fixpoint pad (indent : string) (depth : nat) : string :=
  match depth with 0 => "" | S d => indent +:+ pad indent d end.

Fixpoint encode (prefix indent : string) (depth : nat) (v : value) : string :=
  match v with
  | Null => "null"
  | Bool true => "true"
  | Bool false => "false"
  | Number n => pretty n
  | Str s => quote s
  | Array [] => "[]"
  | Array l =>
      let line := nl +:+ prefix +:+ pad indent (S depth) in
      "[" +:+ line
      +:+ String.concat ("," +:+ line) (map (encode prefix indent (S depth)) l)
      +:+ nl +:+ prefix +:+ pad indent depth +:+ "]"
  | Object [] => "{}"
  | Object l =>
      let line := nl +:+ prefix +:+ pad indent (S depth) in
      "{" +:+ line
      +:+ String.concat ("," +:+ line)
            (map (λ kv, quote kv.1 +:+ ": "
                        +:+ encode prefix indent (S depth) kv.2) l)
      +:+ nl +:+ prefix +:+ pad indent depth +:+ "}"
  end.

End jsonfrag.

(** * The vocabulary of the properties *)
Module vocabulary.
Import models.

Definition lowerChar (c : ascii) : ascii :=
  if nethttp.isUpper c then nethttp.toLower c else c.

(** The string with its upper-case letters in lower case: two keys
    differ in letter case only when they agree after this. *)
Fixpoint lowerString (s : string) : string :=
  match s with
  | EmptyString => EmptyString
  | String c s' => String (lowerChar c) (lowerString s')
  end.

(** A key made of token bytes only. *)
Definition tokenKey (s : string) : Prop :=
  forallb nethttp.validHeaderFieldByte (list_ascii_of_string s) = true.

(** An entry that the loop over the headers applies, under the
    canonical key [k]. *)
Definition setsKey (k : string) (x : Header.t) : Prop :=
  Header.Enabled x = true ∧ Header.Key x ≠ ""
  ∧ nethttp.CanonicalMIMEHeaderKey (Header.Key x) = k.

(** A request with the elements of its headers in the place of the
    slice, and so on for the structs that hold one: what a caller can
    read through the value. *)
Definition requestValue (h : Heap) (r : Request.t)
  : string * string * list Header.t * string :=
  (Request.Method r, Request.URL r, elems h (Request.Headers r),
   Request.Body r).

Definition templateValue (h : Heap) (t : Template.t) :=
  (Template.ID t, Template.Name t, requestValue h (Template.Request t),
   Template.CreatedAt t, Template.UpdatedAt t).

Definition responseValue (h : Heap) (r : Response.t) :=
  (Response.StatusCode r, Response.Status r,
   (λ l, default ∅ (hmaps h !! l)) <$> Response.Headers r,
   Response.Body r, Response.ResponseTime r, Response.Error r).

Definition itemValue (h : Heap) (x : HistoryItem.t) :=
  (HistoryItem.ID x, requestValue h (HistoryItem.Request x),
   responseValue h (HistoryItem.Response x), HistoryItem.Timestamp x).

(** One call of [AddHistory], and a run of calls one after the other
    that also gives the entries they made, oldest first. *)
Record Call := {
  now : Z;
  uuid : string;
  req : Request.t;
  resp : Response.t }.

Fixpoint AddHistoryEach {disk} (O : storage.OS disk) (J : storage.Codec)
    (calls : list Call) (s : storage.Storage) (h : Heap) (d : disk)
  : list HistoryItem.t * storage.Storage * Heap * disk :=
  match calls with
  | [] => ([], s, h, d)
  | c :: calls' =>
      let item := (storage.newItem (now c) (uuid c) (req c) (resp c) h).1 in
      let '(_, s1, h1, d1) :=
        storage.AddHistory O J (now c) (uuid c) (req c) (resp c) s h d in
      let '(items, s2, h2, d2) := AddHistoryEach O J calls' s1 h1 d1 in
      (item :: items, s2, h2, d2)
  end.

(** What a caller can do with a sequence [result] that it got from
    the store: assign an element (or a field of one, which is the
    element with that field changed), assign an element of the headers
    of a request in it, or set a key of the headers of a response in it. *)
Inductive Write (A : Type) :=
| SetElem (i : nat) (x : A)
| SetRequestHeader (i j : nat) (x : Header.t)
| SetResponseHeader (i : nat) (k v : string).
Arguments SetElem {A}.
Arguments SetRequestHeader {A}.
Arguments SetResponseHeader {A}.

(** The request and the response of an element of either sequence. *)
Class Element (A : Type) := {
  request_of : A → Request.t;
  response_of : A → option Response.t }.

#[export] Instance Template_Element : Element Template.t :=
  {| request_of := Template.Request; response_of _ := None |}.

#[export] Instance HistoryItem_Element : Element HistoryItem.t :=
  {| request_of := HistoryItem.Request;
     response_of x := Some (HistoryItem.Response x) |}.

(** The object that a write goes to: an array of headers or a map. *)
Definition target `{Element A} (w : Write A) (l : list A)
  : option (loc + loc) :=
  match w with
  | SetElem _ _ => None
  | SetRequestHeader i _ _ =>
      e ← l !! i; Some (inl (array (Request.Headers (request_of e))))
  | SetResponseHeader i _ _ =>
      e ← l !! i; r ← response_of e; m ← Response.Headers r; Some (inr m)
  end.

(** One write; [None] is a panic (an index out of range, a nil map). *)
Definition write `{Element A} (w : Write A) (st : list A * Heap)
  : option (list A * Heap) :=
  let '(l, h) := st in
  match w with
  | SetElem i x =>
      if decide (i < length l) then Some (<[i:=x]> l, h) else None
  | SetRequestHeader i j x =>
      e ← l !! i;
      h' ← store_elem (Request.Headers (request_of e)) j x h;
      Some (l, h')
  | SetResponseHeader i k v =>
      e ← l !! i; r ← response_of e; m ← Response.Headers r;
      Some (l, {| arrays := arrays h;
                  hmaps := alter (λ o, <[k:=v]> o) m (hmaps h) |})
  end.

Fixpoint writes `{Element A} (ws : list (Write A)) (st : list A * Heap)
  : option (list A * Heap) :=
  match ws with
  | [] => Some st
  | w :: ws' => st' ← write w st; writes ws' st'
  end.

(** The arrays and the maps that the elements of the store point to. *)
Definition storeArrays (s : storage.Storage) : list loc :=
  ((λ t, array (Request.Headers (Template.Request t)))
     <$> storage.templates s)
  ++ ((λ x, array (Request.Headers (HistoryItem.Request x)))
        <$> storage.history s).

Definition storeMaps (s : storage.Storage) : list loc :=
  omap (λ x, Response.Headers (HistoryItem.Response x)) (storage.history s).

(** A write that goes to no object of the store. *)
Definition apart `{Element A} (s : storage.Storage) (w : Write A)
    (l : list A) : Prop :=
  match target w l with
  | Some (inl a) => a ∉ storeArrays s
  | Some (inr m) => m ∉ storeMaps s
  | None => True
  end.

(** A run of writes that are all apart from the store. *)
Fixpoint allApart `{Element A} (s : storage.Storage) (ws : list (Write A))
    (st : list A * Heap) : Prop :=
  match ws with
  | [] => True
  | w :: ws' =>
      apart s w st.1
      ∧ match write w st with
        | Some st' => allApart s ws' st'
        | None => True
        end
  end.

(** Two heaps that hold the same in the objects of the store. *)
Definition agree (s : storage.Storage) (h h' : Heap) : Prop :=
  (∀ a, a ∈ storeArrays s → arrays h' !! a = arrays h !! a)
  ∧ (∀ m, m ∈ storeMaps s → hmaps h' !! m = hmaps h !! m).

(** What later calls of [GetTemplates] and [GetHistory] let a caller
    read. *)
Definition storeValue (s : storage.Storage) (h : Heap) :=
  (templateValue h <$> storage.GetTemplates s,
   itemValue h <$> storage.GetHistory s).

(** An operation of the store, with what the call is given (the time
    and the id are what [time.Now] and [uuid.New] give in it). *)
Inductive Op :=
| DoSaveTemplate (at_ : Z) (id name : string) (r : Request.t)
| DoDeleteTemplate (id : string)
| DoAddHistory (at_ : Z) (id : string) (r : Request.t) (re : Response.t)
| DoClearHistory.

(** The store, the heap and the disk after an operation; what the
    operation returns is dropped. *)
Definition step {disk} (O : storage.OS disk) (J : storage.Codec)
    (Srt : storage.Sorter) (op : Op) (st : storage.Storage * Heap * disk)
  : storage.Storage * Heap * disk :=
  let '(s, h, d) := st in
  match op with
  | DoSaveTemplate at_ id name r =>
      let '(_, s1, h1, d1) := storage.SaveTemplate O J Srt at_ id name r s h d in
      (s1, h1, d1)
  | DoDeleteTemplate id =>
      let '(_, s1, d1) := storage.DeleteTemplate O J id s h d in (s1, h, d1)
  | DoAddHistory at_ id r re =>
      let '(_, s1, h1, d1) := storage.AddHistory O J at_ id r re s h d in
      (s1, h1, d1)
  | DoClearHistory =>
      let '(_, s1, d1) := storage.ClearHistory O J s h d in (s1, h, d1)
  end.

Definition steps {disk} (O : storage.OS disk) (J : storage.Codec)
    (Srt : storage.Sorter) (ops : list Op)
    (st : storage.Storage * Heap * disk) : storage.Storage * Heap * disk :=
  foldl (λ st op, step O J Srt op st) st ops.

(** The shape that the operations keep: one template of a name at most,
    the templates in the order of their names, 50 entries of history at
    most. *)
Definition storeInv (s : storage.Storage) : Prop :=
  NoDup (Template.Name <$> storage.templates s)
  ∧ Sorted storage.byName (storage.templates s)
  ∧ length (storage.history s) ≤ storage.maxHistoryItems.

(** A heap that holds all that another holds, unchanged. *)
Definition extends (h h' : Heap) : Prop :=
  (∀ a, a ∈ dom (arrays h) → arrays h' !! a = arrays h !! a)
  ∧ (∀ m, m ∈ dom (hmaps h) → hmaps h' !! m = hmaps h !! m).

(** A slice whose elements are in the heap, and a request, a response, a
    template and an entry whose objects are. *)
Definition knownSlice (h : Heap) (sl : HeaderSlice) : Prop :=
  len sl = 0 ∨ array sl ∈ dom (arrays h).

Definition knownRequest (h : Heap) (r : Request.t) : Prop :=
  knownSlice h (Request.Headers r).

Definition knownResponse (h : Heap) (r : Response.t) : Prop :=
  match Response.Headers r with
  | Some m => m ∈ dom (hmaps h)
  | None => True
  end.

Definition knownItem (h : Heap) (x : HistoryItem.t) : Prop :=
  knownRequest h (HistoryItem.Request x)
  ∧ knownResponse h (HistoryItem.Response x).

End vocabulary.

(** * Words for the properties of the screens *)
Module screens.
Import models vocabulary ui.

(** The header that [UpdateRequest] makes of a row, and the headers it
    makes of the rows: those of the rows with a name. *)
Definition headerOf (row : RequestPanel.headerRow) : Header.t :=
  {| Header.Key := RequestPanel.keyEntry row;
     Header.Value := RequestPanel.valueEntry row;
     Header.Enabled := RequestPanel.enabled row |}.

Definition named (rows : list RequestPanel.headerRow) : list Header.t :=
  headerOf <$> filter (λ row, RequestPanel.keyEntry row ≠ "") rows.

(** What the form of the request panel reads as. *)
Definition formValue (r : RequestPanel.t)
  : string * string * list Header.t * string :=
  (RequestPanel.methodSelect r, RequestPanel.urlEntry r,
   named (RequestPanel.headers r), RequestPanel.bodyEntry r).

(** The rows on the screen are the rows of the panel, each with widgets
    of its own, and the delete button of the row at place [k] removes the
    row at place [k] or the last one. *)
Definition rowsInv (r : RequestPanel.t) : Prop :=
  (RequestPanel.headersContainer r).*1
  = RequestPanel.widgets <$> RequestPanel.headers r
  ∧ NoDup (RequestPanel.widgets <$> RequestPanel.headers r)
  ∧ Forall (λ row, RequestPanel.widgets row < RequestPanel.made r)
           (RequestPanel.headers r)
  ∧ ∀ k w b, RequestPanel.headersContainer r !! k = Some (w, b) →
             b = RequestPanel.removeLast ∨ b = RequestPanel.removeAt k.

(** The sidebar shows what the store holds. *)
Definition synced (a : App.t) : Prop :=
  Sidebar.templatesContainer (App.sidebar a)
  = storage.GetTemplates (App.storage a)
  ∧ Sidebar.historyContainer (App.sidebar a)
    = storage.GetHistory (App.storage a).

(** A disk and an encoder with which saving never fails. *)
Definition neverFails {disk} (O : storage.OS disk) (J : storage.Codec)
  : Prop :=
  ∀ s h d, (storage.saveTemplates O J s h d).1 = None
           ∧ (storage.saveHistory O J s h d).1 = None.

End screens.

(** * Fixtures: a network and some requests to run the client on *)
Module fixtures.
Import models.

(** [[]Header{...}]: a new array with the given elements. *)
Definition headersOf (hs : list Header.t) (h : Heap) : HeaderSlice * Heap :=
  let a := fresh (dom (arrays h)) in
  ({| array := a; len := length hs |},
   {| arrays := <[a := hs]> (arrays h); hmaps := hmaps h |}).

Definition request (method url : string) (hs : list Header.t) (body : string)
    (h : Heap) : Request.t * Heap :=
  let '(s, h1) := headersOf hs h in
  ({| Request.Method := method; Request.URL := url;
      Request.Headers := s; Request.Body := body |}, h1).

(** net/http takes a method that is a token. *)
Definition validMethod (m : string) : bool :=
  negb (String.eqb m "")
  && forallb nethttp.validHeaderFieldByte (list_ascii_of_string m).

Definition ok200 : nethttp.Response.t :=
  {| nethttp.Response.StatusCode := 200;
     nethttp.Response.Status := "200 OK";
     nethttp.Response.Header :=
       {[ "Content-Type" := ["text/plain"]; "Vary" := ["Accept"; "Origin"] ]};
     nethttp.Response.Body := inl "hello" |}.

Definition cut200 : nethttp.Response.t :=
  {| nethttp.Response.StatusCode := 200;
     nethttp.Response.Status := "200 OK";
     nethttp.Response.Header := {[ "Content-Length" := ["10"] ]};
     nethttp.Response.Body := inr "unexpected EOF" |}.

(** A network with one host that refuses the connection, one that
    closes it in the middle of the body, and hosts that answer; times
    are in nanoseconds. *)
Definition net : nethttp.Net :=
  {| nethttp.invalid method url :=
       if validMethod (if decide (method = "") then "GET" else method)
       then None
       else Some ("net/http: invalid method " +:+ dquote +:+ method +:+ dquote);
     nethttp.RoundTrip r :=
       if String.eqb (nethttp.Request.URL r) "http://down.test"
       then (3000000%Z, inr "dial tcp 192.0.2.1:80: connect: connection refused")
       else if String.eqb (nethttp.Request.URL r) "http://cut.test"
       then (5000000%Z, inl cut200)
       else (7000000%Z, inl ok200) |}.

Definition dawn : nethttp.World := {| nethttp.clock := 1000; nethttp.wire := [] |}.

Definition noURL := request "GET" "" [] "" emptyHeap.
Definition getCut := request "GET" "cut.test" [] "" emptyHeap.
Definition getDown := request "GET" "http://down.test" [] "" emptyHeap.
Definition badMethod := request "BAD METHOD" "example.com" [] "" emptyHeap.
Definition postJSON :=
  request "POST" "example.com/x"
    [Header.mk "Accept" "*/*" true; Header.mk "Content-Type" "text/xml" false]
    "{}" emptyHeap.
Definition postText :=
  request "POST" "example.com/x"
    [Header.mk "content-type" "text/plain" true] "hi" emptyHeap.
Definition postBlankType :=
  request "POST" "example.com/x"
    [Header.mk "Content-Type" "" true] "{}" emptyHeap.
Definition twoCases :=
  request "GET" "example.com"
    [Header.mk "x-token" "1" true; Header.mk "X-TOKEN" "2" true] "" emptyHeap.
Definition twoCasesSpaced :=
  request "GET" "example.com"
    [Header.mk "x y" "1" true; Header.mk "X Y" "2" true] "" emptyHeap.

(** A file system in memory that never fails, and one whose disk is
    full; the home directory is [/home/u]. *)
Definition os : storage.OS (gmap string string) :=
  {| storage.UserHomeDir := inl "/home/u";
     storage.Join a b := a +:+ "/" +:+ b;
     storage.MkdirAll _ d := (None, d);
     storage.ReadFile path d :=
       match d !! path with
       | Some data => inl data
       | None => inr (ErrNotExist path)
       end;
     storage.WriteFile path data d := (None, <[path := data]> d) |}.

Definition fullDisk : storage.OS (gmap string string) :=
  {| storage.UserHomeDir := inl "/home/u";
     storage.Join a b := a +:+ "/" +:+ b;
     storage.MkdirAll _ d := (None, d);
     storage.ReadFile path d :=
       match d !! path with
       | Some data => inl data
       | None => inr (ErrNotExist path)
       end;
     storage.WriteFile path data d :=
       (Some (Err "write: no space left on device"), d) |}.

(** A stand-in for encoding/json in the examples: it writes the ids of
    the records and reads the empty array; any other file it refuses,
    leaving the target as it is. *)
Definition codec : storage.Codec :=
  {| storage.MarshalTemplates _ ts :=
       inl ("[" +:+ String.concat "," (Template.ID <$> ts) +:+ "]");
     storage.UnmarshalTemplates data target h :=
       if String.eqb data "[]" then ([], h, None)
       else (target, h, Some (Err "invalid character in JSON input"));
     storage.MarshalHistory _ hs :=
       inl ("[" +:+ String.concat "," (HistoryItem.ID <$> hs) +:+ "]");
     storage.UnmarshalHistory data target h :=
       if String.eqb data "[]" then ([], h, None)
       else (target, h, Some (Err "invalid character in JSON input")) |}.

Lemma byName_total : Total storage.byName.
Proof.
  intros a b. unfold storage.byName, String.ltb.
  rewrite (String.compare_antisym (Template.Name a) (Template.Name b)).
  destruct (String.compare (Template.Name b) (Template.Name a)); cbn; auto.
Qed.

#[local] Instance byName_dec a b : Decision (storage.byName a b).
Proof. unfold storage.byName. apply _. Defined.

(** A sort for the examples. *)
Definition sorter : storage.Sorter :=
  {| storage.sortSlice := merge_sort storage.byName;
     storage.sortSlice_perm := merge_sort_Permutation storage.byName;
     storage.sortSlice_sorted :=
       @Sorted_merge_sort _ storage.byName _ byName_total |}.

(** A disk whose templates file is not JSON. *)
Definition brokenDisk : gmap string string :=
  {[ "/home/u/.gopostman/templates.json" := "not json" ]}.

(** Two requests in one heap, and the store after the first is saved
    as "A" at time 1000, on a disk that is full. *)
Definition twoSpecs : Request.t * Request.t * Heap :=
  let '(spec1, h0) :=
    request "GET" "example.com/1" [Header.mk "Accept" "*/*" true] ""
      emptyHeap in
  let '(spec2, h1) :=
    request "POST" "example.com/2" [Header.mk "X-Trace" "on" false] "{}" h0 in
  (spec1, spec2, h1).

(** Sixty calls of [AddHistory], with the ids [id0] to [id59]. *)
Definition sixtyCalls : list vocabulary.Call :=
  (λ i : nat, {| vocabulary.now := 1000 + Z.of_nat i;
                 vocabulary.uuid := "id" +:+ pretty i;
                 vocabulary.req := postText.1;
                 vocabulary.resp := Response.zero |}) <$> seq 0 60.

Definition emptyStore : storage.Storage :=
  {| storage.templates := []; storage.history := [];
     storage.dataDir := "/home/u/.gopostman" |}.

(** A store with one template and one history entry, made by the
    operations of the store from the result of a request. *)
Definition busyStore : storage.Storage * Heap :=
  let '(spec1, spec2, h) := twoSpecs in
  let '(resp, h0, _) := httpclient.SendRequest net spec1 h dawn in
  let '(_, s1, h1, d1) :=
    storage.SaveTemplate os codec sorter 1000 "id-1" "A" spec1
      emptyStore h0 ∅ in
  let '(_, s2, h2, _) :=
    storage.AddHistory os codec 1001 "id-2" spec2 resp s1 h1 d1 in
  (s2, h2).

(** The result of a request that is answered, and the heap with it. *)
Definition answered : Response.t * Heap :=
  let '(resp, h, _) :=
    httpclient.SendRequest net postText.1 postText.2 dawn in
  (resp, h).

(** encoding/json on the fragment. *)
Definition json : httpclient.JSON jsonfrag.value :=
  {| httpclient.Unmarshal := jsonfrag.decode;
     httpclient.MarshalIndent v prefix indent :=
       inl (jsonfrag.encode prefix indent 0 v) |}.

(** The text [{"a":1}] and what [json.MarshalIndent] makes of it. *)
Definition compactText : string := "{" +:+ dquote +:+ "a" +:+ dquote +:+ ":1}".
Definition indentedText : string :=
  "{" +:+ nl +:+ "  " +:+ dquote +:+ "a" +:+ dquote +:+ ": 1" +:+ nl +:+ "}".

End fixtures.

(** * Fixtures: a desk to run the application on *)
Module ui_fixtures.
Import models ui.

(** A select that takes the texts that are among its options and keeps
    its selection otherwise. *)
Definition fyne : Fyne :=
  {| SetSelected options selected text :=
       if bool_decide (text ∈ options) then text else selected |}.

(** The application after [main] has made it, on the empty store. *)
Definition desk : App.t * Heap :=
  App.start fyne fixtures.emptyStore emptyHeap.

(** A panel with three rows: the one of [Build] and two added. *)
Definition threeRows : RequestPanel.t :=
  Nat.iter 2 (RequestPanel.addHeaderRow "" "" true)
    (RequestPanel.Build fyne RequestPanel.NewRequestPanel).

(** A session: a request is typed in and sent, saved as a template,
    changed and sent again; the template and the first entry of the
    history are opened, the template is deleted, the history cleared. *)
Definition session : list App.Event :=
  [ App.SelectMethod 1; App.TypeURL "example.com/x"; App.TypeBody "hi";
    App.TapAddHeader; App.TypeKey 1 "X-Trace"; App.TypeValue 1 "on";
    App.TapSend 1001 "id-1"; App.TapSave 1002 "id-2" "A";
    App.Tick 1; App.TapDeleteHeader 0; App.TapSend 1003 "id-3";
    App.TapTemplate 0; App.TapHistory 1;
    App.TapDeleteTemplate 0; App.TapClearAll ].

(** The desk after a request is typed in. *)
Definition typed : App.t * Heap * nethttp.World * gmap string string :=
  App.run fixtures.net fixtures.os fixtures.codec fixtures.sorter
    fyne fixtures.json map_to_list
    [App.SelectMethod 1; App.TypeURL "example.com/x"; App.TypeBody "hi"]
    (desk.1, desk.2, fixtures.dawn, ∅).

(** A request with a method that the select does not offer and a header
    without a name. *)
Definition purge : Request.t * Heap :=
  fixtures.request "PURGE" "example.com"
    [Header.mk "" "v" true; Header.mk "A" "b" false] "" emptyHeap.

(** A response whose body is JSON in one line. *)
Definition compact200 : Response.t :=
  {| Response.StatusCode := 200; Response.Status := "200 OK";
     Response.Headers := None; Response.Body := fixtures.compactText;
     Response.ResponseTime := 7000000; Response.Error := "" |}.

(** The application with the store of [fixtures.busyStore], shown. *)
Definition busyDesk : App.t * Heap :=
  App.start fyne fixtures.busyStore.1 fixtures.busyStore.2.

End ui_fixtures.


(** * Properties of the request executor *)
Module httpclient_props.
Import models httpclient vocabulary.

(** ** The canonical key *)

Ltac by_cases_on_byte c :=
  destruct c as [[] [] [] [] [] [] [] []]; reflexivity.

Lemma canonicalize_step_lower u c :
  (if u && nethttp.isLower (lowerChar c) then nethttp.toUpper (lowerChar c)
   else if negb u && nethttp.isUpper (lowerChar c)
        then nethttp.toLower (lowerChar c) else lowerChar c)
  = (if u && nethttp.isLower c then nethttp.toUpper c
     else if negb u && nethttp.isUpper c then nethttp.toLower c else c).
Proof. destruct u; by_cases_on_byte c. Qed.

Lemma lower_canonicalize_step u c :
  lowerChar (if u && nethttp.isLower c then nethttp.toUpper c
             else if negb u && nethttp.isUpper c then nethttp.toLower c else c)
  = lowerChar c.
Proof. destruct u; by_cases_on_byte c. Qed.

Lemma valid_lowerChar c :
  nethttp.validHeaderFieldByte (lowerChar c) = nethttp.validHeaderFieldByte c.
Proof. by_cases_on_byte c. Qed.

Lemma canonicalize_lower u s :
  nethttp.canonicalize u (lowerString s) = nethttp.canonicalize u s.
Proof.
  revert u. induction s as [|c s IH]; intros u; [done|].
  cbn [lowerString nethttp.canonicalize].
  by rewrite canonicalize_step_lower, IH.
Qed.

Lemma lower_canonicalize u s :
  lowerString (nethttp.canonicalize u s) = lowerString s.
Proof.
  revert u. induction s as [|c s IH]; intros u; [done|].
  cbn [lowerString nethttp.canonicalize].
  by rewrite IH, lower_canonicalize_step.
Qed.

Lemma valid_lowerString s :
  forallb nethttp.validHeaderFieldByte (list_ascii_of_string (lowerString s))
  = forallb nethttp.validHeaderFieldByte (list_ascii_of_string s).
Proof.
  induction s as [|c s IH]; [done|].
  cbn [lowerString list_ascii_of_string forallb].
  by rewrite valid_lowerChar, IH.
Qed.

Lemma tokenKey_lower s1 s2 :
  lowerString s1 = lowerString s2 → tokenKey s1 → tokenKey s2.
Proof.
  unfold tokenKey. intros Hl.
  by rewrite <- (valid_lowerString s1), Hl, valid_lowerString.
Qed.

Lemma lower_Canonical s :
  lowerString (nethttp.CanonicalMIMEHeaderKey s) = lowerString s.
Proof.
  unfold nethttp.CanonicalMIMEHeaderKey.
  destruct forallb; [apply lower_canonicalize | done].
Qed.

Lemma Canonical_lower_eq s1 s2 :
  lowerString s1 = lowerString s2 → tokenKey s1 →
  nethttp.CanonicalMIMEHeaderKey s1 = nethttp.CanonicalMIMEHeaderKey s2.
Proof.
  intros Hl H1. pose proof (tokenKey_lower _ _ Hl H1) as H2.
  unfold nethttp.CanonicalMIMEHeaderKey, tokenKey in *. rewrite H1, H2.
  by rewrite <- (canonicalize_lower _ s1), Hl, canonicalize_lower.
Qed.

Example Canonical_lower_case :
  nethttp.CanonicalMIMEHeaderKey "content-type" = "Content-Type"
  ∧ nethttp.CanonicalMIMEHeaderKey "x-forwarded-FOR" = "X-Forwarded-For"
  ∧ nethttp.CanonicalMIMEHeaderKey "x y" = "x y".
Proof. by split_and!. Qed.

Example withScheme_once :
  withScheme "example.com/x" = "http://example.com/x"
  ∧ withScheme "http://example.com/x" = "http://example.com/x"
  ∧ withScheme "https://example.com/x" = "https://example.com/x".
Proof. by split_and!. Qed.

(** ** The headers of the outgoing request *)

Lemma addHeaders_app l1 l2 hd :
  addHeaders (l1 ++ l2) hd = addHeaders l2 (addHeaders l1 hd).
Proof. apply foldl_app. Qed.

Lemma addHeaders_cons x l hd :
  addHeaders (x :: l) hd =
  addHeaders l (if Header.Enabled x && negb (String.eqb (Header.Key x) "")
                then nethttp.Set_ hd (Header.Key x) (Header.Value x) else hd).
Proof. done. Qed.

Lemma applied_iff x :
  Header.Enabled x && negb (String.eqb (Header.Key x) "") = true
  ↔ Header.Enabled x = true ∧ Header.Key x ≠ "".
Proof.
  rewrite andb_true_iff, negb_true_iff.
  destruct (String.eqb_spec (Header.Key x) ""); naive_solver.
Qed.

Lemma addHeaders_skip k hs hd :
  Forall (λ x, ¬ setsKey k x) hs → addHeaders hs hd !! k = hd !! k.
Proof.
  intros Hall. revert hd.
  induction Hall as [|x l Hx _ IH]; intros hd; [done|].
  rewrite addHeaders_cons, IH.
  destruct (Header.Enabled x && _) eqn:Happ; [|done].
  apply applied_iff in Happ as [? ?]. unfold nethttp.Set_.
  apply lookup_insert_ne. intros Hk. apply Hx. by repeat split.
Qed.

Lemma addHeaders_last k pre x post hd :
  setsKey k x → Forall (λ y, ¬ setsKey k y) post →
  addHeaders (pre ++ x :: post) hd !! k = Some [Header.Value x].
Proof.
  intros (He & Hk & Hc) Hpost.
  rewrite addHeaders_app, addHeaders_cons, addHeaders_skip by done.
  assert (Happ : Header.Enabled x && negb (String.eqb (Header.Key x) "") = true)
    by by apply applied_iff.
  rewrite Happ. unfold nethttp.Set_. rewrite Hc. apply lookup_insert_eq.
Qed.

Lemma addHeaders_keys k hs hd :
  is_Some (addHeaders hs hd !! k) →
  is_Some (hd !! k) ∨ ∃ x, x ∈ hs ∧ setsKey k x.
Proof.
  revert hd. induction hs as [|x l IH]; intros hd; [by left|].
  rewrite addHeaders_cons. intros [H|(y & ? & ?)]%IH.
  - destruct (Header.Enabled x && _) eqn:Happ; [|by left].
    apply applied_iff in Happ as [? ?]. unfold nethttp.Set_ in H.
    destruct (decide (nethttp.CanonicalMIMEHeaderKey (Header.Key x) = k)).
    + right. exists x. split; [left|done].
    + left. by rewrite lookup_insert_ne in H.
  - right. exists y. split; [by right|done].
Qed.

Lemma Canonical_ContentType :
  nethttp.CanonicalMIMEHeaderKey "Content-Type" = "Content-Type".
Proof. reflexivity. Qed.

Lemma defaultContentType_other body hd k :
  k ≠ "Content-Type" → defaultContentType body hd !! k = hd !! k.
Proof.
  intros Hk. unfold defaultContentType. destruct (_ && _); [|done].
  unfold nethttp.Set_. rewrite Canonical_ContentType.
  by apply lookup_insert_ne.
Qed.

Lemma defaultContentType_unset body hd :
  body ≠ "" → hd !! "Content-Type" = None →
  defaultContentType body hd !! "Content-Type" = Some ["application/json"].
Proof.
  intros Hb Hn. unfold defaultContentType, nethttp.Get.
  rewrite Canonical_ContentType, Hn.
  destruct (String.eqb_spec body ""); [done|]. cbn.
  unfold nethttp.Set_. rewrite Canonical_ContentType. apply lookup_insert_eq.
Qed.

Lemma defaultContentType_set body hd v :
  hd !! "Content-Type" = Some [v] →
  defaultContentType body hd !! "Content-Type"
  = Some [if decide (body ≠ "" ∧ v = "") then "application/json" else v].
Proof.
  intros Hs. unfold defaultContentType, nethttp.Get.
  rewrite Canonical_ContentType, Hs.
  destruct (String.eqb_spec body ""), (String.eqb_spec v ""); cbn;
    unfold nethttp.Set_; rewrite ?Canonical_ContentType, ?lookup_insert_eq, ?Hs;
    case_decide; naive_solver.
Qed.

(** The headers of the request that [outgoing] builds. *)
Lemma outgoing_Header N req h r :
  outgoing N req h = inl r →
  nethttp.Request.Header r
  = defaultContentType (Request.Body req)
      (addHeaders (elems h (Request.Headers req)) ∅).
Proof.
  unfold outgoing, nethttp.NewRequest.
  destruct (nethttp.invalid N _ _); [done|]. by intros [= <-].
Qed.

Lemma outgoing_keys N req h r k :
  outgoing N req h = inl r → is_Some (nethttp.Request.Header r !! k) →
  ∃ k0, k = nethttp.CanonicalMIMEHeaderKey k0.
Proof.
  intros Hr. rewrite (outgoing_Header _ _ _ _ Hr).
  destruct (decide (k = "Content-Type")) as [->|Hk].
  { intros _. by exists "Content-Type". }
  rewrite defaultContentType_other by done.
  intros [H|(x & _ & _ & _ & Hx)]%addHeaders_keys.
  - rewrite lookup_empty in H. by destruct H.
  - by exists (Header.Key x).
Qed.

(** ** The result of [SendRequest] *)

(** C7: a request whose URL is empty comes back at once with the error
    "URL is required": no request goes out (the world is as before, and
    so is the heap) and every other field of the result is zero. *)
Theorem SendRequest_empty_URL N req h w :
  Request.URL req = "" →
  SendRequest N req h w
  = ({| Response.StatusCode := 0; Response.Status := "";
        Response.Headers := None; Response.Body := "";
        Response.ResponseTime := 0;
        Response.Error := "URL is required" |}, h, w).
Proof. intros Hu. unfold SendRequest. by rewrite decide_True. Qed.

Lemma SendRequest_empty_URL_witness :
  (SendRequest fixtures.net fixtures.noURL.1 fixtures.noURL.2 fixtures.dawn).1.1
  = {| Response.StatusCode := 0; Response.Status := "";
       Response.Headers := None; Response.Body := "";
       Response.ResponseTime := 0;
       Response.Error := "URL is required" |}
  ∧ (SendRequest fixtures.net fixtures.noURL.1 fixtures.noURL.2 fixtures.dawn).2
    = fixtures.dawn.
Proof.
  rewrite (SendRequest_empty_URL fixtures.net fixtures.noURL.1
             fixtures.noURL.2 fixtures.dawn); [done | reflexivity].
Defined.

(** C3, as the specification states it, fails when the body cannot be
    read: the status and the headers were set before. *)
Lemma SendRequest_error_with_status :
  let resp := (SendRequest fixtures.net fixtures.getCut.1 fixtures.getCut.2
                 fixtures.dawn).1.1 in
  Response.Error resp ≠ ""
  ∧ ¬ (Response.StatusCode resp = 0%Z ∧ Response.Headers resp = None
       ∧ Response.Body resp = "").
Proof. vm_compute. split; [done|]. by intros (? & ? & ?). Qed.

(** C3, amended: in a result with an error the body is empty; status
    code, status line and headers are zero too, unless the error is that
    of reading the body of a response, whose status and headers the
    result then holds. *)
Theorem SendRequest_error_fields N req h w resp h' w' :
  SendRequest N req h w = (resp, h', w') →
  Response.Error resp ≠ "" →
  Response.Body resp = ""
  ∧ ((Response.StatusCode resp = 0%Z ∧ Response.Status resp = ""
      ∧ Response.Headers resp = None)
     ∨ ∃ r httpResp cause l,
         outgoing N req h = inl r
         ∧ (nethttp.RoundTrip N r).2 = inl httpResp
         ∧ nethttp.Response.Body httpResp = inr cause
         ∧ Response.Error resp = "Failed to read response body: " +:+ cause
         ∧ Response.StatusCode resp = nethttp.Response.StatusCode httpResp
         ∧ Response.Status resp = nethttp.Response.Status httpResp
         ∧ Response.Headers resp = Some l
         ∧ hmaps h' !! l
           = Some (joinHeaders (nethttp.Response.Header httpResp))).
Proof.
  unfold SendRequest. case_decide as Hu.
  { intros [= <- <- <-] _. split; [done|]. by left. }
  destruct (outgoing N req h) as [r|err] eqn:Hr.
  2:{ intros [= <- <- <-] _. split; [done|]. by left. }
  unfold nethttp.Do.
  destruct (nethttp.RoundTrip N r) as [latency [httpResp|err]] eqn:Hrt.
  2:{ intros [= <- <- <-] _. split; [done|]. by left. }
  destruct (nethttp.Response.Body httpResp) as [bytes|cause] eqn:Hb.
  { intros [= <- <- <-]. cbn. done. }
  intros [= <- <- <-] _. split; [done|]. right.
  exists r, httpResp, cause, (fresh (dom (hmaps h))). cbn.
  split_and!; try done; [by rewrite Hrt | apply lookup_insert_eq].
Qed.

Lemma SendRequest_error_fields_witness :
  let resp := (SendRequest fixtures.net fixtures.getDown.1 fixtures.getDown.2
                 fixtures.dawn).1.1 in
  Response.Body resp = "".
Proof.
  cbv zeta.
  destruct (SendRequest fixtures.net fixtures.getDown.1 fixtures.getDown.2
              fixtures.dawn) as [[resp h'] w'] eqn:E.
  refine (proj1 (SendRequest_error_fields fixtures.net fixtures.getDown.1
                   fixtures.getDown.2 fixtures.dawn resp h' w' E _)).
  revert E. vm_compute. by intros [= <- _ _].
Defined.

(** C4, as the specification states it, fails for a request that
    net/http refuses to build: its URL is not empty, it fails, and no
    time is taken because nothing is sent. *)
Lemma SendRequest_no_elapsed_without_call :
  let '(resp, _, w') :=
    SendRequest fixtures.net fixtures.badMethod.1 fixtures.badMethod.2
      fixtures.dawn in
  Request.URL fixtures.badMethod.1 ≠ ""
  ∧ Response.Error resp ≠ ""
  ∧ Response.ResponseTime resp = 0%Z
  ∧ nethttp.wire w' = [].
Proof. vm_compute. by split_and!. Qed.

(** C4, amended: when the URL is not empty and net/http builds the
    request, that request goes out and the result holds the time from
    just before the call to just after it, whether the call succeeds or
    fails; when net/http refuses the request nothing goes out and the
    time stays zero, as for the empty URL. *)
Theorem SendRequest_elapsed N req h w resp h' w' :
  SendRequest N req h w = (resp, h', w') →
  Request.URL req ≠ "" →
  match outgoing N req h with
  | inl r =>
      nethttp.wire w' = nethttp.wire w ++ [r]
      ∧ Response.ResponseTime resp = nethttp.Since (nethttp.Now w) w'
      ∧ Response.ResponseTime resp = (nethttp.RoundTrip N r).1
  | inr err =>
      w' = w ∧ Response.ResponseTime resp = 0%Z ∧ Response.Error resp = err
  end.
Proof.
  unfold SendRequest. intros E Hu. rewrite decide_False in E by done.
  destruct (outgoing N req h) as [r|err].
  2:{ by injection E as <- <- <-. }
  unfold nethttp.Do in E.
  destruct (nethttp.RoundTrip N r) as [latency result].
  assert (Hsince : nethttp.Since (nethttp.Now w)
            {| nethttp.clock := nethttp.clock w + latency;
               nethttp.wire := nethttp.wire w ++ [r] |} = latency).
  { unfold nethttp.Since, nethttp.Now. cbn. lia. }
  rewrite Hsince in E.
  destruct result as [httpResp|err];
    [destruct (nethttp.Response.Body httpResp)|];
    injection E as <- <- <-; cbn; by rewrite ?Hsince.
Qed.

Lemma SendRequest_elapsed_witness :
  let '(resp, _, w') :=
    SendRequest fixtures.net fixtures.getDown.1 fixtures.getDown.2
      fixtures.dawn in
  Response.ResponseTime resp = 3000000%Z ∧ length (nethttp.wire w') = 1.
Proof.
  destruct (SendRequest fixtures.net fixtures.getDown.1 fixtures.getDown.2
              fixtures.dawn) as [[resp h'] w'] eqn:E.
  pose proof (SendRequest_elapsed fixtures.net fixtures.getDown.1
                fixtures.getDown.2 fixtures.dawn resp h' w' E) as H.
  destruct (outgoing fixtures.net fixtures.getDown.1 fixtures.getDown.2)
    as [r|err] eqn:Hr; [|by vm_compute in Hr].
  destruct H as (Hw & _ & Ht); [by vm_compute|].
  split.
  - rewrite Ht. revert Hr. vm_compute. by intros [= <-].
  - by rewrite Hw.
Defined.

(** ** Content-Type and the case of header keys *)

(** C8, as the specification states it, fails for an enabled
    Content-Type header with an empty value: the request has a body, and
    the default takes the place of the value that was set. *)
Lemma blank_content_type_replaced :
  Request.Body fixtures.postBlankType.1 ≠ ""
  ∧ elems fixtures.postBlankType.2 (Request.Headers fixtures.postBlankType.1)
    = [Header.mk "Content-Type" "" true]
  ∧ ∃ r, outgoing fixtures.net fixtures.postBlankType.1 fixtures.postBlankType.2
         = inl r
         ∧ nethttp.Request.Header r !! "Content-Type"
           = Some ["application/json"]
         ∧ nethttp.Request.Header r !! "Content-Type" ≠ Some [""].
Proof.
  split; [done|]. split; [reflexivity|].
  eexists. split; [reflexivity|]. by vm_compute.
Qed.

(** C8, amended: for a request with a body that net/http builds, when no
    applied header has the canonical key Content-Type the outgoing request
    carries Content-Type: application/json; when one has, the value of
    the last of them is carried as it is, provided it is not empty. *)
Theorem content_type_default N req h r :
  Request.Body req ≠ "" →
  outgoing N req h = inl r →
  (Forall (λ x, ¬ setsKey "Content-Type" x) (elems h (Request.Headers req)) →
   nethttp.Request.Header r !! "Content-Type" = Some ["application/json"])
  ∧ (∀ pre x post,
       elems h (Request.Headers req) = pre ++ x :: post →
       setsKey "Content-Type" x →
       Forall (λ y, ¬ setsKey "Content-Type" y) post →
       Header.Value x ≠ "" →
       nethttp.Request.Header r !! "Content-Type" = Some [Header.Value x]).
Proof.
  intros Hb Hr. rewrite (outgoing_Header _ _ _ _ Hr). split.
  - intros Hno. apply defaultContentType_unset; [done|].
    by rewrite addHeaders_skip, lookup_empty.
  - intros pre x post -> Hx Hpost Hv.
    rewrite (defaultContentType_set _ _ (Header.Value x))
      by by apply addHeaders_last.
    rewrite decide_False; [done | naive_solver].
Qed.

Lemma content_type_default_witness :
  (∃ r, outgoing fixtures.net fixtures.postJSON.1 fixtures.postJSON.2 = inl r
        ∧ nethttp.Request.Header r !! "Content-Type"
          = Some ["application/json"])
  ∧ (∃ r, outgoing fixtures.net fixtures.postText.1 fixtures.postText.2 = inl r
          ∧ nethttp.Request.Header r !! "Content-Type" = Some ["text/plain"]).
Proof.
  split.
  - eexists. split; [reflexivity|].
    refine (proj1 (content_type_default fixtures.net fixtures.postJSON.1
                     fixtures.postJSON.2 _ _ eq_refl) _); [done|].
    change (elems fixtures.postJSON.2 (Request.Headers fixtures.postJSON.1))
      with [Header.mk "Accept" "*/*" true;
            Header.mk "Content-Type" "text/xml" false].
    repeat constructor; by intros (? & ? & ?).
  - eexists. split; [reflexivity|].
    refine (proj2 (content_type_default fixtures.net fixtures.postText.1
                     fixtures.postText.2 _ _ eq_refl)
              [] (Header.mk "content-type" "text/plain" true) [] _ _ _ _);
      [done | reflexivity | by split_and! | constructor | done].
Defined.

(** C10, as stated, fails for keys that are not tokens: net/textproto
    leaves such a key as it is, so two keys that differ in letter case
    only stay two headers. *)
Lemma spaced_keys_stay_apart :
  elems fixtures.twoCasesSpaced.2 (Request.Headers fixtures.twoCasesSpaced.1)
  = [Header.mk "x y" "1" true; Header.mk "X Y" "2" true]
  ∧ lowerString "x y" = lowerString "X Y"
  ∧ ∃ r, outgoing fixtures.net fixtures.twoCasesSpaced.1
           fixtures.twoCasesSpaced.2 = inl r
         ∧ nethttp.Request.Header r !! "x y" = Some ["1"]
         ∧ nethttp.Request.Header r !! "X Y" = Some ["2"].
Proof.
  split; [reflexivity|]. split; [reflexivity|].
  eexists. split; [reflexivity|]. by vm_compute.
Qed.

(** C10, amended: when two enabled entries have non-empty keys made of
    token bytes that differ in letter case only, both fall on one
    canonical key, the outgoing request has no other key that differs
    from it in letter case only, and the value under it is that of the
    later entry, provided no entry after it is applied under the same
    canonical key and the value is not an empty Content-Type of a
    request with a body (which the default replaces). *)
Theorem header_keys_fold_case N req h r pre x1 mid x2 post :
  outgoing N req h = inl r →
  elems h (Request.Headers req) = pre ++ x1 :: mid ++ x2 :: post →
  Header.Enabled x1 = true → Header.Enabled x2 = true →
  Header.Key x1 ≠ "" → Header.Key x2 ≠ "" →
  lowerString (Header.Key x1) = lowerString (Header.Key x2) →
  tokenKey (Header.Key x1) →
  Forall (λ y, ¬ setsKey (nethttp.CanonicalMIMEHeaderKey (Header.Key x2)) y)
    post →
  ¬ (Request.Body req ≠ "" ∧ Header.Value x2 = ""
     ∧ nethttp.CanonicalMIMEHeaderKey (Header.Key x2) = "Content-Type") →
  nethttp.CanonicalMIMEHeaderKey (Header.Key x1)
  = nethttp.CanonicalMIMEHeaderKey (Header.Key x2)
  ∧ nethttp.Request.Header r !! nethttp.CanonicalMIMEHeaderKey (Header.Key x2)
    = Some [Header.Value x2]
  ∧ ∀ k, is_Some (nethttp.Request.Header r !! k) →
         lowerString k = lowerString (Header.Key x2) →
         k = nethttp.CanonicalMIMEHeaderKey (Header.Key x2).
Proof.
  intros Hr Hhs He1 He2 Hk1 Hk2 Hlow Htok Hpost Hdef.
  pose proof (Canonical_lower_eq _ _ Hlow Htok) as Hcan.
  split; [done|]. split.
  - rewrite (outgoing_Header _ _ _ _ Hr), Hhs.
    assert (Hlast : addHeaders (pre ++ x1 :: mid ++ x2 :: post) ∅
                    !! nethttp.CanonicalMIMEHeaderKey (Header.Key x2)
                    = Some [Header.Value x2]).
    { replace (pre ++ x1 :: mid ++ x2 :: post)
        with ((pre ++ x1 :: mid) ++ x2 :: post)
        by by rewrite <- app_assoc.
      by apply addHeaders_last. }
    destruct (decide (nethttp.CanonicalMIMEHeaderKey (Header.Key x2)
                      = "Content-Type")) as [Hct|Hct].
    + rewrite Hct in *.
      rewrite (defaultContentType_set _ _ _ Hlast).
      rewrite decide_False; [done | naive_solver].
    + by rewrite defaultContentType_other.
  - intros k Hk Hlk.
    destruct (outgoing_keys _ _ _ _ _ Hr Hk) as [k0 ->].
    rewrite lower_Canonical in Hlk.
    rewrite <- Hcan. symmetry. apply Canonical_lower_eq; [congruence|done].
Qed.

Lemma header_keys_fold_case_witness :
  ∃ r, outgoing fixtures.net fixtures.twoCases.1 fixtures.twoCases.2 = inl r
       ∧ nethttp.Request.Header r !! "X-Token" = Some ["2"].
Proof.
  eexists. split; [reflexivity|].
  refine (proj1 (proj2 (header_keys_fold_case fixtures.net fixtures.twoCases.1
            fixtures.twoCases.2 _ [] (Header.mk "x-token" "1" true) []
            (Header.mk "X-TOKEN" "2" true) []
            eq_refl _ _ _ _ _ _ _ _ _)));
    try done; try reflexivity.
  by intros (? & ? & ?).
Defined.

(** ** The two helpers on JSON texts *)

(** C9: [FormatJSON] always returns a text.  For an input that
    encoding/json decodes it is the value encoded again by
    [MarshalIndent] with no prefix and an indent of two spaces; for an
    input that it does not decode it is the input; and [IsJSON] is true
    exactly for the inputs that it decodes.  Two facts of encoding/json
    are used: the empty text is not JSON, and what [Unmarshal] decodes
    into an [interface{}], [MarshalIndent] encodes. *)
Theorem FormatJSON_IsJSON {value} (J : JSON value) input :
  (∃ e, Unmarshal J "" = inr e) →
  (∀ s v, Unmarshal J s = inl v → ∃ out, MarshalIndent J v "" "  " = inl out) →
  (∀ v, Unmarshal J input = inl v →
        MarshalIndent J v "" "  " = inl (FormatJSON J input))
  ∧ (∀ e, Unmarshal J input = inr e →
          FormatJSON J input = input ∧ IsJSON J input = false)
  ∧ (IsJSON J input = true ↔ ∃ v, Unmarshal J input = inl v).
Proof.
  intros [e0 Hempty] Htotal. unfold FormatJSON, IsJSON. split_and!.
  - intros v Hv. case_decide as Hi; [congruence|]. rewrite Hv.
    destruct (Htotal _ _ Hv) as [out Hout]. by rewrite Hout.
  - intros e He. rewrite He. by case_decide.
  - destruct (Unmarshal J input) as [v|e]; split; try done; eauto.
    by intros [? ?].
Qed.

Lemma FormatJSON_IsJSON_witness :
  FormatJSON fixtures.json fixtures.compactText = fixtures.indentedText
  ∧ FormatJSON fixtures.json "not json" = "not json"
  ∧ IsJSON fixtures.json "not json" = false.
Proof.
  assert (H0 : ∃ e, Unmarshal fixtures.json "" = inr e) by by eexists.
  assert (H1 : ∀ s v, Unmarshal fixtures.json s = inl v →
                 ∃ out, MarshalIndent fixtures.json v "" "  " = inl out)
    by by eexists.
  split.
  - destruct (FormatJSON_IsJSON fixtures.json fixtures.compactText H0 H1)
      as (Hok & _).
    specialize (Hok (jsonfrag.Object [("a", jsonfrag.Number 1)]) eq_refl).
    exact (eq_sym (f_equal (λ x : string + error,
                              match x with inl t => t | inr _ => "" end) Hok)).
  - by destruct (FormatJSON_IsJSON fixtures.json "not json" H0 H1)
      as (_ & Hbad & _), (Hbad _ eq_refl).
Defined.

End httpclient_props.

(** * Properties of the copies that [Clone] makes *)
Module models_props.
Import models vocabulary.

Lemma make_headers_fresh n h :
  array (make_headers n h).1 ∉ dom (arrays h).
Proof. cbn. apply is_fresh. Qed.

(** The clone has the fields of the request, and its headers are the
    same elements in an array that did not exist before. *)
Lemma Clone_spec r h :
  let '(r', h') := Clone r h in
  requestValue h' r' = requestValue h r
  ∧ (array (Request.Headers r') ∉ dom (arrays h))
  ∧ len (Request.Headers r') = len (Request.Headers r)
  ∧ hmaps h' = hmaps h
  ∧ dom (arrays h) ⊆ dom (arrays h')
  ∧ ∀ a, a ∈ dom (arrays h) → arrays h' !! a = arrays h !! a.
Proof.
  unfold Clone, make_headers, copy_headers, requestValue. cbn.
  set (a := fresh (dom (arrays h))).
  assert (Ha : a ∉ dom (arrays h)) by apply is_fresh.
  set (n := len (Request.Headers r)).
  set (h1 := {| arrays := <[a:=replicate n Header.zero]> (arrays h);
                hmaps := hmaps h |}).
  assert (Hsrc : elems h1 (Request.Headers r) = elems h (Request.Headers r)).
  { unfold elems, h1. cbn. fold n.
    destruct (decide (array (Request.Headers r) = a)) as [->|Hne].
    - rewrite lookup_insert_eq. apply not_elem_of_dom in Ha. rewrite Ha. cbn.
      by rewrite resize_nil, resize_replicate.
    - by rewrite lookup_insert_ne. }
  split_and!; try done.
  - f_equal. f_equal. unfold elems at 1. cbn.
    rewrite lookup_alter_eq, lookup_insert_eq. cbn.
    change (resize (len (Request.Headers r)) Header.zero
              (default [] (<[a:=replicate n Header.zero]> (arrays h)
                           !! array (Request.Headers r))))
      with (elems h1 (Request.Headers r)).
    rewrite Nat.min_id, Hsrc.
    assert (Hlen : length (elems h (Request.Headers r)) = n)
      by apply length_resize.
    rewrite drop_ge by by rewrite length_replicate.
    rewrite app_nil_r, take_ge by lia.
    by rewrite resize_all_alt.
  - rewrite dom_alter_L, dom_insert_L. set_solver.
  - intros b Hb. rewrite lookup_alter_ne, lookup_insert_ne; [done|set_solver..].
Qed.

End models_props.

(** * Properties of the store *)
Module storage_props.
Import models storage vocabulary.

Section Store.
Context {disk : Type} (O : OS disk) (J : Codec) (Srt : Sorter).

(** ** Construction *)

Lemma loadTemplates_parse_error s h d data ts h1 e :
  ReadFile O (Join O (dataDir s) templatesFile) d = inl data →
  UnmarshalTemplates J data (templates s) h = (ts, h1, Some e) →
  (loadTemplates O J s h d).1.1 = Some e.
Proof. intros Hr Hu. unfold loadTemplates. by rewrite Hr, Hu. Qed.

Lemma loadHistory_parse_error s h d data hs h1 e :
  ReadFile O (Join O (dataDir s) historyFile) d = inl data →
  UnmarshalHistory J data (history s) h = (hs, h1, Some e) →
  (loadHistory O J s h d).1.1 = Some e.
Proof. intros Hr Hu. unfold loadHistory. by rewrite Hr, Hu. Qed.

Lemma loadTemplates_missing s h d err :
  ReadFile O (Join O (dataDir s) templatesFile) d = inr err →
  IsNotExist err = true →
  loadTemplates O J s h d = (None, s, h).
Proof. intros Hr He. unfold loadTemplates. by rewrite Hr, He. Qed.

Lemma loadHistory_missing s h d err :
  ReadFile O (Join O (dataDir s) historyFile) d = inr err →
  IsNotExist err = true →
  loadHistory O J s h d = (None, s, h).
Proof. intros Hr He. unfold loadHistory. by rewrite Hr, He. Qed.

Lemma NewStorage_result h d :
  (NewStorage O J h d).1.1
  = match UserHomeDir O with
    | inr err => inr err
    | inl homeDir =>
        match (MkdirAll O (Join O homeDir appDirName) d).1 with
        | Some err => inr err
        | None =>
            let d1 := (MkdirAll O (Join O homeDir appDirName) d).2 in
            let s := {| templates := []; history := [];
                        dataDir := Join O homeDir appDirName |} in
            let '(_, s1, h1) := loadTemplates O J s h d1 in
            inl (loadHistory O J s1 h1 d1).1.2
        end
    end.
Proof.
  unfold NewStorage. destruct (UserHomeDir O) as [homeDir|err]; [|done].
  destruct (MkdirAll O _ d) as [[err|] d1]; [done|]. cbn.
  destruct (loadTemplates O J _ h d1) as [[e1 s1] h1].
  by destruct (loadHistory O J s1 h1 d1) as [[e2 s2] h2].
Qed.

(** C1, amended: the load of a file that exists and does not parse
    returns the error of the parser, and the load of a file that does not
    exist returns none and leaves the collection as it is; but
    [NewStorage] drops what the loads return: it succeeds exactly when
    the home directory is found and the data directory can be made. *)
Theorem NewStorage_fails_only_on_directory :
  (∀ s h d data ts h1 e,
     ReadFile O (Join O (dataDir s) templatesFile) d = inl data →
     UnmarshalTemplates J data (templates s) h = (ts, h1, Some e) →
     (loadTemplates O J s h d).1.1 = Some e)
  ∧ (∀ s h d data hs h1 e,
       ReadFile O (Join O (dataDir s) historyFile) d = inl data →
       UnmarshalHistory J data (history s) h = (hs, h1, Some e) →
       (loadHistory O J s h d).1.1 = Some e)
  ∧ (∀ s h d err,
       ReadFile O (Join O (dataDir s) templatesFile) d = inr err →
       IsNotExist err = true →
       loadTemplates O J s h d = (None, s, h))
  ∧ (∀ s h d err,
       ReadFile O (Join O (dataDir s) historyFile) d = inr err →
       IsNotExist err = true →
       loadHistory O J s h d = (None, s, h))
  ∧ (∀ h d,
       (∃ s, (NewStorage O J h d).1.1 = inl s)
       ↔ ∃ homeDir,
           UserHomeDir O = inl homeDir
           ∧ (MkdirAll O (Join O homeDir appDirName) d).1 = None).
Proof.
  split_and!.
  - apply loadTemplates_parse_error.
  - apply loadHistory_parse_error.
  - apply loadTemplates_missing.
  - apply loadHistory_missing.
  - intros h d. rewrite NewStorage_result.
    destruct (UserHomeDir O) as [homeDir|err].
    2:{ split; [by intros [? ?] | by intros (? & ? & _)]. }
    destruct (MkdirAll O (Join O homeDir appDirName) d).1 as [err|] eqn:Hm.
    + split; [by intros [? ?] |]. intros (? & [= <-] & H). congruence.
    + cbn. destruct (loadTemplates O J _ h _) as [[e1 s1] h1].
      split; [|by eauto]. intros _. exists homeDir. by rewrite Hm.
Qed.

(** ** The history *)

Lemma AddHistory_step now uuid req resp s h d res s1 h1 d1 :
  AddHistory O J now uuid req resp s h d = (res, s1, h1, d1) →
  history s1
  = take maxHistoryItems ((newItem now uuid req resp h).1 :: history s)
  ∧ templates s1 = templates s
  ∧ h1 = (newItem now uuid req resp h).2
  ∧ (res = inl (newItem now uuid req resp h).1 ∨ ∃ e, res = inr e).
Proof.
  unfold AddHistory.
  destruct (newItem now uuid req resp h) as [item h0]. cbn [fst snd app].
  set (hist := if decide _ then _ else _).
  assert (Hh : hist = take maxHistoryItems (item :: history s)).
  { unfold hist. case_decide; [done|]. rewrite take_ge; [done|lia]. }
  destruct (saveHistory O J _ h0 d) as [[e|] d0];
    intros [= <- <- <- <-]; cbn; split_and!; eauto.
Qed.

Lemma take_app_take {A} n (l k : list A) :
  take n (l ++ take n k) = take n (l ++ k).
Proof. rewrite !take_app, take_take. do 2 f_equal. lia. Qed.

Lemma AddHistoryEach_history calls s h d created s' h' d' :
  AddHistoryEach O J calls s h d = (created, s', h', d') →
  length created = length calls
  ∧ take maxHistoryItems (history s')
    = take maxHistoryItems (reverse created ++ history s)
  ∧ (calls ≠ [] → length (history s') ≤ maxHistoryItems)
  ∧ Forall2 (λ c x,
       HistoryItem.ID x = uuid c ∧ HistoryItem.Timestamp x = now c
       ∧ HistoryItem.Response x = resp c
       ∧ Request.Method (HistoryItem.Request x) = Request.Method (req c)
       ∧ Request.URL (HistoryItem.Request x) = Request.URL (req c)
       ∧ Request.Body (HistoryItem.Request x) = Request.Body (req c))
      calls created.
Proof.
  revert s h d created s' h' d'.
  induction calls as [|c calls IH]; intros s h d created s' h' d'.
  { intros [= <- <- <- <-]. split_and!; [done..|by constructor]. }
  cbn [AddHistoryEach].
  destruct (AddHistory O J (now c) (uuid c) (req c) (resp c) s h d)
    as [[[res s1] h1] d1] eqn:E1.
  apply AddHistory_step in E1 as (Hh & _ & _ & _).
  destruct (AddHistoryEach O J calls s1 h1 d1) as [[[items s2] h2] d2] eqn:E2.
  destruct (IH _ _ _ _ _ _ _ E2) as (Hlen & Htake & Hcap & Hall).
  intros [= <- <- <- <-]. split_and!.
  - cbn. by rewrite Hlen.
  - rewrite Htake, Hh, take_app_take, reverse_cons, <- app_assoc. done.
  - intros _. destruct calls as [|c' calls']; [|by apply Hcap].
    injection E2 as _ <- _ _. rewrite Hh, length_take. lia.
  - constructor; [|done]. unfold newItem, Clone. by cbn.
Qed.

(** C6: every call of [AddHistory] puts its new entry in front (the
    same request twice gives two entries) and keeps the first 50, so the
    entries that go are the oldest, at the end; after a run of calls the
    history is the entries made, newest first, then the former ones, cut
    at 50; 60 calls on an empty history leave exactly 50 entries, the 50
    made last, newest first. *)
Theorem AddHistory_newest_first_capped calls s h d created s' h' d' :
  AddHistoryEach O J calls s h d = (created, s', h', d') →
  calls ≠ [] →
  length created = length calls
  ∧ Forall2 (λ c x,
       HistoryItem.ID x = uuid c ∧ HistoryItem.Timestamp x = now c
       ∧ HistoryItem.Response x = resp c
       ∧ Request.Method (HistoryItem.Request x) = Request.Method (req c)
       ∧ Request.URL (HistoryItem.Request x) = Request.URL (req c)
       ∧ Request.Body (HistoryItem.Request x) = Request.Body (req c))
      calls created
  ∧ history s' = take maxHistoryItems (reverse created ++ history s)
  ∧ length (history s') ≤ maxHistoryItems
  ∧ (history s = [] → length calls = 60 →
     length (history s') = 50 ∧ history s' = reverse (drop 10 created)).
Proof.
  intros E Hne.
  destruct (AddHistoryEach_history _ _ _ _ _ _ _ _ E)
    as (Hlen & Htake & Hcap & Hall).
  specialize (Hcap Hne).
  assert (Hh : history s'
               = take maxHistoryItems (reverse created ++ history s)).
  { rewrite <- Htake. by rewrite take_ge. }
  split_and!; try done.
  intros Hempty H60. rewrite Hh, Hempty, app_nil_r.
  unfold maxHistoryItems. rewrite take_reverse, Hlen, H60.
  split; [|done]. rewrite length_reverse, length_drop. lia.
Qed.

(** ** The templates *)

Lemma filter_none {A} (P : A → Prop) `{∀ x, Decision (P x)} (l : list A) :
  Forall (λ x, ¬ P x) l → filter P l = [].
Proof.
  induction 1 as [|x l Hx _ IH]; [done|].
  by rewrite filter_cons, decide_False.
Qed.

Lemma filter_insert_one {A} (P : A → Prop) `{∀ x, Decision (P x)}
    (l : list A) i x y :
  l !! i = Some x → P x → P y → length (filter P l) ≤ 1 →
  filter P l = [x]
  ∧ filter P (<[i:=y]> l) = [y]
  ∧ filter (λ z, ¬ P z) (<[i:=y]> l) = filter (λ z, ¬ P z) l.
Proof.
  intros Hi Px Py Hone.
  rewrite insert_take_drop by by eapply lookup_lt_Some.
  pose proof (take_drop_middle l i x Hi) as Hl.
  set (l1 := take i l) in *. set (l2 := drop (S i) l) in *.
  clearbody l1 l2. subst l.
  rewrite !filter_app, !filter_cons, !decide_True in * by done.
  rewrite !decide_False by tauto.
  rewrite length_app in Hone. cbn in Hone.
  destruct (filter P l1); [|cbn in Hone; lia].
  destruct (filter P l2); [done|cbn in Hone; lia].
Qed.

Lemma SaveTemplate_step now uuid name req s h d res s1 h1 d1 :
  SaveTemplate O J Srt now uuid name req s h d = (res, s1, h1, d1) →
  h1 = (Clone req h).2
  ∧ history s1 = history s
  ∧ match list_find (λ t, Template.Name t = name) (templates s) with
    | Some (i, t) =>
        templates s1 = <[i := refresh (Clone req h).1 now t]> (templates s)
    | None =>
        templates s1
        = sortSlice Srt (templates s ++
            [{| Template.ID := uuid; Template.Name := name;
                Template.Request := (Clone req h).1;
                Template.CreatedAt := now; Template.UpdatedAt := now |}])
    end.
Proof.
  unfold SaveTemplate.
  destruct (list_find _ (templates s)) as [[i t]|];
    destruct (Clone req h) as [r h0];
    destruct (saveTemplates O J _ h0 d) as [[e|] d0];
    by intros [= <- <- <- <-].
Qed.

(** After a call there is one template of the name, if there was at
    most one before. *)
Lemma SaveTemplate_one now uuid name req s h d res s1 h1 d1 :
  SaveTemplate O J Srt now uuid name req s h d = (res, s1, h1, d1) →
  length (filter (λ t, Template.Name t = name) (templates s)) ≤ 1 →
  ∃ t, filter (λ t, Template.Name t = name) (templates s1) = [t]
       ∧ Template.Request t = (Clone req h).1
       ∧ Template.UpdatedAt t = now
       ∧ (∀ t0, filter (λ t, Template.Name t = name) (templates s) = [t0] →
                Template.ID t = Template.ID t0
                ∧ Template.CreatedAt t = Template.CreatedAt t0
                ∧ length (templates s1) = length (templates s)
                ∧ filter (λ t, ¬ Template.Name t = name) (templates s1)
                  = filter (λ t, ¬ Template.Name t = name) (templates s)).
Proof.
  intros E Hone. apply SaveTemplate_step in E as (_ & _ & Ht).
  destruct (list_find _ (templates s)) as [[i t]|] eqn:Hf.
  - apply list_find_Some in Hf as (Hi & Hn & _).
    destruct (filter_insert_one (λ t, Template.Name t = name) (templates s)
                i t (refresh (Clone req h).1 now t) Hi Hn Hn Hone)
      as (Hold & Hnew & Hrest).
    exists (refresh (Clone req h).1 now t). rewrite Ht.
    split_and!; try done.
    intros t0 Ht0. rewrite Hold in Ht0. injection Ht0 as <-.
    by rewrite length_insert.
  - apply list_find_None in Hf.
    exists {| Template.ID := uuid; Template.Name := name;
              Template.Request := (Clone req h).1;
              Template.CreatedAt := now; Template.UpdatedAt := now |}.
    split_and!; [|done|done|].
    + apply Permutation_singleton_r. rewrite Ht, (sortSlice_perm Srt).
      rewrite filter_app, filter_cons, decide_True by done.
      by rewrite filter_none.
    + intros t0 Ht0. exfalso.
      assert (Hin : t0 ∈ filter (λ t, Template.Name t = name) (templates s))
        by (rewrite Ht0; left).
      apply list_elem_of_filter in Hin as [Hn Hin].
      by eapply Forall_forall in Hf.
Qed.

(** The invariant of the collection: no two templates of one name.  It
    holds of the empty store and the operations keep it, and it bounds
    the templates of each name by one. *)
Lemma unique_names_one name (l : list Template.t) :
  NoDup (Template.Name <$> l) →
  length (filter (λ t, Template.Name t = name) l) ≤ 1.
Proof.
  induction l as [|x l IH]; [cbn; lia|].
  rewrite fmap_cons, NoDup_cons, filter_cons. intros [Hx Hl].
  case_decide as Hn; [|by apply IH].
  rewrite filter_none; [done|].
  apply Forall_forall. intros y Hy Hyn. apply Hx.
  apply list_elem_of_fmap. exists y. split; [congruence|done].
Qed.

Lemma SaveTemplate_unique_names now uuid name req s h d res s1 h1 d1 :
  SaveTemplate O J Srt now uuid name req s h d = (res, s1, h1, d1) →
  NoDup (Template.Name <$> templates s) →
  NoDup (Template.Name <$> templates s1).
Proof.
  intros E Hnd. apply SaveTemplate_step in E as (_ & _ & Ht).
  destruct (list_find _ (templates s)) as [[i t]|] eqn:Hf.
  - apply list_find_Some in Hf as (Hi & _ & _).
    rewrite Ht, list_fmap_insert. cbn.
    rewrite list_insert_id; [done|]. by rewrite list_lookup_fmap, Hi.
  - apply list_find_None in Hf.
    rewrite Ht, (sortSlice_perm Srt), fmap_app. cbn.
    apply NoDup_app. split_and!; [done| |apply NoDup_singleton].
    intros x (y & Hxy & Hy)%list_elem_of_fmap Hx%list_elem_of_singleton.
    eapply Forall_forall in Hf; [|done]. congruence.
Qed.

Lemma DeleteTemplate_unique_names id s h d err s1 d1 :
  DeleteTemplate O J id s h d = (err, s1, d1) →
  NoDup (Template.Name <$> templates s) →
  NoDup (Template.Name <$> templates s1).
Proof.
  unfold DeleteTemplate.
  destruct (list_find _ (templates s)) as [[i t]|]; [|by intros [= _ <- _]].
  destruct (saveTemplates O J _ h d) as [e d0]. intros [= _ <- _] Hnd. cbn.
  rewrite list_fmap_delete. eapply sublist_NoDup; [done|apply sublist_delete].
Qed.

(** C5: after [SaveTemplate] of a name with one request and then with
    another, on a store with at most one template of that name, there is
    exactly one template of the name; its request is a copy of the
    second request with the same fields and header elements in an array
    of its own, its id (and creation time) are those it had after the
    first call, its [UpdatedAt] is the time of the second call, and the
    second call added no template and changed no other. *)
Theorem SaveTemplate_same_name_updates
    now1 id1 now2 id2 name spec1 spec2 s h d r1 s1 h1 d1 r2 s2 h2 d2 :
  SaveTemplate O J Srt now1 id1 name spec1 s h d = (r1, s1, h1, d1) →
  SaveTemplate O J Srt now2 id2 name spec2 s1 h1 d1 = (r2, s2, h2, d2) →
  length (filter (λ t, Template.Name t = name) (templates s)) ≤ 1 →
  ∃ t1 t2,
    filter (λ t, Template.Name t = name) (templates s1) = [t1]
    ∧ filter (λ t, Template.Name t = name) (templates s2) = [t2]
    ∧ Template.ID t2 = Template.ID t1
    ∧ Template.CreatedAt t2 = Template.CreatedAt t1
    ∧ Template.UpdatedAt t2 = now2
    ∧ requestValue h2 (Template.Request t2) = requestValue h1 spec2
    ∧ (array (Request.Headers (Template.Request t2)) ∉ dom (arrays h1))
    ∧ length (templates s2) = length (templates s1)
    ∧ filter (λ t, ¬ Template.Name t = name) (templates s2)
      = filter (λ t, ¬ Template.Name t = name) (templates s1).
Proof.
  intros E1 E2 Hone.
  destruct (SaveTemplate_one _ _ _ _ _ _ _ _ _ _ _ E1 Hone)
    as (t1 & Hf1 & _).
  assert (Hone1 : length (filter (λ t, Template.Name t = name) (templates s1))
                  ≤ 1) by by rewrite Hf1.
  destruct (SaveTemplate_one _ _ _ _ _ _ _ _ _ _ _ E2 Hone1)
    as (t2 & Hf2 & Hreq & Hupd & Hsame).
  destruct (Hsame t1 Hf1) as (Hid & Hcr & Hlen & Hrest).
  apply SaveTemplate_step in E2 as (Hh2 & _ & _).
  pose proof (models_props.Clone_spec spec2 h1) as Hclone.
  destruct (Clone spec2 h1) as [r h']. cbn in Hreq, Hh2. subst h2.
  destruct Hclone as (Hval & Hfresh & _).
  exists t1, t2. rewrite Hreq. by split_and!.
Qed.

End Store.

(** ** The sequences that [GetTemplates] and [GetHistory] return *)

Lemma agree_refl s h : agree s h h.
Proof. by split. Qed.

Lemma agree_trans s h1 h2 h3 : agree s h1 h2 → agree s h2 h3 → agree s h1 h3.
Proof.
  intros [Ha Hm] [Ha' Hm']. split; intros x Hx.
  - by rewrite Ha', Ha.
  - by rewrite Hm', Hm.
Qed.

Lemma agree_storeValue s h h' : agree s h h' → storeValue s h' = storeValue s h.
Proof.
  intros [Ha Hm]. unfold storeValue, GetTemplates, GetHistory. f_equal.
  - apply list_fmap_ext. intros i t Ht.
    unfold templateValue, requestValue, elems.
    rewrite Ha; [done|]. unfold storeArrays.
    apply elem_of_app. left. apply list_elem_of_fmap.
    exists t. split; [done|]. by eapply list_elem_of_lookup_2.
  - apply list_fmap_ext. intros i x Hx.
    apply list_elem_of_lookup_2 in Hx.
    unfold itemValue, requestValue, responseValue, elems.
    rewrite Ha.
    2:{ unfold storeArrays. apply elem_of_app. right.
        apply list_elem_of_fmap. by exists x. }
    destruct (Response.Headers (HistoryItem.Response x)) as [m|] eqn:Hmx;
      [|done].
    cbn. rewrite Hm; [done|]. unfold storeMaps.
    apply list_elem_of_omap. by exists x.
Qed.

Lemma write_apart `{Element A} s (w : Write A) l h l' h' :
  write w (l, h) = Some (l', h') → apart s w l → agree s h h'.
Proof.
  unfold apart. destruct w as [i x|i j x|i k v]; cbn.
  - case_decide; [|done]. intros [= _ <-] _. apply agree_refl.
  - destruct (l !! i) as [e|]; [|done]. cbn. unfold store_elem.
    case_decide; [|done]. cbn. intros [= _ <-] Hap.
    split; [|done]. cbn. intros a Ha.
    apply lookup_alter_ne. by intros <-.
  - destruct (l !! i) as [e|]; [|done]. cbn.
    destruct (response_of e) as [r|]; [|done]. cbn.
    destruct (Response.Headers r) as [m|]; [|done]. cbn.
    intros [= _ <-] Hap. split; [done|]. cbn. intros m' Hm'.
    apply lookup_alter_ne. by intros <-.
Qed.

Lemma writes_apart `{Element A} s (ws : list (Write A)) st l' h' :
  writes ws st = Some (l', h') → allApart s ws st → agree s st.2 h'.
Proof.
  revert st. induction ws as [|w ws IH]; intros [l h]; cbn [writes allApart].
  { intros [= _ <-] _. apply agree_refl. }
  destruct (write w (l, h)) as [[l1 h1]|] eqn:Ew; [|done]. cbn.
  intros Ews [Hap Hrest].
  eapply agree_trans; [by eapply write_apart|].
  by apply (IH (l1, h1)).
Qed.

Lemma SetElems_apart `{Element A} s (ws : list (Write A)) st :
  Forall (λ w, ∃ i x, w = SetElem i x) ws → allApart s ws st.
Proof.
  intros Hall. revert st.
  induction Hall as [|w ws (i & x & ->) _ IH]; intros st; [done|].
  cbn [allApart]. split; [done|]. by destruct (write _ st).
Qed.

(** C2, as the specification states it, fails for the nested fields:
    a write to an element of the headers of a request in the sequence
    that [GetTemplates] returned, or to the headers of a response in the
    sequence that [GetHistory] returned, changes what the next call lets
    read. *)
Lemma nested_writes_reach_the_store :
  let '(s, h) := fixtures.busyStore in
  (∃ l' h',
     write (SetRequestHeader 0 0 (Header.mk "Accept" "text/html" true))
       (GetTemplates s, h) = Some (l', h')
     ∧ templateValue h' <$> GetTemplates s
       ≠ templateValue h <$> GetTemplates s)
  ∧ (∃ l' h',
       write (SetResponseHeader 0 "Vary" "none") (GetHistory s, h)
       = Some (l', h')
       ∧ itemValue h' <$> GetHistory s ≠ itemValue h <$> GetHistory s).
Proof.
  destruct fixtures.busyStore as [s h] eqn:E.
  vm_compute in E. injection E as <- <-.
  split; eexists _, _; (split; [reflexivity|]).
  - vm_compute. intros [=].
  - intros Heq.
    apply (f_equal (λ v, match v with
                         | [(_, _, (_, _, Some m, _, _, _), _)] => m !! "Vary"
                         | _ => None
                         end)) in Heq.
    vm_compute in Heq. discriminate Heq.
Qed.

(** C2, amended: the sequences that [GetTemplates] and [GetHistory]
    return are copies as far as their own elements go: assigning
    elements or fields of elements changes nothing of what the two
    methods return afterwards.  The arrays of headers and the maps of
    response headers are those of the store; only writes to arrays and
    maps that no element of the store points to leave what the methods
    return as it was. *)
Theorem Get_copies_are_shallow s h :
  (∀ (ws : list (Write Template.t)) l' h',
     writes ws (GetTemplates s, h) = Some (l', h') →
     (Forall (λ w, ∃ i x, w = SetElem i x) ws
      ∨ allApart s ws (GetTemplates s, h)) →
     storeValue s h' = storeValue s h)
  ∧ (∀ (ws : list (Write HistoryItem.t)) l' h',
       writes ws (GetHistory s, h) = Some (l', h') →
       (Forall (λ w, ∃ i x, w = SetElem i x) ws
        ∨ allApart s ws (GetHistory s, h)) →
       storeValue s h' = storeValue s h).
Proof.
  split; intros ws l' h' Hws Hap; apply agree_storeValue;
    apply (writes_apart s ws _ l' h' Hws);
    (destruct Hap as [Hap|Hap]; [by apply SetElems_apart | done]).
Qed.

Lemma Get_copies_are_shallow_witness :
  let '(s, h) := fixtures.busyStore in
  ∃ l' h',
    writes [SetElem 0 {| Template.ID := "x"; Template.Name := "B";
                         Template.Request := fixtures.noURL.1;
                         Template.CreatedAt := 0; Template.UpdatedAt := 0 |}]
      (GetTemplates s, h) = Some (l', h')
    ∧ storeValue s h' = storeValue s h.
Proof.
  destruct fixtures.busyStore as [s h] eqn:E.
  match goal with |- context [writes ?l _] => set (ws := l) end.
  destruct (writes ws (GetTemplates s, h)) as [[l' h']|] eqn:Ew.
  - exists l', h'. split; [done|].
    apply (proj1 (Get_copies_are_shallow s h) ws l' h' Ew).
    left. repeat constructor. by eexists _, _.
  - exfalso. revert Ew. injection E as <- <-. by vm_compute.
Defined.

Lemma SaveTemplate_same_name_updates_witness :
  let '(spec1, spec2, h) := fixtures.twoSpecs in
  let '(_, s1, h1, d1) :=
    SaveTemplate fixtures.fullDisk fixtures.codec fixtures.sorter
      1000 "id-1" "A" spec1 fixtures.emptyStore h ∅ in
  let '(_, s2, h2, d2) :=
    SaveTemplate fixtures.fullDisk fixtures.codec fixtures.sorter
      2000 "id-2" "A" spec2 s1 h1 d1 in
  ∃ t, filter (λ t, Template.Name t = "A") (templates s2) = [t]
       ∧ Template.ID t = "id-1" ∧ Template.UpdatedAt t = 2000%Z.
Proof.
  destruct fixtures.twoSpecs as [[spec1 spec2] h] eqn:Es.
  destruct (SaveTemplate fixtures.fullDisk fixtures.codec fixtures.sorter
              1000 "id-1" "A" spec1 fixtures.emptyStore h ∅)
    as [[[r1 s1] h1] d1] eqn:E1.
  destruct (SaveTemplate fixtures.fullDisk fixtures.codec fixtures.sorter
              2000 "id-2" "A" spec2 s1 h1 d1)
    as [[[r2 s2] h2] d2] eqn:E2.
  destruct (SaveTemplate_same_name_updates fixtures.fullDisk fixtures.codec
              fixtures.sorter 1000 "id-1" 2000 "id-2" "A" spec1 spec2
              fixtures.emptyStore h ∅ r1 s1 h1 d1 r2 s2 h2 d2 E1 E2)
    as (t1 & t2 & Hf1 & Hf2 & Hid & _ & Hupd & _); [cbn; lia|].
  exists t2. split_and!; [done | | done].
  rewrite Hid. injection Es as <- <- <-.
  revert E1 Hf1. vm_compute. intros [= _ <- _ _] [= <-]. done.
Defined.

Lemma AddHistory_newest_first_capped_witness :
  let s' := (AddHistoryEach fixtures.os fixtures.codec fixtures.sixtyCalls
               fixtures.emptyStore fixtures.postText.2 ∅).1.1.2 in
  length (history s') = 50.
Proof.
  cbv zeta.
  destruct (AddHistoryEach fixtures.os fixtures.codec fixtures.sixtyCalls
              fixtures.emptyStore fixtures.postText.2 ∅)
    as [[[created s'] h'] d'] eqn:E.
  refine (proj1 (proj2 (proj2 (proj2 (proj2
    (AddHistory_newest_first_capped fixtures.os fixtures.codec
       fixtures.sixtyCalls fixtures.emptyStore fixtures.postText.2 ∅
       created s' h' d' E _)))) _ _)); [done | reflexivity | reflexivity].
Defined.

(** C1, as the specification states it, fails: with a templates file
    that is there and is not JSON, the load returns the error and
    [NewStorage] returns a store all the same. *)
Lemma NewStorage_drops_parse_error :
  ReadFile fixtures.os "/home/u/.gopostman/templates.json" fixtures.brokenDisk
  = inl "not json"
  ∧ (∃ e, (loadTemplates fixtures.os fixtures.codec fixtures.emptyStore
             emptyHeap fixtures.brokenDisk).1.1 = Some e)
  ∧ (NewStorage fixtures.os fixtures.codec emptyHeap fixtures.brokenDisk).1.1
    = inl fixtures.emptyStore.
Proof. split_and!; [reflexivity | by eexists | reflexivity]. Qed.

Lemma NewStorage_fails_only_on_directory_witness :
  ∃ s, (NewStorage fixtures.os fixtures.codec emptyHeap fixtures.brokenDisk).1.1
       = inl s.
Proof.
  apply (proj2 (proj2 (proj2 (proj2
    (NewStorage_fails_only_on_directory fixtures.os fixtures.codec))))).
  by exists "/home/u".
Defined.

End storage_props.

(** * More of the request executor *)
Module httpclient_more.
Import models httpclient vocabulary.

(** ** The URL, the body and the headers of the request that is built *)

Lemma withScheme_cases url :
  (String.prefix "http://" url = true ∨ String.prefix "https://" url = true)
  ∧ withScheme url = url
  ∨ String.prefix "http://" url = false ∧ String.prefix "https://" url = false
    ∧ withScheme url = "http://" +:+ url.
Proof.
  unfold withScheme.
  destruct (String.prefix "http://" url), (String.prefix "https://" url);
    cbn; auto.
Qed.

Lemma prefix_http url : String.prefix "http://" ("http://" +:+ url) = true.
Proof. cbn. by destruct url. Qed.

(** X1: the URL of the request that is built is the URL of the spec
    when that starts with [http://] or [https://], and [http://] and
    the URL of the spec otherwise; so it always starts with one of the
    two, and the same rule applied to it again changes nothing.  The
    body is absent exactly when the body of the spec is empty. *)
Theorem outgoing_URL_and_body N req h r :
  outgoing N req h = inl r →
  (String.prefix "http://" (nethttp.Request.URL r) = true
   ∨ String.prefix "https://" (nethttp.Request.URL r) = true)
  ∧ (String.prefix "http://" (Request.URL req) = true
     ∨ String.prefix "https://" (Request.URL req) = true →
     nethttp.Request.URL r = Request.URL req)
  ∧ (String.prefix "http://" (Request.URL req) = false →
     String.prefix "https://" (Request.URL req) = false →
     nethttp.Request.URL r = "http://" +:+ Request.URL req)
  ∧ withScheme (nethttp.Request.URL r) = nethttp.Request.URL r
  ∧ (nethttp.Request.Body r = None ↔ Request.Body req = "")
  ∧ (∀ b, nethttp.Request.Body r = Some b → b = Request.Body req).
Proof.
  unfold outgoing, nethttp.NewRequest.
  destruct (nethttp.invalid N _ _); [done|]. intros [= <-]. cbn.
  destruct (withScheme_cases (Request.URL req))
    as [[Hp ->]|(Hh & Hs & ->)].
  - split_and!; try done.
    + intros ??. destruct Hp; congruence.
    + unfold withScheme. by destruct Hp as [-> | ->]; rewrite ?andb_false_r.
    + case_decide; naive_solver.
    + case_decide; naive_solver.
  - split_and!; try done.
    + left. apply prefix_http.
    + intros [?|?]; congruence.
    + unfold withScheme. by rewrite prefix_http.
    + case_decide; naive_solver.
    + case_decide; naive_solver.
Qed.

Lemma outgoing_URL_and_body_witness :
  ∃ r, outgoing fixtures.net fixtures.postText.1 fixtures.postText.2 = inl r
       ∧ nethttp.Request.URL r = "http://example.com/x"
       ∧ nethttp.Request.Body r = Some "hi".
Proof.
  eexists. split; [reflexivity|].
  destruct (outgoing_URL_and_body fixtures.net fixtures.postText.1
              fixtures.postText.2 _ eq_refl) as (_ & _ & Hu & _).
  split; [by apply Hu | reflexivity].
Defined.

Lemma addHeaders_single hs hd :
  map_Forall (λ _ vs, length vs = 1) hd →
  map_Forall (λ _ vs, length vs = 1) (addHeaders hs hd).
Proof.
  revert hd. induction hs as [|x l IH]; intros hd Hhd; [done|].
  rewrite httpclient_props.addHeaders_cons. apply IH.
  destruct (_ && _); [|done]. by apply map_Forall_insert_2.
Qed.

Lemma addHeaders_set k hs hd x :
  x ∈ hs → setsKey k x → is_Some (addHeaders hs hd !! k).
Proof.
  intros Hx Hk. apply list_elem_of_split in Hx as (l1 & l2 & ->).
  revert hd. induction l2 as [|y l2 IH] using rev_ind; intros hd.
  - rewrite (httpclient_props.addHeaders_last k l1 x [] hd); [by eexists|done|].
    constructor.
  - replace (l1 ++ x :: l2 ++ [y]) with ((l1 ++ x :: l2) ++ [y])
      by by rewrite <- app_assoc.
    rewrite httpclient_props.addHeaders_app.
    rewrite httpclient_props.addHeaders_cons. cbn.
    destruct (_ && _); [|by apply IH]. unfold nethttp.Set_.
    destruct (decide (nethttp.CanonicalMIMEHeaderKey (Header.Key y) = k))
      as [->|Hne].
    + rewrite lookup_insert_eq. by eexists.
    + rewrite lookup_insert_ne by done. apply IH.
Qed.

(** X2: the headers of the request that is built have a key exactly
    when an enabled entry with a non-empty key has it as its canonical
    key, or when it is Content-Type and the spec has a body; a disabled
    entry and an entry without key add nothing.  Every key has one
    value. *)
Theorem outgoing_header_keys N req h r k :
  outgoing N req h = inl r →
  (is_Some (nethttp.Request.Header r !! k)
   ↔ (∃ x, x ∈ elems h (Request.Headers req) ∧ setsKey k x)
     ∨ (k = "Content-Type" ∧ Request.Body req ≠ ""))
  ∧ (∀ vs, nethttp.Request.Header r !! k = Some vs → length vs = 1).
Proof.
  intros Hr. rewrite (httpclient_props.outgoing_Header _ _ _ _ Hr).
  set (hs := elems h (Request.Headers req)).
  assert (Hsingle : map_Forall (λ _ vs, length vs = 1)
            (defaultContentType (Request.Body req) (addHeaders hs ∅))).
  { unfold defaultContentType. destruct (_ && _).
    - apply map_Forall_insert_2; [done|].
      apply addHeaders_single, map_Forall_empty.
    - apply addHeaders_single, map_Forall_empty. }
  split; [|intros vs Hvs; by apply (Hsingle k)].
  destruct (decide (k = "Content-Type")) as [->|Hk].
  - destruct (addHeaders hs ∅ !! "Content-Type") as [vs|] eqn:Hl.
    + assert (Hvs : length vs = 1).
      { eapply (addHeaders_single hs ∅ (map_Forall_empty _)), Hl. }
      destruct vs as [|v [|]]; try done.
      rewrite (httpclient_props.defaultContentType_set _ _ v Hl).
      split; [|by eexists]. intros _. left.
      destruct (httpclient_props.addHeaders_keys "Content-Type" hs ∅)
        as [[? Hn]|?]; [by eexists| |done].
      by rewrite lookup_empty in Hn.
    + destruct (decide (Request.Body req = "")) as [Hb|Hb].
      * unfold defaultContentType. rewrite Hb. cbn. rewrite Hl. split.
        { by intros [? ?]. }
        intros [(x & Hx & Hs)|[_ ?]]; [|done].
        rewrite <- Hl. by eapply addHeaders_set.
      * rewrite httpclient_props.defaultContentType_unset by done.
        split; [by right | by eexists].
  - rewrite httpclient_props.defaultContentType_other by done. split.
    + intros [Hn|?]%httpclient_props.addHeaders_keys; [|by left].
      rewrite lookup_empty in Hn. by destruct Hn.
    + intros [(x & Hx & Hs)|[? _]]; [|done]. by eapply addHeaders_set.
Qed.

Lemma outgoing_header_keys_witness :
  ∃ r, outgoing fixtures.net fixtures.postJSON.1 fixtures.postJSON.2 = inl r
       ∧ is_Some (nethttp.Request.Header r !! "Accept")
       ∧ nethttp.Request.Header r !! "X-Unset" = None.
Proof.
  eexists. split; [reflexivity|].
  pose proof (λ k, outgoing_header_keys fixtures.net fixtures.postJSON.1
                     fixtures.postJSON.2 _ k eq_refl) as H.
  split.
  - apply (H "Accept"). left.
    exists (Header.mk "Accept" "*/*" true). split; [left | by split_and!].
  - apply eq_None_not_Some. intros Hs. apply (H "X-Unset") in Hs.
    destruct Hs as [(x & Hx & _ & _ & Hk)|[? _]]; [|done].
    change (elems fixtures.postJSON.2 (Request.Headers fixtures.postJSON.1))
      with [Header.mk "Accept" "*/*" true;
            Header.mk "Content-Type" "text/xml" false] in Hx.
    apply elem_of_cons in Hx as [->|Hx]; [done|].
    apply list_elem_of_singleton in Hx as ->. done.
Defined.

(** ** What [SendRequest] leaves alone, and a successful exchange *)

Lemma joinHeaders_lookup hd k :
  joinHeaders hd !! k
  = match hd !! k with
    | Some (v :: vs) => Some (String.concat ", " (v :: vs))
    | _ => None
    end.
Proof.
  unfold joinHeaders. rewrite lookup_fmap, map_lookup_filter.
  destruct (hd !! k) as [[|v vs]|]; cbn; [done| |done].
  rewrite option_guard_True by lia. done.
Qed.

(** X3: [SendRequest] writes to no array of headers, so the spec it
    was given reads as before, and to no map that existed; it hands at
    most one request to the network, the one it built. *)
Theorem SendRequest_frame N req h w resp h' w' :
  SendRequest N req h w = (resp, h', w') →
  arrays h' = arrays h
  ∧ requestValue h' req = requestValue h req
  ∧ (∀ m, m ∈ dom (hmaps h) → hmaps h' !! m = hmaps h !! m)
  ∧ (w' = w
     ∨ ∃ r, outgoing N req h = inl r
            ∧ nethttp.wire w' = nethttp.wire w ++ [r]).
Proof.
  unfold SendRequest, requestValue, elems. case_decide.
  { intros [= <- <- <-]. by split_and!; [..|left]. }
  destruct (outgoing N req h) as [r|err] eqn:Hr.
  2:{ intros [= <- <- <-]. by split_and!; [..|left]. }
  unfold nethttp.Do. destruct (nethttp.RoundTrip N r) as [latency result].
  assert (Hfresh : ∀ m X, m ∈ dom (hmaps h) →
            <[fresh (dom (hmaps h)) := X]> (hmaps h) !! m = hmaps h !! m).
  { intros m X Hm. apply lookup_insert_ne. intros <-.
    by apply (is_fresh (dom (hmaps h))). }
  destruct result as [httpResp|err];
    [destruct (nethttp.Response.Body httpResp)|];
    intros [= <- <- <-]; cbn; split_and!; try done;
    try (intros; by apply Hfresh); right; by exists r.
Qed.

Lemma SendRequest_frame_witness :
  let '(_, h', w') :=
    SendRequest fixtures.net fixtures.postText.1 fixtures.postText.2
      fixtures.dawn in
  requestValue h' fixtures.postText.1
  = requestValue fixtures.postText.2 fixtures.postText.1
  ∧ length (nethttp.wire w') ≤ 1.
Proof.
  destruct (SendRequest fixtures.net fixtures.postText.1 fixtures.postText.2
              fixtures.dawn) as [[resp h'] w'] eqn:E.
  destruct (SendRequest_frame _ _ _ _ _ _ _ E) as (_ & Hv & _ & Hw).
  split; [done|].
  destruct Hw as [->|(r & _ & ->)]; cbn; lia.
Defined.

(** X4: when the request is built, the network answers and the body
    can be read, the result has no error, the status code and line of
    the answer, its whole body and the time taken; its headers are a new
    map, which has a key for every header of the answer that has a value
    and holds its values joined by a comma and a space. *)
Theorem SendRequest_success N req h w r latency httpResp bytes :
  Request.URL req ≠ "" →
  outgoing N req h = inl r →
  nethttp.RoundTrip N r = (latency, inl httpResp) →
  nethttp.Response.Body httpResp = inl bytes →
  ∃ l h' w',
    SendRequest N req h w
    = ({| Response.StatusCode := nethttp.Response.StatusCode httpResp;
          Response.Status := nethttp.Response.Status httpResp;
          Response.Headers := Some l;
          Response.Body := bytes;
          Response.ResponseTime := latency;
          Response.Error := "" |}, h', w')
    ∧ (l ∉ dom (hmaps h))
    ∧ ∃ m, hmaps h' !! l = Some m
           ∧ ∀ k, m !! k
                  = match nethttp.Response.Header httpResp !! k with
                    | Some (v :: vs) => Some (String.concat ", " (v :: vs))
                    | _ => None
                    end.
Proof.
  intros Hu Hr Hrt Hb. unfold SendRequest, nethttp.Do.
  rewrite decide_False, Hr, Hrt, Hb by done.
  eexists _, _, _. split.
  { do 2 f_equal. f_equal. unfold nethttp.Since, nethttp.Now. cbn. lia. }
  split; [apply is_fresh|]. cbn.
  eexists. split; [apply lookup_insert_eq|]. apply joinHeaders_lookup.
Qed.

Lemma SendRequest_success_witness :
  ∃ l h' w',
    SendRequest fixtures.net fixtures.postText.1 fixtures.postText.2
      fixtures.dawn
    = ({| Response.StatusCode := 200; Response.Status := "200 OK";
          Response.Headers := Some l; Response.Body := "hello";
          Response.ResponseTime := 7000000; Response.Error := "" |}, h', w')
    ∧ ∃ m, hmaps h' !! l = Some m ∧ m !! "Vary" = Some "Accept, Origin".
Proof.
  destruct (SendRequest_success fixtures.net fixtures.postText.1
              fixtures.postText.2 fixtures.dawn _ 7000000%Z fixtures.ok200
              "hello" ltac:(done) eq_refl eq_refl eq_refl)
    as (l & h' & w' & E & _ & m & Hm & Hk).
  exists l, h', w'. split; [exact E|].
  exists m. split; [done|]. by rewrite Hk.
Defined.

End httpclient_more.

(** * More of the store *)
Module storage_more.
Import models storage vocabulary.

(** ** The order of the names *)

Lemma compare_Lt_trans (x y z : string) :
  String.compare x y = Lt → String.compare y z = Lt → String.compare x z = Lt.
Proof.
  intros Hxy Hyz. apply OrderedTypeEx.String_as_OT.cmp_lt.
  eapply OrderedTypeEx.String_as_OT.lt_trans;
    by apply OrderedTypeEx.String_as_OT.cmp_lt.
Qed.

Lemma ltb_false_trans (x y z : string) :
  String.ltb y x = false → String.ltb z y = false → String.ltb z x = false.
Proof.
  unfold String.ltb. intros Hyx Hzy.
  destruct (String.compare z x) eqn:Hzx; try done. exfalso.
  destruct (String.compare y x) eqn:Hc; try done.
  - apply OrderedTypeEx.String_as_OT.cmp_eq in Hc as ->. by rewrite Hzx in Hzy.
  - assert (Hxy : String.compare x y = Lt)
      by by rewrite String.compare_antisym, Hc.
    by rewrite (compare_Lt_trans z x y Hzx Hxy) in Hzy.
Qed.

#[local] Instance byName_Transitive : Transitive byName.
Proof. intros a b c. unfold byName. apply ltb_false_trans. Qed.

Lemma StronglySorted_delete {A} (R : relation A) (l : list A) i :
  StronglySorted R l → StronglySorted R (delete i l).
Proof.
  intros Hl. revert i. induction Hl as [|x l Hl IH Hx]; intros [|i]; cbn.
  - constructor.
  - constructor.
  - done.
  - constructor; [apply IH | by apply Forall_delete].
Qed.

Lemma Sorted_byName_delete (l : list Template.t) i :
  Sorted byName l → Sorted byName (delete i l).
Proof.
  intros Hl. apply Sorted.StronglySorted_Sorted, StronglySorted_delete.
  apply Sorted.Sorted_StronglySorted; [apply byName_Transitive | done].
Qed.

(** Whether templates are in order is a matter of their names only. *)
Lemma Sorted_byName_names (l l' : list Template.t) :
  Template.Name <$> l' = Template.Name <$> l →
  Sorted byName l → Sorted byName l'.
Proof.
  revert l'. induction l as [|x l IH]; intros [|x' l']; try done.
  rewrite !fmap_cons. intros [= Hx Hl]. inversion_clear 1 as [|?? Hs Hh].
  constructor; [by apply IH|].
  destruct l as [|y l], l' as [|y' l']; try done; constructor.
  inversion_clear Hh. injection Hl as Hy _. unfold byName in *. congruence.
Qed.

Section Store.
Context {disk : Type} (O : OS disk) (J : Codec) (Srt : Sorter).

(** ** Saving a template *)

(** X5: [SaveTemplate] changes the store before it writes the file and
    does not take the change back: the store and the heap after the
    call are the same whatever the file system does.  When the write
    fails the call returns its error; when it succeeds the call returns
    a template of the store that has the name, the time of the call as
    [UpdatedAt] and a request that reads as the one given. *)
Theorem SaveTemplate_keeps_change_on_failure
    now uuid name req s h d res s1 h1 d1 :
  SaveTemplate O J Srt now uuid name req s h d = (res, s1, h1, d1) →
  d1 = (saveTemplates O J s1 h1 d).2
  ∧ match (saveTemplates O J s1 h1 d).1 with
    | Some e => res = inr e
    | None =>
        ∃ t, res = inl t ∧ t ∈ templates s1
             ∧ Template.Name t = name ∧ Template.UpdatedAt t = now
             ∧ requestValue h1 (Template.Request t) = requestValue h req
    end
  ∧ ∀ disk2 (O2 : OS disk2) (J2 : Codec) (d2 : disk2),
      (SaveTemplate O2 J2 Srt now uuid name req s h d2).1.1.2 = s1
      ∧ (SaveTemplate O2 J2 Srt now uuid name req s h d2).1.2 = h1.
Proof.
  unfold SaveTemplate.
  pose proof (models_props.Clone_spec req h) as Hclone.
  destruct (Clone req h) as [r h0]. destruct Hclone as (Hval & _).
  destruct (list_find _ (templates s)) as [[i t]|] eqn:Hf.
  - apply list_find_Some in Hf as (Hi & Hn & _).
    destruct (saveTemplates O J _ h0 d) as [[e|] d0] eqn:Es;
      intros [= <- <- <- <-]; rewrite Es; cbn; split_and!; try done.
    + intros disk2 O2 J2 d2. by destruct (saveTemplates O2 J2 _ h0 d2) as [[?|] ?].
    + eexists. split_and!; try done.
      apply list_elem_of_insert. by eapply lookup_lt_Some.
    + intros disk2 O2 J2 d2. by destruct (saveTemplates O2 J2 _ h0 d2) as [[?|] ?].
  - destruct (saveTemplates O J _ h0 d) as [[e|] d0] eqn:Es;
      intros [= <- <- <- <-]; rewrite Es; cbn; split_and!; try done.
    + intros disk2 O2 J2 d2. by destruct (saveTemplates O2 J2 _ h0 d2) as [[?|] ?].
    + eexists. split_and!; try done.
      rewrite (sortSlice_perm Srt). apply elem_of_app. right. left.
    + intros disk2 O2 J2 d2. by destruct (saveTemplates O2 J2 _ h0 d2) as [[?|] ?].
Qed.

Lemma TemplateNameExists_iff name s :
  TemplateNameExists name s = true
  ↔ ∃ t, t ∈ templates s ∧ Template.Name t = name.
Proof.
  unfold TemplateNameExists. rewrite bool_decide_eq_true, Exists_exists.
  naive_solver.
Qed.

Lemma TemplateNameExists_find name s :
  TemplateNameExists name s
  = bool_decide (is_Some (list_find (λ t, Template.Name t = name)
                            (templates s))).
Proof.
  apply bool_decide_ext. rewrite Exists_exists. split.
  - intros (t & Ht & Hn). by eapply list_find_elem_of.
  - intros [[i t] (Hi & Hn & _)%list_find_Some].
    exists t. split; [by eapply list_elem_of_lookup_2|done].
Qed.

(** X6: [SaveTemplate] adds a template exactly when
    [TemplateNameExists] is false of the name; afterwards it is true of
    that name, and of any other name it is what it was. *)
Theorem SaveTemplate_adds_when_new now uuid name req s h d res s1 h1 d1 :
  SaveTemplate O J Srt now uuid name req s h d = (res, s1, h1, d1) →
  length (templates s1)
  = (if TemplateNameExists name s then length (templates s)
     else S (length (templates s)))
  ∧ TemplateNameExists name s1 = true
  ∧ ∀ n, n ≠ name → TemplateNameExists n s1 = TemplateNameExists n s.
Proof.
  intros E. apply storage_props.SaveTemplate_step in E as (_ & _ & Ht).
  rewrite (TemplateNameExists_find name s).
  destruct (list_find _ (templates s)) as [[i t]|] eqn:Hf.
  - apply list_find_Some in Hf as (Hi & Hn & _).
    rewrite bool_decide_eq_true_2 by by eexists.
    assert (Hlt : i < length (templates s)) by by eapply lookup_lt_Some.
    split_and!.
    + by rewrite Ht, length_insert.
    + apply TemplateNameExists_iff. eexists. split.
      * rewrite Ht. by apply list_elem_of_insert.
      * done.
    + intros n Hne. apply bool_decide_ext. rewrite !Exists_exists, Ht.
      split; intros (x & Hx & Hxn).
      * apply list_elem_of_lookup in Hx as [j Hj].
        destruct (decide (i = j)) as [->|Hij].
        { rewrite list_lookup_insert_eq in Hj by done.
          injection Hj as <-. cbn in Hxn. congruence. }
        rewrite list_lookup_insert_ne in Hj by done.
        exists x. split; [by eapply list_elem_of_lookup_2|done].
      * apply list_elem_of_lookup in Hx as [j Hj].
        destruct (decide (i = j)) as [->|Hij]; [congruence|].
        exists x. split; [|done]. eapply list_elem_of_lookup_2.
        by rewrite list_lookup_insert_ne.
  - rewrite bool_decide_eq_false_2 by by intros [? ?].
    split_and!.
    + rewrite Ht, (Permutation_length (sortSlice_perm Srt _)), length_app.
      cbn. lia.
    + apply TemplateNameExists_iff. eexists. split.
      * rewrite Ht, (sortSlice_perm Srt). apply elem_of_app. right. left.
      * done.
    + intros n Hne. apply bool_decide_ext.
      rewrite !Exists_exists, Ht. split; intros (x & Hx & Hxn).
      * rewrite (sortSlice_perm Srt) in Hx.
        apply elem_of_app in Hx as [Hx|Hx%list_elem_of_singleton];
          [by exists x|]. subst x. cbn in Hxn. congruence.
      * exists x. split; [|done]. rewrite (sortSlice_perm Srt).
        apply elem_of_app. by left.
Qed.

(** X7: after [SaveTemplate] of a name that does not exist, with an id
    that no template has, [GetTemplateByID] of that id gives the new
    template: it has the id and the name, the time of the call in both
    time fields and a request that reads as the one given. *)
Theorem SaveTemplate_then_GetTemplateByID
    now uuid name req s h d res s1 h1 d1 :
  SaveTemplate O J Srt now uuid name req s h d = (res, s1, h1, d1) →
  TemplateNameExists name s = false →
  Forall (λ t, Template.ID t ≠ uuid) (templates s) →
  ∃ t, GetTemplateByID uuid s1 = Some t
       ∧ Template.ID t = uuid ∧ Template.Name t = name
       ∧ Template.CreatedAt t = now ∧ Template.UpdatedAt t = now
       ∧ requestValue h1 (Template.Request t) = requestValue h req.
Proof.
  intros E Hnew Hids.
  apply storage_props.SaveTemplate_step in E as (Hh & _ & Ht).
  rewrite TemplateNameExists_find in Hnew.
  destruct (list_find _ (templates s)) as [[i t]|] eqn:Hf.
  { by rewrite bool_decide_eq_true_2 in Hnew by by eexists. }
  pose proof (models_props.Clone_spec req h) as Hclone.
  destruct (Clone req h) as [r h0]. destruct Hclone as (Hval & _).
  cbn in Hh, Ht. subst h1.
  set (new := {| Template.ID := uuid; Template.Name := name;
                 Template.Request := r; Template.CreatedAt := now;
                 Template.UpdatedAt := now |}) in *.
  unfold GetTemplateByID.
  destruct (list_find (λ t, Template.ID t = uuid) (templates s1))
    as [[j t]|] eqn:Hj.
  - apply list_find_Some in Hj as (Hj & Hid & _).
    apply list_elem_of_lookup_2 in Hj.
    rewrite Ht, (sortSlice_perm Srt) in Hj.
    apply elem_of_app in Hj as [Hj|Hj%list_elem_of_singleton].
    + by eapply Forall_forall in Hids.
    + subst t. by exists new.
  - apply list_find_None in Hj. exfalso.
    assert (Hin : new ∈ templates s1).
    { rewrite Ht, (sortSlice_perm Srt). apply elem_of_app. right. left. }
    by apply (proj1 (Forall_forall _ _) Hj new Hin).
Qed.

(** ** Deleting a template *)

(** X8: [DeleteTemplate] of an id that [GetTemplateByID] does not find
    returns no error and changes neither the store nor the disk. *)
Theorem DeleteTemplate_unknown id s h d :
  GetTemplateByID id s = None →
  DeleteTemplate O J id s h d = (None, s, d).
Proof.
  unfold GetTemplateByID, DeleteTemplate. intros Hn%fmap_None.
  by rewrite Hn.
Qed.

(** X9: [DeleteTemplate] of an id that [GetTemplateByID] finds removes
    that template and no other: the templates before are the found one
    and those after, which keep their order; the history stays; what
    is returned is what writing the file returns.  When no two
    templates have one id, the id is not found afterwards. *)
Theorem DeleteTemplate_known id s h d t err s1 d1 :
  GetTemplateByID id s = Some t →
  DeleteTemplate O J id s h d = (err, s1, d1) →
  Template.ID t = id
  ∧ templates s ≡ₚ t :: templates s1
  ∧ templates s1 `sublist_of` templates s
  ∧ length (templates s) = S (length (templates s1))
  ∧ history s1 = history s
  ∧ (err, d1) = saveTemplates O J s1 h d
  ∧ (NoDup (Template.ID <$> templates s) → GetTemplateByID id s1 = None).
Proof.
  unfold GetTemplateByID, DeleteTemplate.
  destruct (list_find _ (templates s)) as [[i t']|] eqn:Hf; [|done].
  intros [= <-]. apply list_find_Some in Hf as (Hi & Hid & _).
  destruct (saveTemplates O J _ h d) as [e d0] eqn:Es.
  intros [= <- <- <-]. cbn.
  pose proof (delete_Permutation _ _ _ Hi) as Hperm.
  split_and!; try done.
  - apply sublist_delete.
  - by rewrite (Permutation_length Hperm).
  - intros Hnd. apply fmap_None, list_find_None. cbn.
    rewrite Hperm, fmap_cons in Hnd. apply NoDup_cons in Hnd as [Hnot _].
    apply Forall_forall. intros x Hx Hxid. apply Hnot.
    apply list_elem_of_fmap. exists x. split; [congruence|done].
Qed.

(** ** The history *)

(** The entry that [AddHistory] puts first: it holds the response given
    and a request in an array that was not there before. *)
Lemma AddHistory_first now uuid req resp s h d res s1 h1 d1 :
  AddHistory O J now uuid req resp s h d = (res, s1, h1, d1) →
  ∃ item,
    head (GetHistory s1) = Some item
    ∧ HistoryItem.Response item = resp
    ∧ array (Request.Headers (HistoryItem.Request item)) ∉ dom (arrays h).
Proof.
  intros E.
  apply (storage_props.AddHistory_step O J) in E as (Hh & _ & _ & _).
  unfold newItem in *.
  pose proof (models_props.Clone_spec req h) as Hclone.
  destruct (Clone req h) as [r h0]. destruct Hclone as (_ & Hfresh & _).
  cbn in Hh. eexists. unfold GetHistory. rewrite Hh.
  split; [reflexivity|]. split; [reflexivity|]. exact Hfresh.
Qed.

(** X10: after [AddHistory], [GetHistoryByID] of the id of the call
    gives the entry just made, also when an older entry has that id,
    and it is the first of [GetHistory]; the entry has the time and the
    response of the call and a request that reads as the one given, in
    an array of its own; the templates are as they were.  The entry is
    what the call returns unless writing the file fails. *)
Theorem AddHistory_then_GetHistoryByID
    now uuid req resp s h d res s1 h1 d1 :
  AddHistory O J now uuid req resp s h d = (res, s1, h1, d1) →
  ∃ item,
    GetHistoryByID uuid s1 = Some item
    ∧ head (GetHistory s1) = Some item
    ∧ HistoryItem.ID item = uuid
    ∧ HistoryItem.Timestamp item = now
    ∧ HistoryItem.Response item = resp
    ∧ requestValue h1 (HistoryItem.Request item) = requestValue h req
    ∧ (array (Request.Headers (HistoryItem.Request item)) ∉ dom (arrays h))
    ∧ templates s1 = templates s
    ∧ (res = inl item ∨ ∃ e, res = inr e).
Proof.
  intros E.
  apply (storage_props.AddHistory_step O J) in E as (Hh & Ht & Hh1 & Hres).
  unfold newItem in *.
  pose proof (models_props.Clone_spec req h) as Hclone.
  destruct (Clone req h) as [r h0]. destruct Hclone as (Hval & Hfresh & _).
  cbn in Hh, Hh1, Hres. subst h1.
  eexists. unfold GetHistoryByID, GetHistory. rewrite Hh.
  split_and!; [|done..]. cbn. by rewrite decide_True.
Qed.

(** X11: the operations on templates leave the history as it is and
    the operations on the history leave the templates; none changes the
    data directory; [ClearHistory] leaves no entry, so that
    [GetHistoryByID] finds nothing, whether the file is written or not. *)
Theorem step_frame op s h d :
  let '(s1, h1, d1) := step O J Srt op (s, h, d) in
  dataDir s1 = dataDir s
  ∧ match op with
    | DoSaveTemplate _ _ _ _ | DoDeleteTemplate _ => history s1 = history s
    | DoAddHistory _ _ _ _ => templates s1 = templates s
    | DoClearHistory =>
        templates s1 = templates s ∧ GetHistory s1 = []
        ∧ ∀ id, GetHistoryByID id s1 = None
    end.
Proof.
  destruct op as [at_ id name r|id|at_ id r re|]; cbn [step].
  - unfold SaveTemplate. destruct (list_find _ _) as [[i t]|];
      destruct (Clone r h); by destruct (saveTemplates O J _ _ d) as [[?|] ?].
  - unfold DeleteTemplate. destruct (list_find _ _) as [[i t]|]; [|done].
    by destruct (saveTemplates O J _ _ d).
  - unfold AddHistory. destruct (newItem at_ id r re h).
    by destruct (saveHistory O J _ _ d) as [[?|] ?].
  - unfold ClearHistory. by destruct (saveHistory O J _ _ d).
Qed.

(** ** What every operation keeps *)

Lemma step_storeInv op s h d :
  storeInv s → storeInv (step O J Srt op (s, h, d)).1.1.
Proof.
  intros (Hnd & Hsorted & Hcap).
  destruct op as [at_ id name r|id|at_ id r re|]; cbn [step].
  - destruct (SaveTemplate O J Srt at_ id name r s h d)
      as [[[res s1] h1] d1] eqn:E. cbn.
    pose proof (storage_props.SaveTemplate_unique_names _ _ _ _ _ _ _ _ _ _
                  _ _ _ _ E Hnd) as Hnd1.
    apply storage_props.SaveTemplate_step in E as (_ & Hh & Ht).
    split_and!; [done| |by rewrite Hh].
    destruct (list_find _ (templates s)) as [[i t]|] eqn:Hf.
    + apply list_find_Some in Hf as (Hi & _ & _).
      eapply Sorted_byName_names; [|done].
      rewrite Ht, list_fmap_insert. cbn.
      rewrite list_insert_id; [done|]. by rewrite list_lookup_fmap, Hi.
    + rewrite Ht. apply sortSlice_sorted.
  - destruct (DeleteTemplate O J id s h d) as [[err s1] d1] eqn:E. cbn.
    pose proof (storage_props.DeleteTemplate_unique_names _ _ _ _ _ _ _ _ _
                  E Hnd) as Hnd1.
    split_and!; [done|..]; revert E; unfold DeleteTemplate;
      (destruct (list_find _ (templates s)) as [[i t]|];
       [destruct (saveTemplates O J _ h d)|]); intros [= _ <- _]; cbn;
      try done.
    by apply Sorted_byName_delete.
  - destruct (AddHistory O J at_ id r re s h d) as [[[res s1] h1] d1] eqn:E.
    apply (storage_props.AddHistory_step O J) in E as (Hh & Ht & _). cbn.
    unfold storeInv. rewrite Ht, Hh, length_take. split_and!; [done..|lia].
  - unfold ClearHistory. destruct (saveHistory O J _ h d). cbn.
    split_and!; [done..|]. cbn. lia.
Qed.

(** X12: a store with at most one template of each name, the templates
    in the order of their names and at most 50 entries of history is
    such a store again after any operations, whatever the file system
    does. *)
Theorem steps_storeInv ops s h d :
  storeInv s → storeInv (steps O J Srt ops (s, h, d)).1.1.
Proof.
  revert s h d. induction ops as [|op ops IH]; intros s h d Hinv; [done|].
  unfold steps. cbn [foldl]. fold (steps O J Srt ops).
  destruct (step O J Srt op (s, h, d)) as [[s1 h1] d1] eqn:E.
  apply IH. pose proof (step_storeInv op s h d Hinv) as Hs.
  by rewrite E in Hs.
Qed.

End Store.

Lemma SaveTemplate_keeps_change_on_failure_witness :
  let '(spec1, _, h) := fixtures.twoSpecs in
  let '(res, s1, _, _) :=
    SaveTemplate fixtures.fullDisk fixtures.codec fixtures.sorter
      1000 "id-1" "A" spec1 fixtures.emptyStore h ∅ in
  res = inr (Err "write: no space left on device")
  ∧ (SaveTemplate fixtures.os fixtures.codec fixtures.sorter
       1000 "id-1" "A" spec1 fixtures.emptyStore h ∅).1.1.2 = s1.
Proof.
  destruct fixtures.twoSpecs as [[spec1 spec2] h] eqn:Es.
  destruct (SaveTemplate fixtures.fullDisk fixtures.codec fixtures.sorter
              1000 "id-1" "A" spec1 fixtures.emptyStore h ∅)
    as [[[res s1] h1] d1] eqn:E.
  destruct (SaveTemplate_keeps_change_on_failure _ _ _ _ _ _ _ _ _ _ _ _ _ _ E)
    as (_ & Hres & Hsame).
  split; [exact Hres | apply Hsame].
Defined.

Lemma SaveTemplate_adds_when_new_witness :
  let '(spec1, _, h) := fixtures.twoSpecs in
  let '(_, s1, _, _) :=
    SaveTemplate fixtures.os fixtures.codec fixtures.sorter
      1000 "id-1" "A" spec1 fixtures.emptyStore h ∅ in
  length (templates s1) = 1 ∧ TemplateNameExists "A" s1 = true.
Proof.
  destruct fixtures.twoSpecs as [[spec1 spec2] h] eqn:Es.
  destruct (SaveTemplate fixtures.os fixtures.codec fixtures.sorter
              1000 "id-1" "A" spec1 fixtures.emptyStore h ∅)
    as [[[res s1] h1] d1] eqn:E.
  destruct (SaveTemplate_adds_when_new _ _ _ _ _ _ _ _ _ _ _ _ _ _ E)
    as (Hlen & Hex & _).
  by split.
Defined.

Lemma SaveTemplate_then_GetTemplateByID_witness :
  let '(spec1, _, h) := fixtures.twoSpecs in
  let '(_, s1, _, _) :=
    SaveTemplate fixtures.os fixtures.codec fixtures.sorter
      1000 "id-1" "A" spec1 fixtures.emptyStore h ∅ in
  ∃ t, GetTemplateByID "id-1" s1 = Some t ∧ Template.Name t = "A".
Proof.
  destruct fixtures.twoSpecs as [[spec1 spec2] h] eqn:Es.
  destruct (SaveTemplate fixtures.os fixtures.codec fixtures.sorter
              1000 "id-1" "A" spec1 fixtures.emptyStore h ∅)
    as [[[res s1] h1] d1] eqn:E.
  destruct (SaveTemplate_then_GetTemplateByID _ _ _ _ _ _ _ _ _ _ _ _ _ _ E)
    as (t & Ht & _ & Hn & _); [reflexivity | constructor |].
  by exists t.
Defined.

Lemma DeleteTemplate_unknown_witness :
  let '(s, h) := fixtures.busyStore in
  DeleteTemplate fixtures.os fixtures.codec "id-0" s h ∅ = (None, s, ∅).
Proof.
  destruct fixtures.busyStore as [s h] eqn:E.
  apply DeleteTemplate_unknown.
  injection E as <- <-. reflexivity.
Defined.

Lemma DeleteTemplate_known_witness :
  let '(s, h) := fixtures.busyStore in
  let '(_, s1, _) := DeleteTemplate fixtures.os fixtures.codec "id-1" s h ∅ in
  length (templates s) = S (length (templates s1))
  ∧ GetTemplateByID "id-1" s1 = None.
Proof.
  destruct fixtures.busyStore as [s h] eqn:E.
  destruct (DeleteTemplate fixtures.os fixtures.codec "id-1" s h ∅)
    as [[err s1] d1] eqn:Ed.
  destruct (GetTemplateByID "id-1" s) as [t|] eqn:Eg.
  - destruct (DeleteTemplate_known _ _ _ _ _ _ _ _ _ _ Eg Ed)
      as (_ & _ & _ & Hlen & _ & _ & Hnone).
    split; [done|]. apply Hnone.
    injection E as <- <-. vm_compute. repeat constructor. by intros ?%elem_of_nil.
  - exfalso. revert Eg. injection E as <- <-. by vm_compute.
Defined.

Lemma AddHistory_then_GetHistoryByID_witness :
  let '(s, h) := fixtures.busyStore in
  let '(_, s1, _, _) :=
    AddHistory fixtures.fullDisk fixtures.codec 2000 "id-2"
      fixtures.noURL.1 Response.zero s h ∅ in
  ∃ item, GetHistoryByID "id-2" s1 = Some item
          ∧ HistoryItem.Timestamp item = 2000%Z.
Proof.
  destruct fixtures.busyStore as [s h] eqn:E.
  destruct (AddHistory fixtures.fullDisk fixtures.codec 2000 "id-2"
              fixtures.noURL.1 Response.zero s h ∅)
    as [[[res s1] h1] d1] eqn:Ea.
  destruct (AddHistory_then_GetHistoryByID _ _ _ _ _ _ _ _ _ _ _ _ _ Ea)
    as (item & Hg & _ & _ & Ht & _).
  by exists item.
Defined.

Lemma steps_storeInv_witness :
  let '(spec1, spec2, h) := fixtures.twoSpecs in
  storeInv
    (steps fixtures.fullDisk fixtures.codec fixtures.sorter
       [DoSaveTemplate 1 "a" "B" spec1; DoSaveTemplate 2 "b" "A" spec2;
        DoAddHistory 3 "c" spec1 Response.zero; DoSaveTemplate 4 "d" "B" spec2;
        DoDeleteTemplate "b"; DoClearHistory]
       (fixtures.emptyStore, h, ∅)).1.1.
Proof.
  destruct fixtures.twoSpecs as [[spec1 spec2] h].
  apply steps_storeInv. split_and!; [constructor | constructor | cbn; lia].
Defined.

(** ** Copies and shared objects *)

Lemma extends_refl h : extends h h.
Proof. by split. Qed.

Lemma extends_trans h1 h2 h3 : extends h1 h2 → extends h2 h3 → extends h1 h3.
Proof.
  intros [Ha Hm] [Ha' Hm']. split; intros x Hx.
  - rewrite Ha', Ha; [done..|]. apply elem_of_dom. rewrite Ha by done.
    by apply elem_of_dom.
  - rewrite Hm', Hm; [done..|]. apply elem_of_dom. rewrite Hm by done.
    by apply elem_of_dom.
Qed.

Lemma Clone_extends r h : extends h (Clone r h).2.
Proof.
  pose proof (models_props.Clone_spec r h) as Hc.
  destruct (Clone r h) as [r' h']. destruct Hc as (_ & _ & _ & Hm & _ & Ha).
  cbn. split; [done|]. intros m _. by rewrite Hm.
Qed.

Lemma extends_elems h h' sl :
  extends h h' → knownSlice h sl → elems h' sl = elems h sl.
Proof.
  intros [Ha _] [Hz|Hk]; unfold elems.
  - by rewrite Hz, !resize_0.
  - by rewrite Ha.
Qed.

Lemma extends_requestValue h h' r :
  extends h h' → knownRequest h r → requestValue h' r = requestValue h r.
Proof.
  intros He Hk. unfold requestValue. by rewrite (extends_elems h h').
Qed.

Lemma extends_responseValue h h' r :
  extends h h' → knownResponse h r → responseValue h' r = responseValue h r.
Proof.
  intros [_ Hm] Hk. unfold responseValue, knownResponse in *.
  destruct (Response.Headers r) as [m|]; [|done]. cbn. by rewrite Hm.
Qed.

Lemma store_elem_other sl j x h h2 sl' :
  store_elem sl j x h = Some h2 → array sl' ≠ array sl →
  elems h2 sl' = elems h sl'.
Proof.
  unfold store_elem. case_decide; [|done]. intros [= <-] Hne.
  unfold elems. cbn. by rewrite lookup_alter_ne.
Qed.

(** X13: [Clone] gives a request that shares nothing with the one it
    copies: when the headers of that one are in the heap, a write to an
    element of either leaves the other as it reads, and a write to the
    headers of the copy changes no array that existed before. *)
Theorem Clone_independent r h r' h' j x h2 :
  Clone r h = (r', h') →
  array (Request.Headers r) ∈ dom (arrays h) →
  (store_elem (Request.Headers r) j x h' = Some h2 →
   requestValue h2 r' = requestValue h' r')
  ∧ (store_elem (Request.Headers r') j x h' = Some h2 →
     requestValue h2 r = requestValue h' r
     ∧ ∀ a, a ∈ dom (arrays h) → arrays h2 !! a = arrays h !! a).
Proof.
  intros E Hk. pose proof (models_props.Clone_spec r h) as Hc.
  rewrite E in Hc. destruct Hc as (_ & Hfresh & _ & _ & _ & Ha).
  assert (Hne : array (Request.Headers r') ≠ array (Request.Headers r))
    by (intros Heq; by rewrite Heq in Hfresh).
  split; intros Hw; unfold requestValue.
  - by rewrite (store_elem_other _ _ _ _ _ _ Hw).
  - split; [by rewrite (store_elem_other _ _ _ _ _ _ Hw)|].
    intros a Hain. revert Hw. unfold store_elem. case_decide; [|done].
    intros [= <-]. cbn. rewrite lookup_alter_ne; [by apply Ha|].
    intros <-. done.
Qed.

Lemma Clone_independent_witness :
  let '(r', h') := Clone fixtures.postText.1 fixtures.postText.2 in
  ∃ h2,
    store_elem (Request.Headers fixtures.postText.1) 0
      (Header.mk "Content-Type" "text/html" true) h' = Some h2
    ∧ requestValue h2 r' = requestValue h' r'.
Proof.
  destruct (Clone fixtures.postText.1 fixtures.postText.2) as [r' h'] eqn:E.
  eexists. split; [reflexivity|].
  refine (proj1 (Clone_independent _ _ _ _ 0 _ _ E _) eq_refl).
  by vm_compute.
Defined.

Section Sharing.
Context {disk : Type} (O : OS disk) (J : Codec) (Srt : Sorter).

Lemma step_extends op s h d : extends h (step O J Srt op (s, h, d)).1.2.
Proof.
  destruct op as [at_ id name r|id|at_ id r re|]; cbn [step].
  - destruct (SaveTemplate O J Srt at_ id name r s h d)
      as [[[res s1] h1] d1] eqn:E.
    apply storage_props.SaveTemplate_step in E as (-> & _). apply Clone_extends.
  - destruct (DeleteTemplate O J id s h d) as [[? ?] ?]. apply extends_refl.
  - destruct (AddHistory O J at_ id r re s h d) as [[[res s1] h1] d1] eqn:E.
    apply (storage_props.AddHistory_step O J) in E as (_ & _ & -> & _).
    unfold newItem. pose proof (Clone_extends r h).
    by destruct (Clone r h).
  - destruct (ClearHistory O J s h d) as [[? ?] ?]. apply extends_refl.
Qed.

Lemma steps_extends ops s h d :
  extends h (steps O J Srt ops (s, h, d)).1.2.
Proof.
  revert s h d. induction ops as [|op ops IH]; intros s h d.
  { apply extends_refl. }
  unfold steps. cbn [foldl]. fold (steps O J Srt ops).
  pose proof (step_extends op s h d) as H1.
  destruct (step O J Srt op (s, h, d)) as [[s1 h1] d1].
  eapply extends_trans; [exact H1 | apply IH].
Qed.

(** X14: the operations of the store write to no array of headers and
    to no map that exists: what a caller holds — sequences that
    [GetTemplates] and [GetHistory] returned, requests, responses — reads
    the same after any operations as before, provided its arrays and
    maps were in the heap. *)
Theorem steps_keep_snapshots ops s h d
    (ts : list Template.t) (xs : list HistoryItem.t) :
  Forall (λ t, knownRequest h (Template.Request t)) ts →
  Forall (knownItem h) xs →
  let h' := (steps O J Srt ops (s, h, d)).1.2 in
  extends h h'
  ∧ templateValue h' <$> ts = templateValue h <$> ts
  ∧ itemValue h' <$> xs = itemValue h <$> xs.
Proof.
  intros Hts Hxs h'. pose proof (steps_extends ops s h d) as He.
  fold h' in He. split_and!; [done|..].
  - apply list_fmap_ext. intros i t Ht. unfold templateValue.
    rewrite (extends_requestValue h h'); [done..|].
    eapply Forall_lookup_1 in Hts; [exact Hts|done].
  - apply list_fmap_ext. intros i x Hx. unfold itemValue.
    eapply Forall_lookup_1 in Hxs as [Hr Hp]; [|done].
    by rewrite (extends_requestValue h h'), (extends_responseValue h h').
Qed.

(** X15: the template that [SaveTemplate] returns does not share the
    headers of the request given: when those are in the heap, a later
    write to one of them leaves the template as it reads. *)
Theorem SaveTemplate_copies_request
    now uuid name req s h d t s1 h1 d1 j x h2 :
  SaveTemplate O J Srt now uuid name req s h d = (inl t, s1, h1, d1) →
  array (Request.Headers req) ∈ dom (arrays h) →
  store_elem (Request.Headers req) j x h1 = Some h2 →
  templateValue h2 t = templateValue h1 t.
Proof.
  unfold SaveTemplate. intros E Hk Hw.
  pose proof (models_props.Clone_spec req h) as Hc.
  destruct (Clone req h) as [r h0]. destruct Hc as (_ & Hfresh & _).
  assert (Hne : array (Request.Headers r) ≠ array (Request.Headers req))
    by (intros Heq; by rewrite Heq in Hfresh).
  assert (Hr : Template.Request t = r ∧ h1 = h0).
  { destruct (list_find _ (templates s)) as [[i t0]|];
      destruct (saveTemplates O J _ h0 d) as [[e|] d0];
      by simplify_eq. }
  destruct Hr as [Hr ->]. unfold templateValue, requestValue. rewrite Hr.
  by rewrite (store_elem_other _ _ _ _ _ _ Hw).
Qed.

(** X16: the entry that [AddHistory] puts first copies the request
    but not the headers of the response: a later write to the headers
    of the request given leaves the request of the entry as it reads,
    while a key set in the map of the response given shows in the
    entry. *)
Theorem AddHistory_copies_request_shares_response
    now uuid req resp s h d res s1 h1 d1 item :
  AddHistory O J now uuid req resp s h d = (res, s1, h1, d1) →
  head (GetHistory s1) = Some item →
  (∀ j x h2,
     array (Request.Headers req) ∈ dom (arrays h) →
     store_elem (Request.Headers req) j x h1 = Some h2 →
     requestValue h2 (HistoryItem.Request item)
     = requestValue h1 (HistoryItem.Request item))
  ∧ (∀ m mp k v,
       Response.Headers resp = Some m → hmaps h1 !! m = Some mp →
       Response.Headers (HistoryItem.Response item) = Some m
       ∧ (responseValue
            {| arrays := arrays h1;
               hmaps := alter (λ o, <[k:=v]> o) m (hmaps h1) |}
            (HistoryItem.Response item)).1.1.1.2
         = Some (<[k:=v]> mp)).
Proof.
  intros E Hhead.
  destruct (AddHistory_first O J _ _ _ _ _ _ _ _ _ _ _ E)
    as (item' & Hhead' & Hresp & Hfresh).
  rewrite Hhead in Hhead'. injection Hhead' as <-.
  split.
  - intros j x h2 Hk Hw. unfold requestValue.
    rewrite (store_elem_other _ _ _ _ _ _ Hw); [done|].
    intros Heq. by rewrite Heq in Hfresh.
  - intros m mp k v Hm Hmp. rewrite Hresp. split; [done|].
    unfold responseValue. rewrite Hm. cbn.
    by rewrite lookup_alter_eq, Hmp.
Qed.

(** ** The first start *)

(** X17: when the home directory is found, the data directory can be
    made and neither file exists, [NewStorage] returns a store with no
    template and no history in that directory; it allocates nothing and
    leaves the disk as [MkdirAll] left it. *)
Theorem NewStorage_first_start h d homeDir d1 e1 e2 :
  UserHomeDir O = inl homeDir →
  MkdirAll O (Join O homeDir appDirName) d = (None, d1) →
  ReadFile O (Join O (Join O homeDir appDirName) templatesFile) d1 = inr e1 →
  IsNotExist e1 = true →
  ReadFile O (Join O (Join O homeDir appDirName) historyFile) d1 = inr e2 →
  IsNotExist e2 = true →
  NewStorage O J h d
  = (inl {| templates := []; history := [];
            dataDir := Join O homeDir appDirName |}, h, d1)
  ∧ storeInv {| templates := []; history := [];
                dataDir := Join O homeDir appDirName |}.
Proof.
  intros Hh Hm Ht He1 Hs He2. unfold NewStorage.
  rewrite Hh, Hm.
  rewrite (storage_props.loadTemplates_missing O J _ h d1 e1) by done.
  rewrite (storage_props.loadHistory_missing O J _ h d1 e2) by done.
  split; [done|]. split_and!; [constructor..|cbn; lia].
Qed.

End Sharing.

Lemma NewStorage_first_start_witness :
  NewStorage fixtures.os fixtures.codec emptyHeap ∅
  = (inl fixtures.emptyStore, emptyHeap, ∅).
Proof.
  by refine (proj1 (NewStorage_first_start fixtures.os fixtures.codec
                      emptyHeap ∅ "/home/u" ∅ _ _ eq_refl eq_refl eq_refl
                      eq_refl eq_refl eq_refl)).
Defined.

Lemma steps_keep_snapshots_witness :
  let '(s, h) := fixtures.busyStore in
  let h' := (steps fixtures.os fixtures.codec fixtures.sorter
               [DoSaveTemplate 5 "e" "A" fixtures.noURL.1;
                DoDeleteTemplate "id-1"; DoClearHistory] (s, h, ∅)).1.2 in
  templateValue h' <$> GetTemplates s = templateValue h <$> GetTemplates s
  ∧ itemValue h' <$> GetHistory s = itemValue h <$> GetHistory s.
Proof.
  destruct fixtures.busyStore as [s h] eqn:E. cbv zeta.
  refine (proj2 (steps_keep_snapshots fixtures.os fixtures.codec
                   fixtures.sorter _ s h ∅ (GetTemplates s) (GetHistory s)
                   _ _));
    injection E as <- <-; vm_compute; repeat constructor;
    try (right; by vm_compute); by vm_compute.
Defined.

Lemma SaveTemplate_copies_request_witness :
  let '(spec1, _, h) := fixtures.twoSpecs in
  ∃ t s1 h1 d1 h2,
    SaveTemplate fixtures.os fixtures.codec fixtures.sorter
      1000 "id-1" "A" spec1 fixtures.emptyStore h ∅ = (inl t, s1, h1, d1)
    ∧ store_elem (Request.Headers spec1) 0 Header.zero h1 = Some h2
    ∧ templateValue h2 t = templateValue h1 t.
Proof.
  destruct fixtures.twoSpecs as [[spec1 spec2] h] eqn:Es.
  injection Es as <- <- <-.
  match goal with
  | |- context [SaveTemplate ?o ?j ?q ?n ?u ?a ?r ?s ?hh ?d] =>
      assert (Hok : (if (SaveTemplate o j q n u a r s hh d).1.1.1 is inl _
                     then true else false) = true)
        by (vm_compute; reflexivity);
      destruct (SaveTemplate o j q n u a r s hh d)
        as [[[[t|e] s1] h1] d1] eqn:E
  end.
  2:{ discriminate Hok. }
  match goal with
  | |- context [store_elem ?sl ?i ?x _] =>
      destruct (store_elem sl i x h1) as [h2|] eqn:Ew
  end.
  2:{ exfalso. revert Ew. by cbn. }
  exists t, s1, h1, d1, h2. split_and!; try done.
  eapply (SaveTemplate_copies_request fixtures.os fixtures.codec
            fixtures.sorter); [exact E | apply elem_of_dom; by eexists | exact Ew].
Defined.

Lemma AddHistory_copies_request_shares_response_witness :
  let r := AddHistory fixtures.os fixtures.codec 1001 "id-2"
             fixtures.postText.1 fixtures.answered.1
             fixtures.emptyStore fixtures.answered.2 ∅ in
  ∃ item m mp,
    head (GetHistory r.1.1.2) = Some item
    ∧ Response.Headers fixtures.answered.1 = Some m
    ∧ hmaps r.1.2 !! m = Some mp
    ∧ (responseValue
         {| arrays := arrays r.1.2;
            hmaps := alter (λ o, <["Vary":="none"]> o) m (hmaps r.1.2) |}
         (HistoryItem.Response item)).1.1.1.2
      = Some (<["Vary":="none"]> mp).
Proof.
  cbv zeta.
  set (r := AddHistory fixtures.os fixtures.codec 1001 "id-2"
              fixtures.postText.1 fixtures.answered.1
              fixtures.emptyStore fixtures.answered.2 ∅).
  assert (E : AddHistory fixtures.os fixtures.codec 1001 "id-2"
                fixtures.postText.1 fixtures.answered.1
                fixtures.emptyStore fixtures.answered.2 ∅
              = (r.1.1.1, r.1.1.2, r.1.2, r.2)).
  { change (r = (r.1.1.1, r.1.1.2, r.1.2, r.2)).
    generalize r. by intros [[[? ?] ?] ?]. }
  destruct (AddHistory_first _ _ _ _ _ _ _ _ _ _ _ _ _ E)
    as (item & Hhead & _).
  assert (Hm : Response.Headers fixtures.answered.1 = Some 1%positive)
    by (vm_compute; reflexivity).
  assert (Hmp : is_Some (hmaps r.1.2 !! 1%positive))
    by (subst r; vm_compute; by eexists).
  destruct Hmp as [mp Hmp].
  exists item, 1%positive, mp.
  split; [exact Hhead|]. split; [exact Hm|]. split; [exact Hmp|].
  exact (proj2 (proj2 (AddHistory_copies_request_shares_response _ _ _ _ _ _
                         _ _ _ _ _ _ _ _ E Hhead) _ mp "Vary" "none" Hm Hmp)).
Defined.

End storage_more.

(** * Properties of the screens *)
Module ui_props.
Import models vocabulary ui screens.

(** ** The request panel *)

Lemma append_spec s x h :
  knownSlice h s →
  let '(s', h') := RequestPanel.append s x h in
  elems h' s' = elems h s ++ [x]
  ∧ extends h h'
  ∧ (array s' ∉ dom (arrays h))
  ∧ array s' ∈ dom (arrays h').
Proof.
  intros Hk. unfold RequestPanel.append. cbn.
  pose proof (is_fresh (dom (arrays h))) as Hf.
  split_and!.
  - unfold elems at 1. cbn. rewrite lookup_insert_eq. cbn.
    rewrite resize_all_alt; [done|].
    rewrite length_app. unfold elems. rewrite length_resize. cbn. lia.
  - split; [|done]. intros a Ha. cbn.
    rewrite lookup_insert_ne; [done|]. intros <-. done.
  - done.
  - cbn. rewrite dom_insert. set_solver.
Qed.

Lemma UpdateRequest_loop rows : ∀ s h0 h,
  extends h h0 → array s ∉ dom (arrays h) → array s ∈ dom (arrays h0) →
  let '(s', h') :=
    foldl (λ acc row,
             if decide (RequestPanel.keyEntry row ≠ "")
             then RequestPanel.append acc.1
                    {| Header.Key := RequestPanel.keyEntry row;
                       Header.Value := RequestPanel.valueEntry row;
                       Header.Enabled := RequestPanel.enabled row |} acc.2
             else acc) (s, h0) rows in
  elems h' s' = elems h0 s ++ named rows
  ∧ extends h h'
  ∧ (array s' ∉ dom (arrays h))
  ∧ array s' ∈ dom (arrays h').
Proof.
  induction rows as [|row rows IH]; intros s h0 h He Hf Hin.
  - cbn. unfold named. cbn. by rewrite app_nil_r.
  - cbn [foldl]. unfold named. rewrite filter_cons.
    destruct (decide (RequestPanel.keyEntry row ≠ "")) as [Hne|He0].
    + cbn [fst snd].
      pose proof (append_spec s (headerOf row) h0 (or_intror Hin)) as Ha.
      fold (headerOf row).
      destruct (RequestPanel.append s (headerOf row) h0) as [s1 h1].
      destruct Ha as (Hel & Hext & Hfr & Hin1).
      specialize (IH s1 h1 h).
      destruct (foldl _ (s1, h1) rows) as [s' h'].
      destruct IH as (E1 & E2 & E3 & E4).
      * by eapply storage_more.extends_trans.
      * intros Hd. apply Hfr. destruct He as [He _].
        apply elem_of_dom. rewrite He by done. by apply elem_of_dom.
      * done.
      * split_and!; [|done..].
        rewrite E1, Hel. rewrite fmap_cons, <- app_assoc. done.
    + specialize (IH s h0 h He Hf Hin).
      destruct (foldl _ (s, h0) rows) as [s' h']. done.
Qed.

Lemma UpdateRequest_facts r req h :
  requestValue (RequestPanel.UpdateRequest r req h).2
    (RequestPanel.UpdateRequest r req h).1 = formValue r
  ∧ extends h (RequestPanel.UpdateRequest r req h).2
  ∧ (array (Request.Headers (RequestPanel.UpdateRequest r req h).1)
     ∉ dom (arrays h))
  ∧ knownRequest (RequestPanel.UpdateRequest r req h).2
      (RequestPanel.UpdateRequest r req h).1.
Proof.
  unfold RequestPanel.UpdateRequest.
  pose proof (models_props.make_headers_fresh 0 h) as Hf.
  pose proof (UpdateRequest_loop (RequestPanel.headers r)
                (make_headers 0 h).1 (make_headers 0 h).2 h) as Hl.
  rewrite <- surjective_pairing in Hl.
  destruct (foldl _ (make_headers 0 h) (RequestPanel.headers r)) as [hs h1].
  destruct Hl as (E1 & E2 & E3 & E4).
  - split; [|done]. intros a Ha. cbn.
    rewrite lookup_insert_ne; [done|]. intros <-.
    by apply (is_fresh (dom (arrays h))).
  - done.
  - cbn. rewrite dom_insert. set_solver.
  - split_and!; [|done|done|by right].
    unfold requestValue, formValue. cbn. rewrite E1.
    unfold elems at 1. cbn. by rewrite resize_0.
Qed.

(** X18: [UpdateRequest] makes the request read as the form: the method
    selected, the two texts, and a header for each row with a name, in
    the order of the rows, whether it is ticked or not; the rows without
    a name are left out.  The headers are in an array that was not there
    before, and no object that was there is written to. *)
Theorem UpdateRequest_reads_the_form r req h :
  let '(req', h') := RequestPanel.UpdateRequest r req h in
  requestValue h' req' = formValue r
  ∧ extends h h'
  ∧ (array (Request.Headers req') ∉ dom (arrays h))
  ∧ knownRequest h' req'.
Proof.
  pose proof (UpdateRequest_facts r req h) as H.
  by destruct (RequestPanel.UpdateRequest r req h).
Qed.

(** *** Loading a request *)

Lemma named_snoc rows row :
  named (rows ++ [row])
  = named rows ++ (if decide (RequestPanel.keyEntry row ≠ "")
                   then [headerOf row] else []).
Proof.
  unfold named. rewrite filter_app, fmap_app. f_equal.
  rewrite filter_cons, filter_nil. by destruct (decide _).
Qed.

(** The rows that [LoadRequest] adds for the headers [xs]. *)
Lemma addHeaderRows xs : ∀ r0,
  let r := foldl (λ r x, RequestPanel.addHeaderRow (Header.Key x)
                           (Header.Value x) (Header.Enabled x) r) r0 xs in
  RequestPanel.methodSelect r = RequestPanel.methodSelect r0
  ∧ RequestPanel.urlEntry r = RequestPanel.urlEntry r0
  ∧ RequestPanel.bodyEntry r = RequestPanel.bodyEntry r0
  ∧ named (RequestPanel.headers r)
    = named (RequestPanel.headers r0) ++ filter (λ x, Header.Key x ≠ "") xs
  ∧ length (RequestPanel.headers r)
    = length (RequestPanel.headers r0) + length xs
  ∧ RequestPanel.headersContainer r
    = RequestPanel.headersContainer r0
      ++ imap (λ i _, (RequestPanel.made r0 + i, RequestPanel.removeLast)) xs.
Proof.
  induction xs as [|x xs IH]; intros r0; cbn zeta.
  - cbn. rewrite !app_nil_r. split_and!; (done || lia).
  - cbn [foldl]. specialize (IH (RequestPanel.addHeaderRow (Header.Key x)
                                   (Header.Value x) (Header.Enabled x) r0)).
    cbn zeta in IH. destruct IH as (E1 & E2 & E3 & E4 & E5 & E6).
    rewrite E1, E2, E3, E4, E5, E6. cbn.
    split_and!; try done.
    + unfold named. rewrite filter_app, fmap_app, <- app_assoc. f_equal.
      rewrite !filter_cons, filter_nil. cbn.
      destruct (decide (Header.Key x ≠ "")); [by destruct x|done].
    + rewrite length_app. cbn. lia.
    + rewrite <- app_assoc. f_equal. cbn. f_equal.
      * f_equal. lia.
      * apply imap_ext. intros i y _. cbn. f_equal. lia.
Qed.

Lemma LoadRequest_form F req h r :
  formValue (RequestPanel.LoadRequest F req h r)
  = (SetSelected F RequestPanel.methods (RequestPanel.methodSelect r)
       (Request.Method req),
     Request.URL req,
     filter (λ x, Header.Key x ≠ "") (elems h (Request.Headers req)),
     Request.Body req).
Proof.
  unfold RequestPanel.LoadRequest, formValue.
  destruct (decide (len (Request.Headers req) = 0)) as [Hz|Hz].
  - cbn. unfold elems. rewrite Hz, resize_0. done.
  - match goal with |- context [foldl ?f ?r0 ?xs] =>
      pose proof (addHeaderRows xs r0) as Hl end.
    cbn zeta in Hl. destruct Hl as (E1 & E2 & E3 & E4 & _).
    by rewrite E1, E2, E3, E4.
Qed.

(** X19: a request that is loaded into the panel and read back reads as
    it did but for the headers without a name, which are lost, and for
    the method, which is what the select makes of it.  This also holds
    of a request without headers, for which the panel shows one empty
    row. *)
Theorem LoadRequest_then_UpdateRequest F req h r req0 h0 :
  let '(req', h') :=
    RequestPanel.UpdateRequest (RequestPanel.LoadRequest F req h r) req0 h0 in
  requestValue h' req'
  = (SetSelected F RequestPanel.methods (RequestPanel.methodSelect r)
       (Request.Method req),
     Request.URL req,
     filter (λ x, Header.Key x ≠ "") (elems h (Request.Headers req)),
     Request.Body req).
Proof.
  pose proof (UpdateRequest_facts (RequestPanel.LoadRequest F req h r)
                req0 h0) as (Hv & _).
  destruct (RequestPanel.UpdateRequest _ req0 h0) as [req' h'].
  cbn in Hv. rewrite Hv. apply LoadRequest_form.
Qed.

(** *** The delete buttons of the rows *)

Lemma delete_last {A} (l : list A) :
  delete (length l - 1) l = take (length l - 1) l.
Proof.
  induction l as [|x l IH]; [done|].
  destruct l as [|y l]; [done|].
  cbn [length] in *. replace (S (S (length l)) - 1) with (S (length l)) by lia.
  replace (S (length l) - 1) with (length l) in IH by lia.
  cbn. f_equal. exact IH.
Qed.

Lemma removeHeaderRow_in_range (idx : nat) r :
  idx < length (RequestPanel.headers r) →
  RequestPanel.headers (RequestPanel.removeHeaderRow (Z.of_nat idx) r)
  = delete idx (RequestPanel.headers r)
  ∧ RequestPanel.headersContainer
      (RequestPanel.removeHeaderRow (Z.of_nat idx) r)
    = imap (λ i row, (RequestPanel.widgets row, RequestPanel.removeAt i))
           (delete idx (RequestPanel.headers r)).
Proof.
  intros Hlt. unfold RequestPanel.removeHeaderRow.
  rewrite decide_False by lia. cbn. by rewrite Nat2Z.id.
Qed.

(** A panel in which no delete button was made by [removeHeaderRow]. *)
Lemma tapDelete_removeLast r k :
  Forall (λ wb, wb.2 = RequestPanel.removeLast)
         (RequestPanel.headersContainer r) →
  length (RequestPanel.headersContainer r)
  = length (RequestPanel.headers r) →
  k < length (RequestPanel.headers r) →
  RequestPanel.headers (RequestPanel.tapDelete k r)
  = take (length (RequestPanel.headers r) - 1) (RequestPanel.headers r).
Proof.
  intros Hall Hlen Hk. unfold RequestPanel.tapDelete.
  destruct (lookup_lt_is_Some_2 (RequestPanel.headersContainer r) k)
    as [[w b] Hb]; [lia|].
  rewrite Hb. rewrite Forall_lookup in Hall.
  specialize (Hall _ _ Hb). cbn in Hall. subst b. cbn.
  replace (Z.of_nat (length (RequestPanel.headers r)) - 1)%Z
    with (Z.of_nat (length (RequestPanel.headers r) - 1)) by lia.
  rewrite (proj1 (removeHeaderRow_in_range
                    (length (RequestPanel.headers r) - 1) r ltac:(lia))).
  apply delete_last.
Qed.

Lemma addHeaderRow_buttons n : ∀ r,
  Forall (λ wb, wb.2 = RequestPanel.removeLast)
         (RequestPanel.headersContainer r) →
  length (RequestPanel.headersContainer r)
  = length (RequestPanel.headers r) →
  let r' := Nat.iter n (RequestPanel.addHeaderRow "" "" true) r in
  Forall (λ wb, wb.2 = RequestPanel.removeLast)
         (RequestPanel.headersContainer r')
  ∧ length (RequestPanel.headersContainer r')
    = length (RequestPanel.headers r').
Proof.
  induction n as [|n IH]; intros r Hall Hlen; cbn zeta; [done|].
  rewrite Nat.iter_succ. destruct (IH r Hall Hlen) as [H1 H2].
  revert H1 H2.
  generalize (Nat.iter n (RequestPanel.addHeaderRow "" "" true) r).
  intros r' H1 H2. cbn. split.
  - apply Forall_app. split; [done|]. by constructor.
  - rewrite !length_app. cbn. lia.
Qed.

Lemma LoadRequest_buttons F req h r :
  Forall (λ wb, wb.2 = RequestPanel.removeLast)
         (RequestPanel.headersContainer (RequestPanel.LoadRequest F req h r))
  ∧ length (RequestPanel.headersContainer
              (RequestPanel.LoadRequest F req h r))
    = length (RequestPanel.headers (RequestPanel.LoadRequest F req h r)).
Proof.
  unfold RequestPanel.LoadRequest.
  destruct (decide (len (Request.Headers req) = 0)) as [Hz|Hz].
  - cbn. split; [|done]. by repeat constructor.
  - match goal with |- context [foldl ?f ?r0 ?xs] =>
      pose proof (addHeaderRows xs r0) as Hl end.
    cbn zeta in Hl. destruct Hl as (_ & _ & _ & _ & E5 & E6).
    rewrite E5, E6. cbn. split.
    + apply Forall_lookup. intros i [w b] Hi.
      rewrite list_lookup_imap in Hi.
      destruct (elems h (Request.Headers req) !! i); [|done].
      cbn in Hi. by injection Hi as <- <-.
    + by rewrite length_imap.
Qed.

(** X20: in the panel as [Build] leaves it or after a request is loaded,
    also after any number of taps on [Add Header], the delete button of
    every row removes the last row of the panel, whichever row it is
    beside. *)
Theorem delete_button_removes_last_row F req h r0 n k :
  let loaded :=
    Nat.iter n (RequestPanel.addHeaderRow "" "" true)
      (RequestPanel.LoadRequest F req h r0) in
  let built :=
    Nat.iter n (RequestPanel.addHeaderRow "" "" true)
      (RequestPanel.Build F RequestPanel.NewRequestPanel) in
  (k < length (RequestPanel.headers loaded) →
   RequestPanel.headers (RequestPanel.tapDelete k loaded)
   = take (length (RequestPanel.headers loaded) - 1)
          (RequestPanel.headers loaded))
  ∧ (k < length (RequestPanel.headers built) →
     RequestPanel.headers (RequestPanel.tapDelete k built)
     = take (length (RequestPanel.headers built) - 1)
            (RequestPanel.headers built)).
Proof.
  cbn zeta. split; intros Hk.
  - destruct (LoadRequest_buttons F req h r0) as [H1 H2].
    destruct (addHeaderRow_buttons n _ H1 H2) as [H3 H4].
    by apply tapDelete_removeLast.
  - assert (H1 : Forall (λ wb, wb.2 = RequestPanel.removeLast)
                   (RequestPanel.headersContainer
                      (RequestPanel.Build F RequestPanel.NewRequestPanel)))
      by (by repeat constructor).
    destruct (addHeaderRow_buttons n _ H1 eq_refl) as [H3 H4].
    by apply tapDelete_removeLast.
Qed.

(** X21: [removeHeaderRow] with an index of a row removes that row and
    no other, and makes the delete buttons anew: after it, the delete
    button of every row removes the row it is beside. *)
Theorem removeHeaderRow_then_delete_buttons r (idx : nat) :
  idx < length (RequestPanel.headers r) →
  let r1 := RequestPanel.removeHeaderRow (Z.of_nat idx) r in
  RequestPanel.headers r1 = delete idx (RequestPanel.headers r)
  ∧ ∀ k, k < length (RequestPanel.headers r1) →
         RequestPanel.headers (RequestPanel.tapDelete k r1)
         = delete k (RequestPanel.headers r1).
Proof.
  intros Hlt. cbn zeta.
  destruct (removeHeaderRow_in_range idx r Hlt) as [Hh Hc].
  split; [exact Hh|]. intros k Hk.
  unfold RequestPanel.tapDelete. rewrite Hc, list_lookup_imap.
  rewrite <- Hh.
  destruct (lookup_lt_is_Some_2 _ k Hk) as [row Hrow].
  rewrite Hrow. cbn.
  apply (proj1 (removeHeaderRow_in_range k _ Hk)).
Qed.

(** ** The response panel *)

Lemma SetText_last text current : SetText text text current = text.
Proof.
  unfold SetText. destruct (decide (text = current)) as [->|]; [done|].
  by rewrite decide_False by (intros H; by apply H).
Qed.

Lemma IsJSON_FormatJSON {value} (JS : httpclient.JSON value) body :
  (if httpclient.IsJSON JS body then httpclient.FormatJSON JS body else body)
  = httpclient.FormatJSON JS body.
Proof.
  unfold httpclient.IsJSON, httpclient.FormatJSON.
  destruct (decide (body = "")) as [->|]; destruct (httpclient.Unmarshal _ _);
    done.
Qed.

(** X22: [DisplayResponse] shows a response with an error as the error
    alone, with no headers and no body; of any other response it shows
    the body as [FormatJSON] gives it, whether [IsJSON] holds of it or
    not, and the status line.  In both cases the two texts shown are the
    two that the panel remembers, so that the guards of the two entries
    put nothing back. *)
Theorem DisplayResponse_shows {value} (JS : httpclient.JSON value) range
    resp h r :
  let r' := ResponsePanel.DisplayResponse JS range resp h r in
  ResponsePanel.bodyText r' = ResponsePanel.lastBody r'
  ∧ ResponsePanel.headersText r' = ResponsePanel.lastHeaders r'
  ∧ (Response.Error resp ≠ "" →
     ResponsePanel.statusLabel r' = "Error: " +:+ Response.Error resp
     ∧ ResponsePanel.timeLabel r' = "Time: -"
     ∧ ResponsePanel.bodyText r' = ""
     ∧ ResponsePanel.headersText r' = "")
  ∧ (Response.Error resp = "" →
     ResponsePanel.statusLabel r' = "Status: " +:+ Response.Status resp
     ∧ ResponsePanel.bodyText r'
       = httpclient.FormatJSON JS (Response.Body resp)
     ∧ (Response.Headers resp = None → ResponsePanel.headersText r' = "")).
Proof.
  cbn zeta. unfold ResponsePanel.DisplayResponse.
  destruct (decide (Response.Error resp ≠ "")) as [He|He]; cbn.
  - rewrite !SetText_last. split_and!; try done.
  - rewrite !SetText_last, IsJSON_FormatJSON. split_and!; try done.
    intros _. split_and!; [done..|]. by intros ->.
Qed.
(** ** The rows on the screen *)

Lemma rowsInv_empty m u b made :
  rowsInv {| RequestPanel.methodSelect := m; RequestPanel.urlEntry := u;
             RequestPanel.headersContainer := [];
             RequestPanel.bodyEntry := b; RequestPanel.headers := [];
             RequestPanel.made := made |}.
Proof. split_and!; cbn; [done|constructor|constructor|]. by intros k w' b'. Qed.

Lemma rowsInv_addHeaderRow key value enabled r :
  rowsInv r → rowsInv (RequestPanel.addHeaderRow key value enabled r).
Proof.
  intros (H1 & H2 & H3 & H4). unfold RequestPanel.addHeaderRow.
  split_and!; cbn.
  - by rewrite !fmap_app, H1.
  - rewrite fmap_app. apply NoDup_app. split_and!; [done| |apply NoDup_singleton].
    intros x Hx Hx'. cbn in Hx'. apply list_elem_of_singleton in Hx'. subst x.
    apply list_elem_of_fmap in Hx as (row & Heq & Hin).
    rewrite Forall_forall in H3. specialize (H3 _ Hin). lia.
  - apply Forall_app. split.
    + eapply Forall_impl; [exact H3|]. intros row Hr. cbn in Hr. lia.
    + constructor; [cbn; lia|constructor].
  - intros k w b Hk. apply lookup_app_Some in Hk as [Hk|[Hge Hk]].
    + by eapply H4.
    + left. apply list_lookup_singleton_Some in Hk as [_ Hk]. congruence.
Qed.

Lemma rowsInv_removeHeaderRow index r :
  rowsInv r → rowsInv (RequestPanel.removeHeaderRow index r).
Proof.
  intros (H1 & H2 & H3 & H4). unfold RequestPanel.removeHeaderRow.
  destruct (decide _); [done|]. split_and!; cbn.
  - apply list_eq. intros i.
    rewrite !list_lookup_fmap, list_lookup_imap.
    by destruct (delete _ _ !! i).
  - eapply sublist_NoDup; [exact H2|].
    apply fmap_sublist, sublist_delete.
  - by apply Forall_delete.
  - intros k w b Hk. rewrite list_lookup_imap in Hk. right.
    destruct (delete _ _ !! k); [|done]. cbn in Hk. congruence.
Qed.

Lemma rowsInv_tapDelete k r :
  rowsInv r → rowsInv (RequestPanel.tapDelete k r).
Proof.
  intros H. unfold RequestPanel.tapDelete.
  destruct (_ !! k) as [[w [|idx]]|]; [..|done];
    by apply rowsInv_removeHeaderRow.
Qed.

Lemma rowsInv_setRow k f r :
  (∀ row, RequestPanel.widgets (f row) = RequestPanel.widgets row) →
  rowsInv r → rowsInv (App.setRow k f r).
Proof.
  intros Hf (H1 & H2 & H3 & H4).
  assert (Hw : RequestPanel.widgets <$> alter f k (RequestPanel.headers r)
               = RequestPanel.widgets <$> RequestPanel.headers r).
  { apply list_eq. intros i. rewrite !list_lookup_fmap.
    destruct (decide (i = k)) as [->|Hne].
    - rewrite list_lookup_alter_eq.
      destruct (RequestPanel.headers r !! k); cbn; [by rewrite Hf|done].
    - by rewrite list_lookup_alter_ne. }
  unfold App.setRow. split_and!; cbn.
  - by rewrite Hw.
  - by rewrite Hw.
  - apply Forall_lookup. intros i row Hi.
    rewrite Forall_lookup in H3.
    destruct (decide (i = k)) as [->|Hne].
    + rewrite list_lookup_alter_eq in Hi.
      destruct (RequestPanel.headers r !! k) as [row0|] eqn:E; [|done].
      cbn in Hi. injection Hi as <-. rewrite Hf. by eapply H3.
    + rewrite list_lookup_alter_ne in Hi by done. by eapply H3.
  - exact H4.
Qed.

Lemma rowsInv_addHeaderRows xs : ∀ r0,
  rowsInv r0 →
  rowsInv (foldl (λ r x, RequestPanel.addHeaderRow (Header.Key x)
                           (Header.Value x) (Header.Enabled x) r) r0 xs).
Proof.
  induction xs as [|x xs IH]; intros r0 H0; [done|].
  cbn [foldl]. by apply IH, rowsInv_addHeaderRow.
Qed.

Lemma rowsInv_LoadRequest F req h r :
  rowsInv (RequestPanel.LoadRequest F req h r).
Proof.
  unfold RequestPanel.LoadRequest.
  destruct (decide _).
  - apply rowsInv_addHeaderRow, rowsInv_empty.
  - apply rowsInv_addHeaderRows, rowsInv_empty.
Qed.

Lemma rowsInv_Build F :
  rowsInv (RequestPanel.Build F RequestPanel.NewRequestPanel).
Proof. apply rowsInv_addHeaderRow, rowsInv_empty. Qed.
(** ** The application *)

Lemma SendRequest_heap N req h w :
  arrays (httpclient.SendRequest N req h w).1.2 = arrays h
  ∧ extends h (httpclient.SendRequest N req h w).1.2.
Proof.
  unfold httpclient.SendRequest.
  destruct (decide (Request.URL req = ""));
    [split; [done|apply storage_more.extends_refl]|].
  destruct (httpclient.outgoing N req h) as [httpReq|err];
    [|split; [done|apply storage_more.extends_refl]].
  destruct (nethttp.Do N httpReq w) as [[httpResp|err] w1];
    [|split; [done|apply storage_more.extends_refl]].
  assert (Hext : extends h
            {| arrays := arrays h;
               hmaps := <[fresh (dom (hmaps h)) :=
                            httpclient.joinHeaders
                              (nethttp.Response.Header httpResp)]> (hmaps h) |}).
  { split; [done|]. intros m Hm. cbn.
    rewrite lookup_insert_ne; [done|]. intros <-.
    by apply (is_fresh (dom (hmaps h))). }
  by destruct (nethttp.Response.Body httpResp).
Qed.

Lemma requestValue_arrays h h' r :
  arrays h' = arrays h → requestValue h' r = requestValue h r.
Proof. intros E. unfold requestValue, elems. by rewrite E. Qed.

Lemma knownRequest_arrays h h' r :
  arrays h' = arrays h → knownRequest h r → knownRequest h' r.
Proof. intros E. unfold knownRequest, knownSlice. by rewrite E. Qed.

Section Session.
Context {disk : Type} (N : nethttp.Net) (O : storage.OS disk)
  (J : storage.Codec) (Srt : storage.Sorter) (F : Fyne).
Context {value : Type} (JS : httpclient.JSON value).
Context (range : gmap string string → list (string * string)).

(** X23: [SendRequest] of the application reads the form, sends what it
    read and shows the response.  When the response has an error, the
    store, the file and the sidebar stay as they are: nothing is
    recorded.  When it has none, the history gets a new first entry with
    the id and the time of the call, a request that reads as the form
    and the response, and the sidebar shows the history of the store.
    The templates and the rows of the form stay as they are. *)
Theorem App_SendRequest_records at_ id a h w d :
  let form :=
    RequestPanel.UpdateRequest (App.request a) (App.currentRequest a) h in
  let resp := (httpclient.SendRequest N form.1 form.2 w).1.1 in
  let '(a', h', w', d') :=
    App.SendRequest N O J JS range at_ id (a, h, w, d) in
  requestValue h' (App.currentRequest a') = formValue (App.request a)
  ∧ App.request a' = App.request a
  ∧ storage.templates (App.storage a') = storage.templates (App.storage a)
  ∧ Sidebar.templatesContainer (App.sidebar a')
    = Sidebar.templatesContainer (App.sidebar a)
  ∧ extends h h'
  ∧ (Response.Error resp ≠ "" →
     App.storage a' = App.storage a ∧ d' = d
     ∧ App.sidebar a' = App.sidebar a)
  ∧ (Response.Error resp = "" →
     ∃ item,
       storage.GetHistory (App.storage a')
       = take storage.maxHistoryItems
              (item :: storage.history (App.storage a))
       ∧ itemValue h' item
         = (id, formValue (App.request a), responseValue h' resp, at_)
       ∧ Sidebar.historyContainer (App.sidebar a')
         = storage.GetHistory (App.storage a')).
Proof.
  cbn zeta. unfold App.SendRequest.
  pose proof (UpdateRequest_facts (App.request a) (App.currentRequest a) h)
    as (Hval & Hext1 & _ & Hknown).
  destruct (RequestPanel.UpdateRequest _ _ h) as [req h1]. cbn [fst snd] in *.
  pose proof (SendRequest_heap N req h1 w) as (Harr & Hext2).
  destruct (httpclient.SendRequest N req h1 w) as [[resp h2] w1].
  cbn [fst snd] in *.
  assert (Hval2 : requestValue h2 req = formValue (App.request a))
    by (by rewrite (requestValue_arrays h1 h2 req Harr)).
  assert (Hknown2 : knownRequest h2 req)
    by (by apply (knownRequest_arrays h1 h2)).
  destruct (decide (Response.Error resp = "")) as [He|He].
  - destruct (storage.AddHistory O J at_ id req resp (App.storage a) h2 d)
      as [[[res s1] h3] d1] eqn:E.
    apply (storage_props.AddHistory_step O J) in E as (Hh & Ht & Hh3 & _).
    unfold storage.newItem in *.
    pose proof (models_props.Clone_spec req h2) as Hclone.
    pose proof (storage_more.Clone_extends req h2) as Hext3.
    destruct (Clone req h2) as [c h4]. cbn [fst snd] in *. subst h3.
    destruct Hclone as (Hc & _). cbn.
    split_and!; try done.
    + by rewrite (storage_more.extends_requestValue h2 h4 req Hext3 Hknown2).
    + eapply storage_more.extends_trans; [exact Hext1|].
      eapply storage_more.extends_trans; [exact Hext2|exact Hext3].
    + intros _. eexists. split; [exact Hh|]. split; [|done].
      unfold itemValue. cbn. by rewrite Hc, Hval2.
  - cbn. split_and!; try done.
    by eapply storage_more.extends_trans.
Qed.

(** X24: [SaveTemplate] of the application saves what the form shows
    when it is called: afterwards the store has a template of the name
    given whose request reads as the form and whose time of update is
    the time of the call, also when writing the file fails; when it does
    not fail, the sidebar shows the templates of the store. *)
Theorem App_SaveTemplate_saves_the_form at_ id name a h d :
  let '(err, a', h', _) := App.SaveTemplate O J Srt at_ id name a h d in
  (∃ t, t ∈ storage.GetTemplates (App.storage a')
        ∧ Template.Name t = name
        ∧ requestValue h' (Template.Request t) = formValue (App.request a)
        ∧ Template.UpdatedAt t = at_)
  ∧ storage.history (App.storage a') = storage.history (App.storage a)
  ∧ match err with
    | None => Sidebar.templatesContainer (App.sidebar a')
              = storage.GetTemplates (App.storage a')
    | Some _ => App.sidebar a' = App.sidebar a
    end.
Proof.
  unfold App.SaveTemplate.
  pose proof (UpdateRequest_facts (App.request a) (App.currentRequest a) h)
    as (Hval & _ & _ & Hknown).
  destruct (RequestPanel.UpdateRequest _ _ h) as [req h1]. cbn [fst snd] in *.
  destruct (storage.SaveTemplate O J Srt at_ id name req (App.storage a) h1 d)
    as [[[res s1] h2] d1] eqn:E.
  apply (storage_props.SaveTemplate_step O J Srt) in E as (Hh2 & Hh & Ht).
  pose proof (models_props.Clone_spec req h1) as Hclone.
  destruct (Clone req h1) as [c h3]. cbn [fst snd] in *. subst h2.
  destruct Hclone as (Hc & _).
  assert (Hex : ∃ t, t ∈ storage.GetTemplates s1
                     ∧ Template.Name t = name
                     ∧ requestValue h3 (Template.Request t)
                       = formValue (App.request a)
                     ∧ Template.UpdatedAt t = at_).
  { unfold storage.GetTemplates.
    destruct (list_find _ _) as [[i t0]|] eqn:Ef.
    - apply list_find_Some in Ef as (Hi & Hn & _).
      exists (storage.refresh c at_ t0). rewrite Ht. split_and!.
      + apply list_elem_of_lookup. exists i.
        apply list_lookup_insert_eq. by eapply lookup_lt_Some.
      + done.
      + cbn. by rewrite Hc.
      + done.
    - eexists. rewrite Ht. split_and!.
      + rewrite (storage.sortSlice_perm Srt). apply elem_of_app. right.
        apply list_elem_of_singleton. reflexivity.
      + done.
      + cbn. by rewrite Hc.
      + done. }
  destruct res as [t|err]; cbn; by split_and!.
Qed.

(** *** What a session keeps *)

Lemma AddHistory_as_step at_ id req resp s h d :
  step O J Srt (DoAddHistory at_ id req resp) (s, h, d)
  = ((storage.AddHistory O J at_ id req resp s h d).1.1.2,
     (storage.AddHistory O J at_ id req resp s h d).1.2,
     (storage.AddHistory O J at_ id req resp s h d).2).
Proof.
  unfold step. by destruct (storage.AddHistory O J at_ id req resp s h d)
    as [[[? ?] ?] ?].
Qed.

Lemma SaveTemplate_as_step at_ id name req s h d :
  step O J Srt (DoSaveTemplate at_ id name req) (s, h, d)
  = ((storage.SaveTemplate O J Srt at_ id name req s h d).1.1.2,
     (storage.SaveTemplate O J Srt at_ id name req s h d).1.2,
     (storage.SaveTemplate O J Srt at_ id name req s h d).2).
Proof.
  unfold step. by destruct (storage.SaveTemplate O J Srt at_ id name req s h d)
    as [[[? ?] ?] ?].
Qed.

Lemma DeleteTemplate_as_step id s h d :
  step O J Srt (DoDeleteTemplate id) (s, h, d)
  = ((storage.DeleteTemplate O J id s h d).1.2, h,
     (storage.DeleteTemplate O J id s h d).2).
Proof.
  unfold step. by destruct (storage.DeleteTemplate O J id s h d) as [[? ?] ?].
Qed.

Lemma ClearHistory_as_step s h d :
  step O J Srt DoClearHistory (s, h, d)
  = ((storage.ClearHistory O J s h d).1.2, h,
     (storage.ClearHistory O J s h d).2).
Proof.
  unfold step. by destruct (storage.ClearHistory O J s h d) as [[? ?] ?].
Qed.

Lemma LoadRequest_keeps req a h :
  App.storage (App.LoadRequest F req a h).1 = App.storage a
  ∧ App.sidebar (App.LoadRequest F req a h).1 = App.sidebar a
  ∧ rowsInv (App.request (App.LoadRequest F req a h).1)
  ∧ extends h (App.LoadRequest F req a h).2.
Proof.
  unfold App.LoadRequest.
  pose proof (storage_more.Clone_extends req h) as He.
  destruct (Clone req h) as [c h1]. cbn.
  split_and!; [done|done|apply rowsInv_LoadRequest|done].
Qed.

Lemma handle_keeps e a h w d :
  storeInv (App.storage a) → rowsInv (App.request a) →
  let st := App.handle N O J Srt F JS range e (a, h, w, d) in
  storeInv (App.storage st.1.1.1)
  ∧ rowsInv (App.request st.1.1.1)
  ∧ extends h st.1.1.2.
Proof.
  intros Hs Hr. cbn zeta.
  destruct e as [i|text|text|k text|k text|k| |k|at_ id|at_ id name|k|k|k| ];
    cbn [App.handle].
  - destruct (_ !! i); cbn; [|by split_and!; [..|apply storage_more.extends_refl]].
    split_and!; [done| |apply storage_more.extends_refl].
    destruct Hr as (H1 & H2 & H3 & H4). by split_and!.
  - cbn. split_and!; [done| |apply storage_more.extends_refl].
    destruct Hr as (H1 & H2 & H3 & H4). by split_and!.
  - cbn. split_and!; [done| |apply storage_more.extends_refl].
    destruct Hr as (H1 & H2 & H3 & H4). by split_and!.
  - cbn. split_and!; [done| |apply storage_more.extends_refl].
    by apply rowsInv_setRow.
  - cbn. split_and!; [done| |apply storage_more.extends_refl].
    by apply rowsInv_setRow.
  - cbn. split_and!; [done| |apply storage_more.extends_refl].
    by apply rowsInv_setRow.
  - cbn. split_and!; [done| |apply storage_more.extends_refl].
    by apply rowsInv_addHeaderRow.
  - cbn. split_and!; [done| |apply storage_more.extends_refl].
    by apply rowsInv_tapDelete.
  - unfold App.SendRequest.
    pose proof (UpdateRequest_facts (App.request a) (App.currentRequest a) h)
      as (_ & Hext1 & _).
    destruct (RequestPanel.UpdateRequest _ _ h) as [req h1].
    cbn [fst snd] in *.
    pose proof (SendRequest_heap N req h1 w) as (_ & Hext2).
    destruct (httpclient.SendRequest N req h1 w) as [[resp h2] w1].
    cbn [fst snd] in *.
    destruct (decide (Response.Error resp = "")).
    + pose proof (storage_more.step_storeInv O J Srt
                    (DoAddHistory at_ id req resp) _ h2 d Hs) as Hs'.
      pose proof (storage_more.step_extends O J Srt
                    (DoAddHistory at_ id req resp) (App.storage a) h2 d)
        as Hext3.
      rewrite AddHistory_as_step in Hs', Hext3.
      destruct (storage.AddHistory O J at_ id req resp (App.storage a) h2 d)
        as [[[res s1] h3] d1]. cbn in *.
      split_and!; [done|done|].
      eapply storage_more.extends_trans; [exact Hext1|].
      eapply storage_more.extends_trans; [exact Hext2|exact Hext3].
    + cbn. split_and!; [done|done|].
      by eapply storage_more.extends_trans.
  - destruct (decide (name ≠ ""));
      [|by split_and!; [..|apply storage_more.extends_refl]].
    unfold App.SaveTemplate.
    pose proof (UpdateRequest_facts (App.request a) (App.currentRequest a) h)
      as (_ & Hext1 & _).
    destruct (RequestPanel.UpdateRequest _ _ h) as [req h1].
    cbn [fst snd] in *.
    pose proof (storage_more.step_storeInv O J Srt
                  (DoSaveTemplate at_ id name req) _ h1 d Hs) as Hs'.
    pose proof (storage_more.step_extends O J Srt
                  (DoSaveTemplate at_ id name req) (App.storage a) h1 d)
      as Hext2.
    rewrite SaveTemplate_as_step in Hs', Hext2.
    destruct (storage.SaveTemplate O J Srt at_ id name req (App.storage a) h1 d)
      as [[[[t|err] s1] h2] d1]; cbn in *;
      (split_and!; [done|done|by eapply storage_more.extends_trans]).
  - destruct (_ !! k) as [t|];
      [|by split_and!; [..|apply storage_more.extends_refl]].
    pose proof (LoadRequest_keeps (Template.Request t) a h)
      as (E1 & _ & E3 & E4).
    destruct (App.LoadRequest F (Template.Request t) a h) as [a1 h1].
    cbn in *. by rewrite E1.
  - destruct (_ !! k) as [t|];
      [|by split_and!; [..|apply storage_more.extends_refl]].
    unfold App.DeleteTemplate.
    pose proof (storage_more.step_storeInv O J Srt
                  (DoDeleteTemplate (Template.ID t)) _ h d Hs) as Hs'.
    rewrite DeleteTemplate_as_step in Hs'.
    destruct (storage.DeleteTemplate O J (Template.ID t) (App.storage a) h d)
      as [[err s1] d1]. cbn in *.
    split_and!; [done|done|apply storage_more.extends_refl].
  - destruct (_ !! k) as [x|];
      [|by split_and!; [..|apply storage_more.extends_refl]].
    pose proof (LoadRequest_keeps (HistoryItem.Request x) a h)
      as (E1 & _ & E3 & E4).
    destruct (App.LoadRequest F (HistoryItem.Request x) a h) as [a1 h1].
    cbn in *. by rewrite E1.
  - unfold App.ClearHistory.
    pose proof (storage_more.step_storeInv O J Srt DoClearHistory
                  _ h d Hs) as Hs'.
    rewrite ClearHistory_as_step in Hs'.
    destruct (storage.ClearHistory O J (App.storage a) h d)
      as [[err s1] d1]. cbn in *.
    split_and!; [done|done|apply storage_more.extends_refl].
Qed.

(** X25: whatever the user does, in any order, the store keeps its
    shape (one template of a name at most, the templates in the order
    of their names, 50 entries of history at most), the rows on the
    screen are the rows of the panel, each delete button removing the
    row it is beside or the last one, and no array of headers and no map
    of response headers that was there is written to. *)
Theorem session_keeps_shape es a h w d :
  storeInv (App.storage a) → rowsInv (App.request a) →
  let st := App.run N O J Srt F JS range es (a, h, w, d) in
  storeInv (App.storage st.1.1.1)
  ∧ rowsInv (App.request st.1.1.1)
  ∧ extends h st.1.1.2.
Proof.
  revert a h w d. induction es as [|e es IH]; intros a h w d Hs Hr.
  - cbn. split_and!; [done|done|apply storage_more.extends_refl].
  - cbn zeta. unfold App.run. cbn [foldl].
    pose proof (handle_keeps e a h w d Hs Hr) as (H1 & H2 & H3).
    destruct (App.handle N O J Srt F JS range e (a, h, w, d))
      as [[[a1 h1] w1] d1]. cbn [fst snd] in *.
    destruct (IH a1 h1 w1 d1 H1 H2) as (G1 & G2 & G3).
    split_and!; [done|done|]. by eapply storage_more.extends_trans.
Qed.

(** *** The sidebar and the store *)

Lemma SaveTemplate_never_fails at_ id name req s h d :
  neverFails O J →
  ∃ t, (storage.SaveTemplate O J Srt at_ id name req s h d).1.1.1 = inl t.
Proof.
  intros Hn. unfold storage.SaveTemplate.
  destruct (list_find _ _) as [[i t]|]; destruct (Clone req h) as [c h1];
    match goal with |- context [storage.saveTemplates O J ?s1 ?h1 ?d] =>
      pose proof (proj1 (Hn s1 h1 d)) as E;
      destruct (storage.saveTemplates O J s1 h1 d) as [[e|] d1]
    end; cbn in E; try discriminate E; by eexists.
Qed.

Lemma DeleteTemplate_never_fails id s h d :
  neverFails O J →
  (storage.DeleteTemplate O J id s h d).1.1 = None
  ∧ storage.history (storage.DeleteTemplate O J id s h d).1.2
    = storage.history s.
Proof.
  intros Hn. unfold storage.DeleteTemplate.
  destruct (list_find _ _) as [[i t]|]; [|done].
  match goal with |- context [storage.saveTemplates O J ?s1 ?h1 ?d] =>
    pose proof (proj1 (Hn s1 h1 d)) as E;
    destruct (storage.saveTemplates O J s1 h1 d) as [e d1]
  end. cbn in *. by subst e.
Qed.

Lemma ClearHistory_never_fails s h d :
  neverFails O J →
  (storage.ClearHistory O J s h d).1.1 = None
  ∧ storage.templates (storage.ClearHistory O J s h d).1.2
    = storage.templates s.
Proof.
  intros Hn. unfold storage.ClearHistory.
  match goal with |- context [storage.saveHistory O J ?s1 ?h1 ?d] =>
    pose proof (proj2 (Hn s1 h1 d)) as E;
    destruct (storage.saveHistory O J s1 h1 d) as [e d1]
  end. cbn in *. by subst e.
Qed.

Lemma handle_synced e a h w d :
  neverFails O J → synced a →
  synced (App.handle N O J Srt F JS range e (a, h, w, d)).1.1.1.
Proof.
  intros Hn [Ht Hh].
  destruct e as [i|text|text|k text|k text|k| |k|at_ id|at_ id name|k|k|k| ];
    cbn [App.handle]; try done.
  - by destruct (_ !! i).
  - unfold App.SendRequest.
    destruct (RequestPanel.UpdateRequest _ _ h) as [req h1].
    destruct (httpclient.SendRequest N req h1 w) as [[resp h2] w1].
    destruct (decide (Response.Error resp = "")); [|done].
    destruct (storage.AddHistory O J at_ id req resp (App.storage a) h2 d)
      as [[[res s1] h3] d1] eqn:E.
    apply (storage_props.AddHistory_step O J) in E as (_ & Ht' & _).
    split; cbn; [|done]. unfold storage.GetTemplates in *. by rewrite Ht'.
  - destruct (decide (name ≠ "")); [|done].
    unfold App.SaveTemplate.
    destruct (RequestPanel.UpdateRequest _ _ h) as [req h1].
    destruct (SaveTemplate_never_fails at_ id name req (App.storage a) h1 d Hn)
      as [t Hres].
    destruct (storage.SaveTemplate O J Srt at_ id name req (App.storage a) h1 d)
      as [[[res s1] h2] d1] eqn:E.
    cbn in Hres. subst res.
    apply (storage_props.SaveTemplate_step O J Srt) in E as (_ & Hh' & _).
    split; cbn; [done|]. unfold storage.GetHistory in *. by rewrite Hh'.
  - destruct (_ !! k) as [t|]; [|done].
    pose proof (LoadRequest_keeps (Template.Request t) a h) as (E1 & E2 & _).
    destruct (App.LoadRequest F (Template.Request t) a h) as [a1 h1].
    cbn in *. unfold synced. by rewrite E1, E2.
  - destruct (_ !! k) as [t|]; [|done].
    unfold App.DeleteTemplate.
    destruct (DeleteTemplate_never_fails (Template.ID t) (App.storage a) h d Hn)
      as [Herr Hh'].
    destruct (storage.DeleteTemplate O J (Template.ID t) (App.storage a) h d)
      as [[err s1] d1]. cbn in *. subst err.
    split; cbn; [done|]. unfold storage.GetHistory in *. by rewrite Hh'.
  - destruct (_ !! k) as [x|]; [|done].
    pose proof (LoadRequest_keeps (HistoryItem.Request x) a h)
      as (E1 & E2 & _).
    destruct (App.LoadRequest F (HistoryItem.Request x) a h) as [a1 h1].
    cbn in *. unfold synced. by rewrite E1, E2.
  - unfold App.ClearHistory.
    destruct (ClearHistory_never_fails (App.storage a) h d Hn) as [Herr Ht'].
    destruct (storage.ClearHistory O J (App.storage a) h d)
      as [[err s1] d1]. cbn in *. subst err.
    split; cbn; [|done]. unfold storage.GetTemplates in *. by rewrite Ht'.
Qed.

(** X26: as long as saving never fails, the sidebar shows the templates
    and the history of the store after whatever the user does, in any
    order. *)
Theorem session_sidebar_shows_store es a h w d :
  neverFails O J → synced a →
  synced (App.run N O J Srt F JS range es (a, h, w, d)).1.1.1.
Proof.
  intros Hn. revert a h w d.
  induction es as [|e es IH]; intros a h w d Hs; [done|].
  unfold App.run. cbn [foldl].
  pose proof (handle_synced e a h w d Hn Hs) as H1.
  destruct (App.handle N O J Srt F JS range e (a, h, w, d))
    as [[[a1 h1] w1] d1]. by apply IH.
Qed.

(** X27: when writing the file fails, [DeleteTemplate] and
    [ClearHistory] of the application give the error back and leave the
    sidebar as it is, although the store has changed: the template is
    gone from the store, the history of the store is empty, and the
    sidebar still shows them. *)
Theorem failed_write_leaves_sidebar a h d :
  (∀ id i t e d1,
     list_find (λ t, Template.ID t = id) (storage.templates (App.storage a))
     = Some (i, t) →
     storage.saveTemplates O J
       {| storage.templates := delete i (storage.templates (App.storage a));
          storage.history := storage.history (App.storage a);
          storage.dataDir := storage.dataDir (App.storage a) |} h d
     = (Some e, d1) →
     let '(err, a', _) := App.DeleteTemplate O J id a h d in
     err = Some e
     ∧ storage.GetTemplates (App.storage a')
       = delete i (storage.templates (App.storage a))
     ∧ App.sidebar a' = App.sidebar a)
  ∧ (∀ e d1,
       storage.saveHistory O J
         {| storage.templates := storage.templates (App.storage a);
            storage.history := [];
            storage.dataDir := storage.dataDir (App.storage a) |} h d
       = (Some e, d1) →
       let '(err, a', _) := App.ClearHistory O J a h d in
       err = Some e
       ∧ storage.GetHistory (App.storage a') = []
       ∧ App.sidebar a' = App.sidebar a).
Proof.
  split.
  - intros id i t e d1 Hf Hw.
    unfold App.DeleteTemplate, storage.DeleteTemplate. rewrite Hf, Hw. done.
  - intros e d1 Hw.
    unfold App.ClearHistory, storage.ClearHistory. rewrite Hw. done.
Qed.

End Session.
(** ** Examples *)

Lemma UpdateRequest_reads_the_form_witness :
  let '(req', h') :=
    RequestPanel.UpdateRequest ui_fixtures.threeRows fixtures.noURL.1
      fixtures.noURL.2 in
  requestValue h' req'
  = ("GET", "", [Header.mk "Content-Type" "application/json" true], "").
Proof.
  pose proof (UpdateRequest_reads_the_form ui_fixtures.threeRows
                fixtures.noURL.1 fixtures.noURL.2) as H.
  destruct (RequestPanel.UpdateRequest _ _ _) as [req' h'].
  rewrite (proj1 H). reflexivity.
Defined.

Lemma LoadRequest_then_UpdateRequest_witness :
  let '(req', h') :=
    RequestPanel.UpdateRequest
      (RequestPanel.LoadRequest ui_fixtures.fyne ui_fixtures.purge.1
         ui_fixtures.purge.2 ui_fixtures.threeRows)
      fixtures.noURL.1 fixtures.noURL.2 in
  requestValue h' req' = ("GET", "example.com", [Header.mk "A" "b" false], "").
Proof.
  pose proof (LoadRequest_then_UpdateRequest ui_fixtures.fyne
                ui_fixtures.purge.1 ui_fixtures.purge.2 ui_fixtures.threeRows
                fixtures.noURL.1 fixtures.noURL.2) as H.
  destruct (RequestPanel.UpdateRequest _ _ _) as [req' h'].
  rewrite H. vm_compute. reflexivity.
Defined.

Lemma delete_button_removes_last_row_witness :
  RequestPanel.keyEntry
    <$> RequestPanel.headers
          (RequestPanel.tapDelete 0
             (Nat.iter 2 (RequestPanel.addHeaderRow "" "" true)
                (RequestPanel.Build ui_fixtures.fyne
                   RequestPanel.NewRequestPanel)))
  = ["Content-Type"; ""].
Proof.
  rewrite (proj2 (delete_button_removes_last_row ui_fixtures.fyne
                    fixtures.noURL.1 fixtures.noURL.2
                    RequestPanel.NewRequestPanel 2 0));
    [reflexivity|cbn; lia].
Defined.

Lemma removeHeaderRow_then_delete_buttons_witness :
  let r1 := RequestPanel.removeHeaderRow 1 ui_fixtures.threeRows in
  RequestPanel.headers r1
  = delete 1 (RequestPanel.headers ui_fixtures.threeRows)
  ∧ RequestPanel.headers (RequestPanel.tapDelete 0 r1)
    = delete 0 (RequestPanel.headers r1).
Proof.
  cbv zeta.
  destruct (removeHeaderRow_then_delete_buttons ui_fixtures.threeRows 1)
    as [H1 H2]; [cbn; lia|].
  split; [exact H1|]. apply H2. vm_compute. lia.
Defined.

Lemma fixtures_never_fail : neverFails fixtures.os fixtures.codec.
Proof. intros s h d. split; reflexivity. Qed.

Lemma session_keeps_shape_witness :
  let st :=
    App.run fixtures.net fixtures.os fixtures.codec fixtures.sorter
      ui_fixtures.fyne fixtures.json map_to_list ui_fixtures.session
      (ui_fixtures.desk.1, ui_fixtures.desk.2, fixtures.dawn, ∅) in
  storeInv (App.storage st.1.1.1)
  ∧ rowsInv (App.request st.1.1.1)
  ∧ extends ui_fixtures.desk.2 st.1.1.2.
Proof.
  apply session_keeps_shape.
  - split_and!; [constructor|constructor|cbn; lia].
  - apply rowsInv_Build.
Defined.

Lemma session_sidebar_shows_store_witness :
  synced
    (App.run fixtures.net fixtures.os fixtures.codec fixtures.sorter
       ui_fixtures.fyne fixtures.json map_to_list ui_fixtures.session
       (ui_fixtures.desk.1, ui_fixtures.desk.2, fixtures.dawn, ∅)).1.1.1.
Proof.
  apply session_sidebar_shows_store.
  - exact fixtures_never_fail.
  - split; reflexivity.
Defined.

Lemma DisplayResponse_shows_witness :
  let r' :=
    ResponsePanel.DisplayResponse fixtures.json map_to_list
      ui_fixtures.compact200 emptyHeap
      (ResponsePanel.Build ResponsePanel.NewResponsePanel) in
  ResponsePanel.bodyText r' = fixtures.indentedText
  ∧ ResponsePanel.headersText r' = "".
Proof.
  cbv zeta.
  destruct (DisplayResponse_shows fixtures.json map_to_list
              ui_fixtures.compact200 emptyHeap
              (ResponsePanel.Build ResponsePanel.NewResponsePanel))
    as (_ & _ & _ & H).
  destruct (H eq_refl) as (_ & Hb & Hh).
  split; [rewrite Hb; vm_compute; reflexivity|exact (Hh eq_refl)].
Defined.

Lemma App_SendRequest_records_witness :
  let '(a', h', _, _) :=
    App.SendRequest fixtures.net fixtures.os fixtures.codec fixtures.json
      map_to_list 1001 "id-1" ui_fixtures.typed in
  ∃ item,
    storage.GetHistory (App.storage a') = [item]
    ∧ (itemValue h' item).1.1
      = ("id-1",
         ("POST", "example.com/x",
          [Header.mk "Content-Type" "application/json" true], "hi")).
Proof.
  pose proof (App_SendRequest_records fixtures.net fixtures.os fixtures.codec
                fixtures.json map_to_list 1001 "id-1"
                ui_fixtures.typed.1.1.1 ui_fixtures.typed.1.1.2
                ui_fixtures.typed.1.2 ui_fixtures.typed.2) as H.
  cbv zeta in H.
  change (ui_fixtures.typed.1.1.1, ui_fixtures.typed.1.1.2,
          ui_fixtures.typed.1.2, ui_fixtures.typed.2)
    with ui_fixtures.typed in H.
  destruct (App.SendRequest _ _ _ _ _ _ _ ui_fixtures.typed)
    as [[[a' h'] w'] d'].
  destruct H as (_ & _ & _ & _ & _ & _ & H).
  destruct H as (item & H1 & H2 & _); [vm_compute; reflexivity|].
  exists item. split.
  - rewrite H1.
    assert (E : storage.history (App.storage ui_fixtures.typed.1.1.1) = [])
      by (vm_compute; reflexivity).
    rewrite E. reflexivity.
  - rewrite H2. cbn [fst snd]. reflexivity.
Defined.

Lemma App_SaveTemplate_saves_the_form_witness :
  let '(_, a', h', _) :=
    App.SaveTemplate fixtures.os fixtures.codec fixtures.sorter
      1002 "id-2" "A" ui_fixtures.typed.1.1.1 ui_fixtures.typed.1.1.2 ∅ in
  ∃ t, t ∈ storage.GetTemplates (App.storage a')
       ∧ Template.Name t = "A"
       ∧ requestValue h' (Template.Request t)
         = ("POST", "example.com/x",
            [Header.mk "Content-Type" "application/json" true], "hi").
Proof.
  pose proof (App_SaveTemplate_saves_the_form fixtures.os fixtures.codec
                fixtures.sorter 1002 "id-2" "A"
                ui_fixtures.typed.1.1.1 ui_fixtures.typed.1.1.2 ∅) as H.
  destruct (App.SaveTemplate _ _ _ _ _ _ _ _ _) as [[[err a'] h'] d'].
  destruct H as ((t & Hin & Hn & Hv & _) & _).
  exists t. split; [exact Hin|]. split; [exact Hn|].
  rewrite Hv. reflexivity.
Defined.

Lemma failed_write_leaves_sidebar_witness :
  let '(err, a', _) :=
    App.ClearHistory fixtures.fullDisk fixtures.codec
      ui_fixtures.busyDesk.1 ui_fixtures.busyDesk.2 ∅ in
  err = Some (Err "write: no space left on device")
  ∧ storage.GetHistory (App.storage a') = []
  ∧ App.sidebar a' = App.sidebar ui_fixtures.busyDesk.1.
Proof.
  exact (proj2 (failed_write_leaves_sidebar fixtures.fullDisk fixtures.codec
                  ui_fixtures.busyDesk.1 ui_fixtures.busyDesk.2 ∅)
           _ _ eq_refl).
Defined.

End ui_props.
